(** * web_tool/Datasets.py: the dataset registry, verified against its description

    A shallow embedding of [web_tool/Datasets.py]: the shape loader
    [load_geojson_as_list], the client-config serializer
    [get_javascript_string_from_dataset] and the module-level loop that fills
    [DATASETS] from [DATASET_DEFINITIONS].

    Python values are an inductive type with Python's [repr]/[str]; exceptions
    are a result type; the module-level loop runs in a small state-and-error
    monad whose state survives a raise, as Python's side effects do.  What
    the module imports (fiona, shapely, utm, os.path.exists, ROOT_DIR) is the
    interface [World]. *)

From Stdlib Require Import ZArith QArith Qround String Ascii List Lia DecimalString.
From stdpp Require Import gmap strings list fin_maps.

Set Warnings "-register-all".
Local Open Scope string_scope.
Local Open Scope Z_scope.

(** ** Python values and their printing *)

Module Py.

(** Python's [float]: the operations the module applies to one.  IEEE
    arithmetic is not modelled: [float_of_int n] is the float of an integer
    (so [float_of_int 1000000] is the literal [1000000.0]), [float_truediv]
    is [/], [float_ltb] is [<] and [float_repr] is [repr]. *)
Class Float := {
  float : Type;
  float_repr : float -> string;
  float_of_int : Z -> float;
  float_truediv : float -> float -> float;
  float_ltb : float -> float -> bool
}.

Section Values.
Context `{FL : Float}.

(** A dict keeps its insertion order (Python 3.7); its keys are strings. *)
Inductive PyVal :=
| PyNone
| PyBool (b : bool)
| PyInt (z : Z)
| PyFloat (x : float)
| PyStr (s : string)
| PyList (l : list PyVal)
| PyDict (d : list (string * PyVal)).

Inductive Exc :=
| ValueError (msg : string)
| KeyError (key : string)
| IndexError
| TypeError
| LibraryError (msg : string).

Inductive result (A : Type) :=
| Ok (a : A)
| Raise (e : Exc).
#[global] Arguments Ok {A} a.
#[global] Arguments Raise {A} e.

Definition rbind {A B} (r : result A) (k : A -> result B) : result B :=
  match r with
  | Ok a => k a
  | Raise e => Raise e
  end.

(** One-character strings that cannot be written inside a literal. *)
Definition dquote : string := String (ascii_of_nat 34) EmptyString.
Definition newline : string := String (ascii_of_nat 10) EmptyString.

Definition str_of_int (z : Z) : string := NilZero.string_of_int (Z.to_int z).

Fixpoint contains_char (c : ascii) (s : string) : bool :=
  match s with
  | EmptyString => false
  | String c' s' => if Ascii.eqb c c' then true else contains_char c s'
  end.

Definition hex_digit (n : nat) : ascii :=
  match n with
  | 0%nat => "0" | 1%nat => "1" | 2%nat => "2" | 3%nat => "3"
  | 4%nat => "4" | 5%nat => "5" | 6%nat => "6" | 7%nat => "7"
  | 8%nat => "8" | 9%nat => "9" | 10%nat => "a" | 11%nat => "b"
  | 12%nat => "c" | 13%nat => "d" | 14%nat => "e" | _ => "f"
  end%char.

(** [repr] of one character of a [str], inside quotes [q].  Bytes from 128
    on are the UTF-8 of printable characters and are kept. *)
Definition repr_char (q c : ascii) : string :=
  let n := nat_of_ascii c in
  if Ascii.eqb c "\" then "\\"
  else if Ascii.eqb c q then String "\" (String c EmptyString)
  else if Nat.eqb n 10 then "\n"
  else if Nat.eqb n 13 then "\r"
  else if Nat.eqb n 9 then "\t"
  else if (Nat.ltb n 32 || Nat.eqb n 127)%bool
       then String "\" (String "x" (String (hex_digit (Nat.div n 16))
              (String (hex_digit (Nat.modulo n 16)) EmptyString)))
  else String c EmptyString.

Fixpoint repr_chars (q : ascii) (s : string) : string :=
  match s with
  | EmptyString => EmptyString
  | String c s' => repr_char q c +:+ repr_chars q s'
  end.

(** [repr] of a [str]: single quotes, unless the text has a single quote and
    no double quote. *)
Definition repr_str (s : string) : string :=
  let q := if (contains_char "'" s && negb (contains_char (ascii_of_nat 34) s))%bool
           then ascii_of_nat 34 else "'"%char in
  String q (repr_chars q s +:+ String q EmptyString).

Fixpoint join (sep : string) (l : list string) : string :=
  match l with
  | [] => EmptyString
  | [x] => x
  | x :: l' => x +:+ sep +:+ join sep l'
  end.

Fixpoint repr (v : PyVal) : string :=
  match v with
  | PyNone => "None"
  | PyBool true => "True"
  | PyBool false => "False"
  | PyInt z => str_of_int z
  | PyFloat x => float_repr x
  | PyStr s => repr_str s
  | PyList l => "[" +:+ join ", " (map repr l) +:+ "]"
  | PyDict d =>
      "{" +:+ join ", " (map (fun kv => match kv with
                                         | (k, v') => repr_str k +:+ ": " +:+ repr v'
                                         end) d) +:+ "}"
  end.

(** [str(v)], which is also what [format] puts for a bare replacement field. *)
Definition str (v : PyVal) : string :=
  match v with
  | PyStr s => s
  | _ => repr v
  end.

Fixpoint replace_go (old new s : string) (skip : nat) : string :=
  match s with
  | EmptyString => EmptyString
  | String c s' =>
      match skip with
      | S k => replace_go old new s' k
      | O => if String.prefix old s
             then new +:+ replace_go old new s' (String.length old - 1)
             else String c (replace_go old new s' 0)
      end
  end.

(** [s.replace(old, new)] for a non-empty [old]: the occurrences are taken
    from the left and do not overlap. *)
Definition replace (old new s : string) : string := replace_go old new s 0.

Fixpoint ends_with_slash (s : string) : bool :=
  match s with
  | EmptyString => false
  | String c EmptyString => Ascii.eqb c "/"
  | String _ s' => ends_with_slash s'
  end.

(** [os.path.join(a, b)] (posixpath). *)
Definition path_join (a b : string) : string :=
  if String.prefix "/" b then b
  else if (String.eqb a EmptyString || ends_with_slash a)%bool then a +:+ b
  else a +:+ "/" +:+ b.

(** [sub in s]. *)
Fixpoint contains (sub s : string) : bool :=
  if String.prefix sub s then true
  else match s with
       | EmptyString => false
       | String _ s' => contains sub s'
       end.

End Values.
End Py.
Import Py.

Notation "'let!' x ':=' e 'in' k" := (rbind e (fun x => k))
  (at level 10, x name, e at level 200, k at level 200, only parsing).
Notation "'let!' ' p ':=' e 'in' k" := (rbind e (fun x => match x with p => k end))
  (at level 10, p pattern, e at level 200, k at level 200, only parsing).

(** ** The shape loader *)

(** A feature's geometry, [row["geometry"]]: a dict with its ["type"] and its
    ["coordinates"], nested sequences of numbers. A feature may have none. *)
Record Geometry `{FL : Float} := {
  type : string;
  coordinates : PyVal
}.

Record Row `{FL : Float} := { geometry : option Geometry }.

(** [f.crs] of a fiona collection: a dict. *)
Definition CRS `{FL : Float} : Type := list (string * PyVal).

(** The imports of the module: fiona ([fiona_open fn] is the [crs] and the
    rows of [fiona.open(fn)]), utm, shapely, [os.path.exists], and [ROOT_DIR]
    of [web_tool]. A library call may raise. *)
Class World `{FL : Float} := {
  Shape : Type;
  ROOT_DIR : string;
  path_exists : string -> bool;
  fiona_open : string -> result (CRS * list Row);
  latlon_to_zone_number : PyVal -> PyVal -> result Z;
  transform_geom : CRS -> string -> Geometry -> result Geometry;
  shape : Geometry -> result Shape;
  area : Shape -> float
}.

Section Loader.
Context `{W : World}.

(** [d[key]] on a dict. *)
Fixpoint getitem (d : list (string * PyVal)) (key : string) : result PyVal :=
  match d with
  | [] => Raise (KeyError key)
  | (k, v) :: d' => if String.eqb k key then Ok v else getitem d' key
  end.

Fixpoint chars (s : string) : list PyVal :=
  match s with
  | EmptyString => []
  | String c s' => PyStr (String c EmptyString) :: chars s'
  end.

(** [v[0]]. *)
Definition index0 (v : PyVal) : result PyVal :=
  match v with
  | PyList (x :: _) => Ok x
  | PyList [] => Raise IndexError
  | PyStr (String c _) => Ok (PyStr (String c EmptyString))
  | PyStr EmptyString => Raise IndexError
  | PyDict _ => Raise (KeyError "0")
  | _ => Raise TypeError
  end.

(** [a, b = v]. *)
Definition unpack2 (v : PyVal) : result (PyVal * PyVal) :=
  let! items := match v with
           | PyList l => Ok l
           | PyStr s => Ok (chars s)
           | PyDict d => Ok (map (fun kv => PyStr (fst kv)) d)
           | _ => Raise TypeError
           end in
  match items with
  | [a; b] => Ok (a, b)
  | _ :: _ :: _ :: _ => Raise (ValueError "too many values to unpack (expected 2)")
  | _ => Raise (ValueError ("not enough values to unpack (expected 2, got "
                            +:+ str_of_int (Z.of_nat (length items)) +:+ ")"))
  end.

(** [v > 0]. *)
Definition gt_zero (v : PyVal) : result bool :=
  match v with
  | PyInt z => Ok (0 <? z)
  | PyFloat x => Ok (float_ltb (float_of_int 0) x)
  | PyBool b => Ok b
  | _ => Raise TypeError
  end.

(** Lines 277-283: the first vertex of the outer ring, as [(lon, lat)]. *)
Definition first_vertex (geom : Geometry) : result (PyVal * PyVal) :=
  if String.eqb (type geom) "Polygon" then
    let! ring := index0 (coordinates geom) in
    let! point := index0 ring in
    unpack2 point
  else if String.eqb (type geom) "MultiPolygon" then
    let! polygon := index0 (coordinates geom) in
    let! ring := index0 polygon in
    let! point := index0 ring in
    unpack2 point
  else Raise (ValueError "Polygons and MultiPolygons only").

Definition dest_crs_of (zone_number : Z) (hemisphere : string) : string :=
  "+proj=utm +zone=" +:+ str_of_int zone_number +:+ " " +:+ hemisphere
  +:+ " +datum=WGS84 +units=m +no_defs".

(** Lines 277-291, one turn of the loop: the shape and the area of a row. *)
Definition load_row (src_crs : CRS) (row : Row) : result (Shape * float) :=
  let! geom := match geometry row with
          | Some g => Ok g
          | None => Raise TypeError
          end in
  let! '(lon, lat) := first_vertex geom in
  let! zone_number := latlon_to_zone_number lat lon in
  let! north := gt_zero lat in
  let hemisphere := if north : bool then "+north" else "+south" in
  let dest_crs := dest_crs_of zone_number hemisphere in
  let! projected_geom := transform_geom src_crs dest_crs geom in
  let! projected_shape := shape projected_geom in
  let area_km2 := float_truediv (area projected_shape) (float_of_int 1000000) in
  let! shape_ := shape geom in
  Ok (shape_, area_km2).

(** The [for row in f] loop, with the two lists it appends to. *)
Fixpoint load_rows (src_crs : CRS) (rows : list Row)
    (shapes : list Shape) (areas : list float) : result (list Shape * list float) :=
  match rows with
  | [] => Ok (shapes, areas)
  | row :: rows' =>
      let! '(shape_, area_km2) := load_row src_crs row in
      load_rows src_crs rows' (shapes ++ [shape_]) (areas ++ [area_km2])
  end.

Definition load_geojson_as_list (fn : string)
    : result (list Shape * list float * CRS) :=
  let! '(src_crs, rows) := fiona_open fn in
  let! '(shapes, areas) := load_rows src_crs rows [] [] in
  Ok (shapes, areas, src_crs).

End Loader.

(** ** The declaration table *)

Inductive DatasetTypes := CUSTOM | USA_LAYER | BASEMAP.

Section Declarations.
Context `{W : World}.

(** What a declaration has under ["data_layer_type"]: a member of the enum,
    or some other value, which equals none of the members. *)
Inductive LayerType :=
| Member (t : DatasetTypes)
| NotMember (v : PyVal).

(** An entry of ["shape_layers"].  The keys ["geoms"], ["areas"] and ["crs"]
    are absent ([None]) until the loading loop sets them.  The dict's
    ["name"] is [layer_name] here. *)
Record ShapeLayer := {
  layer_name : string;
  shapes_fn : string;
  zone_name_key : option string;
  geoms : option (list Shape);
  areas : option (list float);
  crs : option PyVal
}.

Record TileLayer := { url : string; args : PyVal }.

Record Location := { center : PyVal; initialZoom : PyVal }.

(** A value of [DATASET_DEFINITIONS], with the keys the module reads.
    ["data_fn"], ["data_url"] and ["data_padding"] may be absent;
    ["shape_layers"] is [None] or a list. *)
Record Dataset := {
  name : string;
  imagery_metadata : string;
  data_layer_type : LayerType;
  data_fn : option string;
  data_url : option string;
  data_padding : option PyVal;
  leafletTileLayer : TileLayer;
  shape_layers : option (list ShapeLayer);
  location : Location
}.

(** Modelled from the spec: the classes of the module [DataLoader], which is
    not part of the sources at hand; the spec has them as opaque strategy
    objects, so an object is the class and the arguments it was built from. *)
Inductive DataLoader :=
| DataLoaderCustom (data_fn_ : string) (layers : gmap string ShapeLayer) (padding : PyVal)
| DataLoaderUSALayer (layers : gmap string ShapeLayer) (padding : PyVal)
| DataLoaderBasemap (data_url_ : string) (padding : PyVal).

(** A value of [DATASETS]; its ["shape_layers"] is [entry_shape_layers]. *)
Record Entry := {
  data_loader : DataLoader;
  entry_shape_layers : gmap string ShapeLayer;
  javascript_string : string
}.

(** ** The client-config serializer *)

(** Line 306: the dict built for one shape layer. *)
Definition shape_triple (shape_layer : ShapeLayer) : PyVal :=
  PyDict [("name", PyStr (layer_name shape_layer));
          ("shapes_fn", PyStr (shapes_fn shape_layer));
          ("zone_name_key", match zone_name_key shape_layer with
                            | Some k => PyStr k
                            | None => PyNone
                            end)].

(** Line 304: [outputs["kwargs"]]. *)
Definition outputs_kwargs (dataset : Dataset) : string :=
  replace "True" "true" (str (args (leafletTileLayer dataset))).

(** Lines 305-307: [outputs["shapes"]]. *)
Definition outputs_shapes (dataset : Dataset) : string :=
  match shape_layers dataset with
  | Some layers => replace "None" "null" (str (PyList (map shape_triple layers)))
  | None => "null"
  end.

(** Lines 310-312 of the template, up to the value of ["shapes"]. *)
Definition javascript_head (dataset : Dataset) : string :=
  "{" +:+ newline
  +:+ "        " +:+ dquote +:+ "location" +:+ dquote +:+ ": ["
  +:+ str (center (location dataset)) +:+ ", "
  +:+ str (initialZoom (location dataset)) +:+ ", "
  +:+ dquote +:+ name dataset +:+ dquote +:+ ", "
  +:+ dquote +:+ imagery_metadata dataset +:+ dquote +:+ "]," +:+ newline
  +:+ "        " +:+ dquote +:+ "tileObject" +:+ dquote +:+ ": L.tileLayer("
  +:+ dquote +:+ url (leafletTileLayer dataset) +:+ dquote +:+ ", "
  +:+ outputs_kwargs dataset +:+ ")," +:+ newline
  +:+ "        " +:+ dquote +:+ "shapes" +:+ dquote +:+ ": ".

Definition get_javascript_string_from_dataset (dataset : Dataset) : string :=
  javascript_head dataset +:+ outputs_shapes dataset +:+ newline +:+ "    }".

End Declarations.

(** ** The loop that loads each dataset (lines 320-366) *)

Section Registry.
Context `{W : World}.

(** What a turn of the loop acts on: the registry [DATASETS], the lines
    printed so far, and the declaration the loop variable [dataset] is bound
    to, which the turn mutates in place. *)
Record Store := {
  DATASETS : gmap string Entry;
  stdout : list string;
  dataset : Dataset
}.

(** A computation on the store that returns or raises; what it did to the
    store before a raise stays done. *)
Definition M (A : Type) : Type := Store -> Store * result A.

Definition ret {A} (a : A) : M A := fun s => (s, Ok a).

Definition bind {A B} (m : M A) (k : A -> M B) : M B :=
  fun s => match m s with
           | (s', Ok a) => k a s'
           | (s', Raise e) => (s', Raise e)
           end.

Definition lift {A} (r : result A) : M A := fun s => (s, r).

Notation "'do!' x ':=' e 'in' k" := (bind e (fun x => k))
  (at level 10, x name, e at level 200, k at level 200, only parsing).
Notation "'do!' ' p ':=' e 'in' k" := (bind e (fun x => match x with p => k end))
  (at level 10, p pattern, e at level 200, k at level 200, only parsing).

Definition print (line : string) : M unit :=
  fun s => ({| DATASETS := DATASETS s; stdout := stdout s ++ [line];
               dataset := dataset s |}, Ok tt).

Definition get_dataset : M Dataset := fun s => (s, Ok (dataset s)).

Definition with_shape_layers (d : Dataset) (layers : option (list ShapeLayer)) : Dataset :=
  {| name := name d; imagery_metadata := imagery_metadata d;
     data_layer_type := data_layer_type d; data_fn := data_fn d;
     data_url := data_url d; data_padding := data_padding d;
     leafletTileLayer := leafletTileLayer d; shape_layers := layers;
     location := location d |}.

(** The declaration's [j]-th shape layer, an object shared with the
    declaration, takes a new value. *)
Definition store_layer (j : nat) (shape_layer : ShapeLayer) : M unit :=
  fun s => ({| DATASETS := DATASETS s; stdout := stdout s;
               dataset := with_shape_layers (dataset s)
                            ((fun layers => <[j := shape_layer]> layers)
                               <$> shape_layers (dataset s)) |}, Ok tt).

(** [DATASETS[dataset_key] = entry]. *)
Definition setitem_DATASETS (dataset_key : string) (entry : Entry) : M unit :=
  fun s => ({| DATASETS := <[dataset_key := entry]> (DATASETS s);
               stdout := stdout s; dataset := dataset s |}, Ok tt).

Definition set_geoms (shapes : list Shape) (l : ShapeLayer) : ShapeLayer :=
  {| layer_name := layer_name l; shapes_fn := shapes_fn l;
     zone_name_key := zone_name_key l;
     geoms := Some shapes; areas := areas l; crs := crs l |}.

Definition set_areas (areas_ : list float) (l : ShapeLayer) : ShapeLayer :=
  {| layer_name := layer_name l; shapes_fn := shapes_fn l;
     zone_name_key := zone_name_key l;
     geoms := geoms l; areas := Some areas_; crs := crs l |}.

Definition set_crs (init : PyVal) (l : ShapeLayer) : ShapeLayer :=
  {| layer_name := layer_name l; shapes_fn := shapes_fn l;
     zone_name_key := zone_name_key l;
     geoms := geoms l; areas := areas l; crs := Some init |}.

(** The line that lines 338 and 346 print. *)
Definition warning (fn dataset_key : string) : string :=
  "WARNING: " +:+ fn
  +:+ " doesn't exist, this server will not be able to serve the '"
  +:+ dataset_key +:+ "' dataset".

(** Lines 330-339, one turn of the loop over the shape layers, for the
    [j]-th of them; [shape_layers] and [loaded] are the locals of line 324. *)
Definition load_shape_layer (dataset_key : string) (j : nat)
    (shape_layer : ShapeLayer) (shape_layers_ : gmap string ShapeLayer)
    (loaded : bool) : M (gmap string ShapeLayer * bool) :=
  let fn := path_join ROOT_DIR (shapes_fn shape_layer) in
  if path_exists fn then
    do! '(shapes, areas_, crs_) := lift (load_geojson_as_list fn) in
    let shape_layer := set_geoms shapes shape_layer in
    do! _ := store_layer j shape_layer in
    let shape_layer := set_areas areas_ shape_layer in
    do! _ := store_layer j shape_layer in
    do! init := lift (getitem crs_ "init") in
    let shape_layer := set_crs init shape_layer in
    do! _ := store_layer j shape_layer in
    ret (<[layer_name shape_layer := shape_layer]> shape_layers_, loaded)
  else
    do! _ := print (warning fn dataset_key) in
    ret (shape_layers_, false).

Fixpoint load_shape_layers (dataset_key : string) (layers : list ShapeLayer)
    (j : nat) (shape_layers_ : gmap string ShapeLayer) (loaded : bool)
    : M (gmap string ShapeLayer * bool) :=
  match layers with
  | [] => ret (shape_layers_, loaded)
  | shape_layer :: layers' =>
      do! '(shape_layers_, loaded) :=
        load_shape_layer dataset_key j shape_layer shape_layers_ loaded in
      load_shape_layers dataset_key layers' (S j) shape_layers_ loaded
  end.

(** [d[key]] for a key that may be absent. *)
Definition getkey {A} (key : string) (v : option A) : result A :=
  match v with
  | Some a => Ok a
  | None => Raise (KeyError key)
  end.

(** Lines 351-358. *)
Definition make_data_loader (d : Dataset) (shape_layers_ : gmap string ShapeLayer)
    : result DataLoader :=
  match data_layer_type d with
  | Member CUSTOM =>
      let! fn := getkey "data_fn" (data_fn d) in
      let! padding := getkey "data_padding" (data_padding d) in
      Ok (DataLoaderCustom fn shape_layers_ padding)
  | Member USA_LAYER =>
      let! padding := getkey "data_padding" (data_padding d) in
      Ok (DataLoaderUSALayer shape_layers_ padding)
  | Member BASEMAP =>
      let! data_url_ := getkey "data_url" (data_url d) in
      let! padding := getkey "data_padding" (data_padding d) in
      Ok (DataLoaderBasemap data_url_ padding)
  | NotMember _ => Raise (ValueError "DatasetType not recognized")
  end.

(** Lines 343-347. *)
Definition check_data_fn (dataset_key : string) (d : Dataset) (loaded : bool) : M bool :=
  match data_fn d with
  | Some data_fn_ =>
      let fn := path_join ROOT_DIR data_fn_ in
      if path_exists fn then ret loaded
      else do! _ := print (warning fn dataset_key) in ret false
  | None => ret loaded
  end.

(** Lines 324-339: the locals [loaded = True] and [shape_layers = {}], and
    the loop over the shape layers unless ["shape_layers"] is [None]. *)
Definition load_layers (dataset_key : string) (d : Dataset)
    : M (gmap string ShapeLayer * bool) :=
  match shape_layers d with
  | Some layers => load_shape_layers dataset_key layers 0 ∅ true
  | None => ret (∅, true)
  end.

(** Lines 322-366: the body of the loop, for one item of
    [DATASET_DEFINITIONS]. *)
Definition process_dataset (dataset_key : string) : M unit :=
  do! d := get_dataset in
  do! '(shape_layers_, loaded) := load_layers dataset_key d in
  do! loaded := check_data_fn dataset_key d loaded in
  if loaded : bool then
    do! data_loader_ := lift (make_data_loader d shape_layers_) in
    do! d' := get_dataset in
    setitem_DATASETS dataset_key
      {| data_loader := data_loader_;
         entry_shape_layers := shape_layers_;
         javascript_string := get_javascript_string_from_dataset d' |}
  else ret tt.

(** Line 320: the loop over the items of [DATASET_DEFINITIONS], from a
    registry and an output; it gives back the declarations as the turns left
    them, and stops at the first raise. *)
Fixpoint load_datasets (items : list (string * Dataset))
    (registry : gmap string Entry) (out : list string)
    : list (string * Dataset) * gmap string Entry * list string * result unit :=
  match items with
  | [] => ([], registry, out, Ok tt)
  | (dataset_key, d) :: items' =>
      match process_dataset dataset_key
              {| DATASETS := registry; stdout := out; dataset := d |} with
      | (s, Ok _) =>
          match load_datasets items' (DATASETS s) (stdout s) with
          | (items'', registry', out', r) =>
              ((dataset_key, dataset s) :: items'', registry', out', r)
          end
      | (s, Raise e) =>
          ((dataset_key, dataset s) :: items', DATASETS s, stdout s, Raise e)
      end
  end.

(** The parts of what the loop gives back. *)
Definition definitions_of {A B C D} (x : A * B * C * D) : A := x.1.1.1.
Definition registry_of {A B C D} (x : A * B * C * D) : B := x.1.1.2.
Definition output_of {A B C D} (x : A * B * C * D) : C := x.1.2.
Definition outcome_of {A B C D} (x : A * B * C * D) : D := x.2.

(** Importing the module: [DATASETS = {}], nothing printed yet. *)
Definition import_module (DATASET_DEFINITIONS : list (string * Dataset)) :=
  load_datasets DATASET_DEFINITIONS ∅ [].

(** *** The files a declaration refers to *)

Definition layer_path (shape_layer : ShapeLayer) : string :=
  path_join ROOT_DIR (shapes_fn shape_layer).

Definition layers_of (d : Dataset) : list ShapeLayer :=
  match shape_layers d with
  | Some layers => layers
  | None => []
  end.

Definition data_path (d : Dataset) : list string :=
  match data_fn d with
  | Some data_fn_ => [path_join ROOT_DIR data_fn_]
  | None => []
  end.

(** The joined paths the turn tests with [os.path.exists], in the order it
    tests them. *)
Definition referenced_files (d : Dataset) : list string :=
  map layer_path (layers_of d) ++ data_path d.

Definition missing (fns : list string) : list string :=
  List.filter (fun fn => negb (path_exists fn)) fns.

Definition missing_files (d : Dataset) : list string :=
  missing (referenced_files d).

(** The shape layer's file, if it is there, loads and its crs has an
    ["init"]. *)
Definition layer_loads (shape_layer : ShapeLayer) : Prop :=
  path_exists (layer_path shape_layer) = true ->
  exists shapes areas_ crs_ init,
    load_geojson_as_list (layer_path shape_layer) = Ok (shapes, areas_, crs_)
    /\ getitem crs_ "init" = Ok init.

(** The shape layer after its turn, when [layer_loads] holds. *)
Definition enriched (shape_layer : ShapeLayer) : ShapeLayer :=
  if path_exists (layer_path shape_layer) then
    match load_geojson_as_list (layer_path shape_layer) with
    | Ok (shapes, areas_, crs_) =>
        match getitem crs_ "init" with
        | Ok init => set_crs init (set_areas areas_ (set_geoms shapes shape_layer))
        | Raise _ => shape_layer
        end
    | Raise _ => shape_layer
    end
  else shape_layer.

(** The local [shape_layers] after the turns of [layers]. *)
Definition registered (layers : list ShapeLayer) (m : gmap string ShapeLayer)
    : gmap string ShapeLayer :=
  fold_left (fun m shape_layer =>
               if path_exists (layer_path shape_layer)
               then <[layer_name shape_layer := enriched shape_layer]> m
               else m) layers m.

(** The declaration's [i]-th shape layer. *)
Definition layer_at (d : Dataset) (i : nat) : option ShapeLayer := layers_of d !! i.

(** Every shape layer of the declaration loads, if its file is there. *)
Definition files_load (d : Dataset) : Prop := Forall layer_loads (layers_of d).

(** The declaration after its turn, when [files_load] holds. *)
Definition enriched_dataset (d : Dataset) : Dataset :=
  with_shape_layers d (map enriched <$> shape_layers d).

End Registry.

(** ** A small world to run the module in

    Rationals stand in for floats, a geometry is its own shape, and
    reprojection leaves it as it is. The content root holds a few boundary
    files and one raster. *)

Module Sample.

Definition float_Q : Float :=
  {| float := Q;
     float_repr := fun q =>
       if Pos.eqb (Qden q) 1 then str_of_int (Qnum q) +:+ ".0"
       else str_of_int (Qnum q) +:+ "/" +:+ str_of_int (Zpos (Qden q));
     float_of_int := fun z => Qmake z 1;
     float_truediv := fun a b => Qred (Qdiv a b);
     float_ltb := fun a b => negb (Qle_bool b a) |}.

(** A vertex, [(lon, lat)], in whole degrees. *)
Definition point (lon lat : Z) : @PyVal float_Q :=
  PyList [@PyFloat float_Q (Qmake lon 1); @PyFloat float_Q (Qmake lat 1)].

Definition square : @Geometry float_Q :=
  {| type := "Polygon";
     coordinates := PyList [PyList [point (-75) 42; point (-74) 42; point (-74) 43;
                                    point (-75) 43; point (-75) 42]] |}.

Definition islands : @Geometry float_Q :=
  {| type := "MultiPolygon";
     coordinates := PyList [PyList [PyList [point 96 (-16); point 97 (-16);
                                            point 97 (-15); point 96 (-16)]]] |}.

Definition a_point : @Geometry float_Q :=
  {| type := "Point"; coordinates := point (-75) 42 |}.

Definition row_of (g : @Geometry float_Q) : @Row float_Q := {| geometry := Some g |}.

(** A feature without a geometry. *)
Definition bare_row : @Row float_Q := {| geometry := None |}.

Definition epsg4326 : @CRS float_Q := [("init", PyStr "epsg:4326")].

Definition files : list (string * list (@Row float_Q)) :=
  [("/srv/landcover/shapes/grid.geojson", [row_of square; row_of islands]);
   ("/srv/landcover/shapes/wells.geojson", [row_of a_point]);
   ("/srv/landcover/shapes/mixed.geojson", [bare_row; row_of a_point]);
   ("/srv/landcover/shapes/outline.geojson", [row_of square]);
   ("/srv/landcover/shapes/blocks.geojson", [row_of islands]);
   ("/srv/landcover/shapes/parcels.geojson",
    [row_of square; row_of a_point; row_of islands])].

Fixpoint find_file (fn : string) (fs : list (string * list (@Row float_Q)))
    : option (list (@Row float_Q)) :=
  match fs with
  | [] => None
  | (p, rows) :: fs' => if String.eqb p fn then Some rows else find_file fn fs'
  end.

Definition zone_of (lon : Z) : Z := (lon + 180) / 6 + 1.

Definition world : @World float_Q :=
  {| Shape := @Geometry float_Q;
     ROOT_DIR := "/srv/landcover";
     path_exists := fun fn =>
       match find_file fn files with
       | Some _ => true
       | None => String.eqb fn "/srv/landcover/tiles/area.tif"
       end;
     fiona_open := fun fn =>
       match find_file fn files with
       | Some rows => Ok (epsg4326, rows)
       | None => Raise (LibraryError "No such file or directory")
       end;
     latlon_to_zone_number := fun lat lon =>
       match lon with
       | PyFloat q => Ok (zone_of (Qfloor q))
       | PyInt z => Ok (zone_of z)
       | _ => Raise TypeError
       end;
     transform_geom := fun _ _ geom => Ok geom;
     shape := fun geom => Ok geom;
     area := fun _ => Qmake 2500000 1 |}.

Definition layer (layer_name_ shapes_fn_ : string) : @ShapeLayer float_Q world :=
  {| layer_name := layer_name_; shapes_fn := shapes_fn_; zone_name_key := None;
     geoms := None; areas := None; crs := None |}.

Definition declaration (kind : @LayerType float_Q) (data_fn_ : option string)
    (args_ : @PyVal float_Q) (layers : option (list (@ShapeLayer float_Q world)))
    : @Dataset float_Q world :=
  {| name := "Sample Area"; imagery_metadata := "NAIP Imagery";
     data_layer_type := kind; data_fn := data_fn_; data_url := None;
     data_padding := Some (PyInt 20);
     leafletTileLayer := {| url := "tiles/sample/{z}/{x}/{y}.png"; args := args_ |};
     shape_layers := layers;
     location := {| center := PyList [PyInt 38; PyInt (-88)]; initialZoom := PyInt 4 |} |}.

Definition tile_args (tms : bool) : @PyVal float_Q :=
  PyDict [("tms", PyBool tms); ("minZoom", PyInt 13); ("bounds", PyNone);
          ("attribution", PyStr "Georeferenced Image")].

Definition grid := layer "Grid" "shapes/grid.geojson".
Definition outline := layer "Outline" "shapes/outline.geojson".
Definition blocks := layer "Blocks" "shapes/blocks.geojson".
Definition wells := layer "Wells" "shapes/wells.geojson".
Definition roads := layer "Roads" "shapes/roads.geojson".

Definition grid_path : string := "/srv/landcover/shapes/grid.geojson".
Definition roads_path : string := "/srv/landcover/shapes/roads.geojson".

(** A custom raster whose file is there, over the given layers. *)
Definition custom (layers : option (list (@ShapeLayer float_Q world)))
    : @Dataset float_Q world :=
  declaration (Member CUSTOM) (Some "tiles/area.tif") (tile_args true) layers.

(** A declaration of a kind that is no member of [DatasetTypes]. *)
Definition tiled (data_fn_ : option string)
    (layers : option (list (@ShapeLayer float_Q world))) : @Dataset float_Q world :=
  declaration (NotMember (PyStr "TILED")) data_fn_ (tile_args true) layers.

Definition start (d : @Dataset float_Q world) : @Store float_Q world :=
  {| DATASETS := ∅; stdout := []; dataset := d |}.

(** The turn of the loop for [d], under the key ["sample"], from an empty
    registry. *)
Definition run (d : @Dataset float_Q world) :=
  @process_dataset float_Q world "sample" (start d).

Definition load (fn : string) := @load_geojson_as_list float_Q world fn.

End Sample.

(** ** When a turn returns, and what it leaves *)

Section Turns.
Context `{W : World}.

(** Lines 351-358 return for the declaration, given the layers its turn
    registers. *)
Definition factory_returns (d : Dataset) : Prop :=
  exists data_loader_, make_data_loader d (registered (layers_of d) ∅) = Ok data_loader_.

(** The turn of a declaration has nothing to raise: its shape files load, if
    they are there, and when no file is missing the factory returns. *)
Definition turn_returns (d : Dataset) : Prop :=
  files_load d /\ (missing_files d = [] -> factory_returns d).

(** The lines the turn of a declaration prints when it returns. *)
Definition warnings_of (dataset_key : string) (d : Dataset) : list string :=
  map (fun fn => warning fn dataset_key) (missing_files d).

(** The entry line 360 builds from a declaration and its data loader. *)
Definition entry_of (d : Dataset) (data_loader_ : DataLoader) : Entry :=
  {| data_loader := data_loader_;
     entry_shape_layers := registered (layers_of d) ∅;
     javascript_string := get_javascript_string_from_dataset (enriched_dataset d) |}.

(** What the serializer reads of a shape layer. *)
Definition declared_fields (l : ShapeLayer) : string * string * option string :=
  (layer_name l, shapes_fn l, zone_name_key l).

(** The registry after the turn of an item that returns: with the item's
    entry under its key if no file of it is missing, as it was otherwise. *)
Definition register_item (registry : gmap string Entry) (item : string * Dataset)
    : gmap string Entry :=
  match missing_files item.2 with
  | [] =>
      match make_data_loader item.2 (registered (layers_of item.2) ∅) with
      | Ok data_loader_ => <[item.1 := entry_of item.2 data_loader_]> registry
      | Raise _ => registry
      end
  | _ :: _ => registry
  end.

(** An item after its turn, when the turn returns. *)
Definition enriched_item (item : string * Dataset) : string * Dataset :=
  (item.1, enriched_dataset item.2).

(** How a computation ends, what it leaves of the declaration and what it
    adds to the output are the same from two stores that hold the same
    declaration: it reads neither the registry nor what was printed. *)
Definition independent {A} (m : M A) : Prop :=
  forall s s', dataset s = dataset s' ->
    (m s).2 = (m s').2
    /\ dataset (m s).1 = dataset (m s').1
    /\ exists more, stdout (m s).1 = (stdout s ++ more)%list
                    /\ stdout (m s').1 = (stdout s' ++ more)%list.

End Turns.

(** ** The table [DATASET_DEFINITIONS] (lines 45-268) *)

(** The float a literal of the source denotes: [float_literal t] is
    [float(t)]. *)
Class FloatLiteral `{FL : Float} := { float_literal : string -> float }.

Section Table.
Context `{W : World} `{FLit : !FloatLiteral}.

(** A shape layer as the table writes it. *)
Definition shape_layer (name_ shapes_fn_ : string) (zone_name_key_ : option string)
    : ShapeLayer :=
  {| layer_name := name_; shapes_fn := shapes_fn_; zone_name_key := zone_name_key_;
     geoms := None; areas := None; crs := None |}.

Definition esri_url : string :=
  "https://server.arcgisonline.com/ArcGIS/rest/services/World_Imagery/MapServer/tile/{z}/{y}/{x}".

Definition esri_args : PyVal :=
  PyDict [("minZoom", PyInt 4); ("maxZoom", PyInt 20);
          ("attribution", PyStr "Tiles &copy; Esri &mdash; Source: Esri, i-cubed, USDA, USGS, AEX, GeoEye, Getmapping, Aerogrid, IGN, IGP, UPR-EGP, and the GIS User Community")].

(** The options of a tiled image: [tms], the three zooms, the attribution. *)
Definition georeferenced_args (minZoom maxNativeZoom maxZoom : Z) : PyVal :=
  PyDict [("tms", PyBool true); ("minZoom", PyInt minZoom);
          ("maxNativeZoom", PyInt maxNativeZoom); ("maxZoom", PyInt maxZoom);
          ("attribution", PyStr "Georeferenced Image")].

Definition esri_world_imagery : Dataset :=
  {| name := "ESRI World Imagery"; imagery_metadata := "ESRI World Imagery";
     data_layer_type := Member BASEMAP;
     data_fn := None; data_url := Some esri_url;
     data_padding := Some (PyFloat (float_literal "0.0005"));
     leafletTileLayer := {| url := esri_url; args := esri_args |};
     shape_layers := None;
     location := {| center := PyList [PyInt 38; PyInt (-88)]; initialZoom := PyInt 4 |} |}.

Definition esri_world_imagery_naip : Dataset :=
  {| name := "ESRI World Imagery"; imagery_metadata := "ESRI World Imagery";
     data_layer_type := Member USA_LAYER;
     data_fn := None; data_url := None; data_padding := Some (PyInt 20);
     leafletTileLayer := {| url := esri_url; args := esri_args |};
     shape_layers := None;
     location := {| center := PyList [PyInt 38; PyInt (-88)]; initialZoom := PyInt 4 |} |}.

Definition user_study_5 : Dataset :=
  {| name := "User Study Area 5"; imagery_metadata := "NAIP Imagery";
     data_layer_type := Member CUSTOM;
     data_fn := Some "tiles/user_study_5.tif"; data_url := None;
     data_padding := Some (PyInt 20);
     leafletTileLayer := {| url := "tiles/user_study_5/{z}/{x}/{y}.png";
                            args := georeferenced_args 13 18 20 |};
     shape_layers :=
       Some [shape_layer "Area boundary" "shapes/user_study_5_outline.geojson" None];
     location := {| center := PyList [PyFloat (float_literal "42.448269618302362");
                                      PyFloat (float_literal "-75.110429001207137")];
                    initialZoom := PyInt 13 |} |}.

Definition yangon_sentinel : Dataset :=
  {| name := "Yangon, Myanmar"; imagery_metadata := "Sentinel Imagery";
     data_layer_type := Member CUSTOM;
     data_fn := Some "tiles/yangon.tif"; data_url := None;
     data_padding := Some (PyInt 1100);
     leafletTileLayer := {| url := "tiles/yangon/{z}/{x}/{y}.png";
                            args := georeferenced_args 10 16 20 |};
     shape_layers :=
       Some [shape_layer "States" "shapes/yangon_sentinel_admin_1_clipped.geojson" (Some "ST");
             shape_layer "Districts" "shapes/yangon_sentinel_admin_2_clipped.geojson" (Some "DT");
             shape_layer "Townships" "shapes/yangon_sentinel_admin_3_clipped.geojson" (Some "TS");
             shape_layer "Wards" "shapes/yangon_sentinel_admin_4_clipped.geojson" (Some "Ward")];
     location := {| center := PyList [PyFloat (float_literal "16.66177");
                                      PyFloat (float_literal "96.326427")];
                    initialZoom := PyInt 10 |} |}.

Definition hcmc_sentinel : Dataset :=
  {| name := "Hồ Chí Minh City, Vietnam"; imagery_metadata := "Sentinel Imagery";
     data_layer_type := Member CUSTOM;
     data_fn := Some "tiles/hcmc_sentinel.tif"; data_url := None;
     data_padding := Some (PyInt 1100);
     leafletTileLayer := {| url := "tiles/hcmc_sentinel_tiles/{z}/{x}/{y}.png";
                            args := georeferenced_args 10 16 20 |};
     shape_layers :=
       Some [shape_layer "Provinces" "shapes/hcmc_sentinel_admin_1_clipped.geojson" (Some "NAME_1");
             shape_layer "Districts" "shapes/hcmc_sentinel_admin_2_clipped.geojson" (Some "NAME_2");
             shape_layer "Wards" "shapes/hcmc_sentinel_admin_3_clipped.geojson" (Some "NAME_3")];
     location := {| center := PyList [PyFloat (float_literal "10.682");
                                      PyFloat (float_literal "106.752")];
                    initialZoom := PyInt 11 |} |}.

Definition yangon_lidar : Dataset :=
  {| name := "Yangon, Myanmar"; imagery_metadata := "LiDAR Imagery";
     data_layer_type := Member CUSTOM;
     data_fn := Some "tiles/yangon_lidar.tif"; data_url := None;
     data_padding := Some (PyInt 20);
     leafletTileLayer := {| url := "tiles/yangon_lidar/{z}/{x}/{y}.png";
                            args := georeferenced_args 10 20 21 |};
     shape_layers :=
       Some [shape_layer "States" "shapes/yangon_lidar_admin_1_clipped.geojson" (Some "ST");
             shape_layer "Districts" "shapes/yangon_lidar_admin_2_clipped.geojson" (Some "DT");
             shape_layer "Townships" "shapes/yangon_lidar_admin_3_clipped.geojson" (Some "TS");
             shape_layer "Wards" "shapes/yangon_lidar_admin_4_clipped.geojson" (Some "Ward")];
     location := {| center := PyList [PyFloat (float_literal "16.7870");
                                      PyFloat (float_literal "96.1450")];
                    initialZoom := PyInt 15 |} |}.

Definition hcmc_dg : Dataset :=
  {| name := "Thủ Đức District, Hồ Chí Minh City, Vietnam";
     imagery_metadata := "Digital Globe Imagery";
     data_layer_type := Member CUSTOM;
     data_fn := Some "tiles/HCMC.tif"; data_url := None;
     data_padding := Some (PyInt 0);
     leafletTileLayer := {| url := "tiles/HCMC/{z}/{x}/{y}.png";
                            args := georeferenced_args 14 18 21 |};
     shape_layers :=
       Some [shape_layer "Provinces" "shapes/hcmc_digital-globe_admin_1_clipped.geojson" (Some "NAME_1");
             shape_layer "Districts" "shapes/hcmc_digital-globe_admin_2_clipped.geojson" (Some "NAME_2");
             shape_layer "Wards" "shapes/hcmc_digital-globe_admin_3_clipped.geojson" (Some "NAME_3")];
     location := {| center := PyList [PyFloat (float_literal "10.838");
                                      PyFloat (float_literal "106.750")];
                    initialZoom := PyInt 14 |} |}.

Definition airbus : Dataset :=
  {| name := "Virginia, USA"; imagery_metadata := "Airbus Imagery";
     data_layer_type := Member CUSTOM;
     data_fn := Some "tiles/airbus_epsg4326.tif"; data_url := None;
     data_padding := Some (PyFloat (float_literal "0.003"));
     leafletTileLayer := {| url := "tiles/airbus/{z}/{x}/{y}.png";
                            args := georeferenced_args 13 18 21 |};
     shape_layers :=
       Some [shape_layer "Grid" "shapes/airbus-data-grid-epsg4326.geojson" None];
     location := {| center := PyList [PyFloat (float_literal "36.80");
                                      PyFloat (float_literal "-76.12")];
                    initialZoom := PyInt 14 |} |}.

Definition chesapeake : Dataset :=
  {| name := "Maryland, USA"; imagery_metadata := "NAIP Imagery";
     data_layer_type := Member USA_LAYER;
     data_fn := None; data_url := None; data_padding := Some (PyInt 20);
     leafletTileLayer := {| url := "tiles/chesapeake_test/{z}/{x}/{y}.png";
                            args := georeferenced_args 2 18 20 |};
     shape_layers := None;
     location := {| center := PyList [PyFloat (float_literal "38.11437");
                                      PyFloat (float_literal "-75.99980")];
                    initialZoom := PyInt 10 |} |}.

(** The table, in the order of the source. The key ["bounds"] of a location
    is left out: nothing in the module reads it. *)
Definition DATASET_DEFINITIONS : list (string * Dataset) :=
  [("esri_world_imagery", esri_world_imagery);
   ("esri_world_imagery_naip", esri_world_imagery_naip);
   ("user_study_5", user_study_5);
   ("yangon_sentinel", yangon_sentinel);
   ("hcmc_sentinel", hcmc_sentinel);
   ("yangon_lidar", yangon_lidar);
   ("hcmc_dg", hcmc_dg);
   ("airbus", airbus);
   ("chesapeake", chesapeake)].

End Table.

(** ** More of the small world *)

Module Sample2.
Import Sample.

(** The rational a decimal literal writes: sign, digits, point, digits. *)
Fixpoint decimal_value (s : string) (numerator : Z) (denominator : positive)
    (after_point : bool) : Q :=
  match s with
  | EmptyString => Qred (Qmake numerator denominator)
  | String c s' =>
      if Ascii.eqb c "." then decimal_value s' numerator denominator true
      else
        let digit := Z.of_nat (nat_of_ascii c) - 48 in
        decimal_value s' (10 * numerator + digit)
          (if after_point then (10 * denominator)%positive else denominator)
          after_point
  end.

Definition decimal (t : string) : Q :=
  match t with
  | String "-" t' => Qopp (decimal_value t' 0 1 false)
  | _ => decimal_value t 0 1 false
  end.

Definition float_literal_Q : @FloatLiteral float_Q :=
  @Build_FloatLiteral float_Q decimal.

(** A Polygon whose vertices have an elevation. *)
Definition spire : @Geometry float_Q :=
  {| type := "Polygon";
     coordinates :=
       PyList [PyList [PyList [@PyFloat float_Q (Qmake (-75) 1);
                               @PyFloat float_Q (Qmake 42 1);
                               @PyFloat float_Q (Qmake 310 1)]]] |}.

(** A MultiPolygon without a polygon. *)
Definition nothing : @Geometry float_Q :=
  {| type := "MultiPolygon"; coordinates := PyList [] |}.

(** The world of [Sample], with files whose crs is given without an
    ["init"]. *)
Definition longlat : @CRS float_Q := [("proj", PyStr "longlat"); ("datum", PyStr "WGS84")].

Definition plain_world : @World float_Q :=
  {| Shape := @Shape float_Q world;
     ROOT_DIR := @ROOT_DIR float_Q world;
     path_exists := @path_exists float_Q world;
     fiona_open := fun fn =>
       match @fiona_open float_Q world fn with
       | Ok (_, rows) => Ok (longlat, rows)
       | Raise e => Raise e
       end;
     latlon_to_zone_number := @latlon_to_zone_number float_Q world;
     transform_geom := @transform_geom float_Q world;
     shape := @shape float_Q world;
     area := @area float_Q world |}.

Definition plain_layer (layer_name_ shapes_fn_ : string) : @ShapeLayer float_Q plain_world :=
  {| layer_name := layer_name_; shapes_fn := shapes_fn_; zone_name_key := None;
     geoms := None; areas := None; crs := None |}.

(** A custom raster over the given layers, in [plain_world]. *)
Definition plain_custom (layers : list (@ShapeLayer float_Q plain_world))
    : @Dataset float_Q plain_world :=
  {| name := "Sample Area"; imagery_metadata := "NAIP Imagery";
     data_layer_type := Member CUSTOM; data_fn := Some "tiles/area.tif";
     data_url := None; data_padding := Some (PyInt 20);
     leafletTileLayer := {| url := "tiles/sample/{z}/{x}/{y}.png";
                            args := tile_args true |};
     shape_layers := Some layers;
     location := {| center := PyList [PyInt 38; PyInt (-88)]; initialZoom := PyInt 4 |} |}.

(** A declaration of a known kind without ["data_padding"]. *)
Definition unpadded : @Dataset float_Q world :=
  {| name := "Sample Area"; imagery_metadata := "NAIP Imagery";
     data_layer_type := Member USA_LAYER; data_fn := None;
     data_url := None; data_padding := None;
     leafletTileLayer := {| url := "tiles/sample/{z}/{x}/{y}.png";
                            args := tile_args true |};
     shape_layers := Some [grid];
     location := {| center := PyList [PyInt 38; PyInt (-88)]; initialZoom := PyInt 4 |} |}.

(** Two shape layers of one name. *)
Definition grid_again := layer "Grid" "shapes/outline.geojson".

End Sample2.

(** ** Properties of the shape loader *)

Section LoaderProperties.
Context `{W : World}.

Lemma rbind_Ok {A B} (r : result A) (k : A -> result B) (b : B) :
  rbind r k = Ok b -> exists a, r = Ok a /\ k a = Ok b.
Proof. destruct r as [a|e]; simpl; [eauto | discriminate]. Qed.

(** The loop appends, row by row, what [load_row] gives for the row. *)
Lemma load_rows_Ok src_crs rows : forall shapes areas_ shapes' areas',
  load_rows src_crs rows shapes areas_ = Ok (shapes', areas') ->
  exists results,
    Forall2 (fun row r => load_row src_crs row = Ok r) rows results
    /\ shapes' = (shapes ++ map fst results)%list
    /\ areas' = (areas_ ++ map snd results)%list.
Proof.
  induction rows as [|row rows IH]; intros shapes areas_ shapes' areas' H; simpl in H.
  - inversion H; subst. exists []. rewrite !app_nil_r. auto.
  - apply rbind_Ok in H as [[sh a] [Hrow H]].
    apply IH in H as (results & HF & -> & ->).
    exists ((sh, a) :: results). simpl. rewrite <- !app_assoc. auto.
Qed.

(** A row that raises stops the loop with that error, if the rows before it
    went through. *)
Lemma load_rows_Raise src_crs pre row post e : forall shapes areas_,
  Forall (fun r => exists res, load_row src_crs r = Ok res) pre ->
  load_row src_crs row = Raise e ->
  load_rows src_crs (pre ++ row :: post)%list shapes areas_ = Raise e.
Proof.
  induction pre as [|r pre IH]; intros shapes areas_ Hpre Hrow; simpl.
  - rewrite Hrow. reflexivity.
  - inversion Hpre as [|? ? [[sh a] Hr] Hpre']; subst.
    rewrite Hr. simpl. apply IH; assumption.
Qed.

(** Whatever the rows before it do, a row that raises keeps the loop from
    returning. *)
Lemma load_rows_not_Ok src_crs pre row post e : forall shapes areas_,
  load_row src_crs row = Raise e ->
  exists e', load_rows src_crs (pre ++ row :: post)%list shapes areas_ = Raise e'.
Proof.
  induction pre as [|r pre IH]; intros shapes areas_ Hrow; simpl.
  - rewrite Hrow. simpl. eauto.
  - destruct (load_row src_crs r) as [[sh a]|e0]; simpl; eauto.
Qed.

Lemma first_vertex_unsupported (geom : Geometry) :
  type geom <> "Polygon" -> type geom <> "MultiPolygon" ->
  first_vertex geom = Raise (ValueError "Polygons and MultiPolygons only").
Proof.
  intros H1 H2. unfold first_vertex.
  destruct (String.eqb_spec (type geom) "Polygon"); [contradiction|].
  destruct (String.eqb_spec (type geom) "MultiPolygon"); [contradiction|].
  reflexivity.
Qed.

Lemma load_row_unsupported src_crs row geom :
  geometry row = Some geom ->
  type geom <> "Polygon" -> type geom <> "MultiPolygon" ->
  load_row src_crs row = Raise (ValueError "Polygons and MultiPolygons only").
Proof.
  intros Hg H1 H2. unfold load_row. rewrite Hg. simpl.
  rewrite first_vertex_unsupported by assumption. reflexivity.
Qed.

Lemma load_geojson_as_list_Ok fn shapes areas_ crs_ :
  load_geojson_as_list fn = Ok (shapes, areas_, crs_) ->
  exists rows results,
    fiona_open fn = Ok (crs_, rows)
    /\ Forall2 (fun row r => load_row crs_ row = Ok r) rows results
    /\ shapes = map fst results /\ areas_ = map snd results.
Proof.
  unfold load_geojson_as_list. intros H.
  apply rbind_Ok in H as [[src_crs rows] [Hopen H]].
  apply rbind_Ok in H as [[shapes' areas'] [Hrows H]].
  inversion H; subst.
  apply load_rows_Ok in Hrows as (results & HF & -> & ->).
  exists rows, results. auto.
Qed.

(** What [load_row] did, when it returned. *)
Lemma load_row_Ok src_crs row shape_ area_km2 :
  load_row src_crs row = Ok (shape_, area_km2) ->
  exists geom lon lat zone_number north projected_geom projected_shape,
    geometry row = Some geom
    /\ first_vertex geom = Ok (lon, lat)
    /\ latlon_to_zone_number lat lon = Ok zone_number
    /\ gt_zero lat = Ok north
    /\ transform_geom src_crs
         (dest_crs_of zone_number (if north : bool then "+north" else "+south")) geom
       = Ok projected_geom
    /\ shape projected_geom = Ok projected_shape
    /\ shape geom = Ok shape_
    /\ area_km2 = float_truediv (area projected_shape) (float_of_int 1000000).
Proof.
  unfold load_row. intros H.
  apply rbind_Ok in H as [geom [Hg H]].
  apply rbind_Ok in H as [[lon lat] [Hv H]].
  apply rbind_Ok in H as [zone_number [Hz H]].
  apply rbind_Ok in H as [north [Hn H]].
  apply rbind_Ok in H as [projected_geom [Ht H]].
  apply rbind_Ok in H as [projected_shape [Hs H]].
  apply rbind_Ok in H as [sh [Hsh H]].
  inversion H; subst.
  destruct (geometry row) as [g|]; [|discriminate]. inversion Hg; subst.
  exists geom, lon, lat, zone_number, north, projected_geom, projected_shape.
  repeat split; assumption.
Qed.

(** C4. When [load_geojson_as_list] returns, the geometries and the areas it
    returns are equally many, as many as the file's rows, and index by
    index they are the shape and the area [load_row] computed for that row. *)
Theorem load_geojson_as_list_parallel fn shapes areas_ crs_ :
  load_geojson_as_list fn = Ok (shapes, areas_, crs_) ->
  length shapes = length areas_
  /\ exists rows,
       fiona_open fn = Ok (crs_, rows)
       /\ length rows = length shapes
       /\ forall i row, rows !! i = Some row ->
            exists shape_ area_km2,
              shapes !! i = Some shape_
              /\ areas_ !! i = Some area_km2
              /\ load_row crs_ row = Ok (shape_, area_km2).
Proof.
  intros H. apply load_geojson_as_list_Ok in H as (rows & results & Hopen & HF & -> & ->).
  split; [by rewrite !length_map|].
  exists rows. split; [assumption|]. split.
  - rewrite length_map. eapply Forall2_length; eassumption.
  - intros i row Hi.
    destruct (Forall2_lookup_l _ _ _ _ _ HF Hi) as ([sh a] & Hr & Hrow).
    exists sh, a. rewrite !list_lookup_fmap, Hr. auto.
Qed.

(** What is indexed gave a list: it was the head of a list. *)
Lemma index0_PyList (v : PyVal) (l : list PyVal) :
  index0 v = Ok (PyList l) -> exists rest, v = PyList (PyList l :: rest).
Proof.
  destruct v as [| | | |s|l0|d]; simpl; try discriminate.
  - destruct s; discriminate.
  - destruct l0 as [|x rest]; [discriminate|]. intros [= ->]. by exists rest.
Qed.

(** A vertex that unpacks into two values, the second of which compares with
    [0], is a pair of coordinates: a string or a dict would unpack into
    strings. *)
Lemma unpack2_gt_zero (p lon lat : PyVal) (north : bool) :
  unpack2 p = Ok (lon, lat) -> gt_zero lat = Ok north -> p = PyList [lon; lat].
Proof.
  destruct p as [| | | |s|l|d]; simpl; try discriminate.
  - destruct s as [|c1 [|c2 [|c3 s]]]; simpl; try discriminate.
    intros [= <- <-]. discriminate.
  - destruct l as [|a [|b [|c l]]]; simpl; try discriminate.
    by intros [= -> ->].
  - destruct d as [|[k1 v1] [|[k2 v2] [|[k3 v3] d]]]; simpl; try discriminate.
    intros [= <- <-]. discriminate.
Qed.

(** Lines 277-281: where the first vertex of a feature that loads is. *)
Lemma first_vertex_Ok (geom : Geometry) (lon lat : PyVal) (north : bool) :
  first_vertex geom = Ok (lon, lat) ->
  gt_zero lat = Ok north ->
  (type geom = "Polygon"
   /\ exists more rings,
        coordinates geom = PyList (PyList (PyList [lon; lat] :: more) :: rings))
  \/ (type geom = "MultiPolygon"
      /\ exists more rings polygons,
           coordinates geom
           = PyList (PyList (PyList (PyList [lon; lat] :: more) :: rings) :: polygons)).
Proof.
  unfold first_vertex. intros Hv Hn.
  destruct (String.eqb_spec (type geom) "Polygon") as [Hp|_].
  - left. split; [assumption|].
    apply rbind_Ok in Hv as [ring [Hring Hv]].
    apply rbind_Ok in Hv as [point [Hpoint Hv]].
    rewrite (unpack2_gt_zero _ _ _ _ Hv Hn) in Hpoint.
    apply index0_PyList in Hpoint as [more ->].
    apply index0_PyList in Hring as [rings ->]. by exists more, rings.
  - destruct (String.eqb_spec (type geom) "MultiPolygon") as [Hm|_]; [|discriminate].
    right. split; [assumption|].
    apply rbind_Ok in Hv as [polygon [Hpolygon Hv]].
    apply rbind_Ok in Hv as [ring [Hring Hv]].
    apply rbind_Ok in Hv as [point [Hpoint Hv]].
    rewrite (unpack2_gt_zero _ _ _ _ Hv Hn) in Hpoint.
    apply index0_PyList in Hpoint as [more ->].
    apply index0_PyList in Hring as [rings ->].
    apply index0_PyList in Hpolygon as [polygons ->]. by exists more, rings, polygons.
Qed.

(** Line 286: [lat > 0] of a latitude that compares with [0]. *)
Lemma gt_zero_Ok (lat : PyVal) (north : bool) :
  gt_zero lat = Ok north ->
  match lat with
  | PyInt z => north = (0 <? z)%Z
  | PyFloat x => north = float_ltb (float_of_int 0) x
  | PyBool b => north = b
  | _ => False
  end.
Proof. destruct lat; simpl; try discriminate; by intros [= <-]. Qed.

(** C7. For every row of a file that loads, the geometry returned at its
    index is the shape of the row's own geometry, as read, in the source
    crs. The area at that index is the area of the shape of the geometry
    reprojected from the source crs into the UTM projection of the row's
    own first vertex, divided by 1000000.0: the vertex [(lon, lat)] is the
    first of the first ring (of the first polygon, for a MultiPolygon), the
    zone is what [utm.latlon_to_zone_number(lat, lon)] gives for it, the
    hemisphere is north exactly when [lat > 0], and the projection is
    ["+proj=utm +zone=<zone> +north|+south +datum=WGS84 +units=m +no_defs"].
    The reprojected geometry goes nowhere else. *)
Theorem load_geojson_as_list_original_geometry fn shapes areas_ crs_ :
  load_geojson_as_list fn = Ok (shapes, areas_, crs_) ->
  exists rows,
    fiona_open fn = Ok (crs_, rows)
    /\ forall i row, rows !! i = Some row ->
         exists geom lon lat zone_number north projected_geom projected_shape shape_,
           geometry row = Some geom
           /\ ((type geom = "Polygon"
                /\ exists more rings,
                     coordinates geom
                     = PyList (PyList (PyList [lon; lat] :: more) :: rings))
               \/ (type geom = "MultiPolygon"
                   /\ exists more rings polygons,
                        coordinates geom
                        = PyList (PyList (PyList (PyList [lon; lat] :: more) :: rings)
                                  :: polygons)))
           /\ latlon_to_zone_number lat lon = Ok zone_number
           /\ match lat with
              | PyInt z => north = (0 <? z)%Z
              | PyFloat x => north = float_ltb (float_of_int 0) x
              | PyBool b => north = b
              | _ => False
              end
           /\ transform_geom crs_
                ("+proj=utm +zone=" +:+ NilZero.string_of_int (Z.to_int zone_number)
                 +:+ " " +:+ (if north : bool then "+north" else "+south")
                 +:+ " +datum=WGS84 +units=m +no_defs")
                geom = Ok projected_geom
           /\ shape projected_geom = Ok projected_shape
           /\ shape geom = Ok shape_
           /\ shapes !! i = Some shape_
           /\ areas_ !! i
              = Some (float_truediv (area projected_shape) (float_of_int 1000000)).
Proof.
  intros H. apply load_geojson_as_list_Ok in H as (rows & results & Hopen & HF & -> & ->).
  exists rows. split; [assumption|].
  intros i row Hi.
  destruct (Forall2_lookup_l _ _ _ _ _ HF Hi) as ([sh a] & Hr & Hrow).
  apply load_row_Ok in Hrow
    as (geom & lon & lat & zone_number & north & pg & ps
        & Hg & Hv & Hz & Hn & Ht & Hps & Hsh & ->).
  exists geom, lon, lat, zone_number, north, pg, ps, sh.
  rewrite !list_lookup_fmap, Hr. cbn [fmap option_fmap option_map fst snd].
  split; [assumption|]. split; [exact (first_vertex_Ok geom lon lat north Hv Hn)|].
  split; [assumption|]. split; [exact (gt_zero_Ok lat north Hn)|].
  split; [exact Ht|]. repeat split; assumption.
Qed.

(** C5, amended. A file with a feature whose geometry type is neither
    Polygon nor MultiPolygon never loads: [load_geojson_as_list] raises and
    returns nothing. What it raises is the error of line 283 when the rows
    before that feature went through; otherwise it is the error of an
    earlier row. *)
Theorem load_geojson_as_list_unsupported fn crs_ pre row post geom :
  fiona_open fn = Ok (crs_, (pre ++ row :: post)%list) ->
  geometry row = Some geom ->
  type geom <> "Polygon" -> type geom <> "MultiPolygon" ->
  (exists e, load_geojson_as_list fn = Raise e)
  /\ (Forall (fun r => exists res, load_row crs_ r = Ok res) pre ->
      load_geojson_as_list fn = Raise (ValueError "Polygons and MultiPolygons only")).
Proof.
  intros Hopen Hg H1 H2.
  pose proof (load_row_unsupported crs_ row geom Hg H1 H2) as Hrow.
  unfold load_geojson_as_list. rewrite Hopen. simpl. split.
  - destruct (load_rows_not_Ok crs_ pre row post _ [] [] Hrow) as [e' He'].
    exists e'. by rewrite He'.
  - intros Hpre. by rewrite (load_rows_Raise crs_ pre row post _ [] [] Hpre Hrow).
Qed.

End LoaderProperties.

(** ** Properties of the serializer *)

Section SerializerProperties.
Context `{W : World}.

(** C3, amended. A declaration whose ["shape_layers"] is [None] has the
    null literal as its ["shapes"]: the serialized string ends with it, and
    it is not the empty list literal. *)
Theorem shapes_null_when_shape_layers_is_None (d : Dataset) :
  shape_layers d = None ->
  outputs_shapes d = "null"
  /\ outputs_shapes d <> "[]"
  /\ get_javascript_string_from_dataset d
     = javascript_head d +:+ "null" +:+ newline +:+ "    }".
Proof.
  intros H. unfold get_javascript_string_from_dataset, outputs_shapes.
  rewrite H. repeat split. discriminate.
Qed.

End SerializerProperties.

(** ** Properties of the loading loop *)

Section RegistryProperties.
Context `{W : World}.

Lemma insert_at_length {A} (pre : list A) (x y : A) (l : list A) :
  <[length pre := x]> (pre ++ y :: l)%list = (pre ++ x :: l)%list.
Proof. induction pre as [|a pre IH]; simpl; [reflexivity | by rewrite IH]. Qed.

Lemma missing_app (l1 l2 : list string) :
  missing (l1 ++ l2)%list = (missing l1 ++ missing l2)%list.
Proof. apply List.filter_app. Qed.

Lemma missing_nil_forallb (layers : list ShapeLayer) :
  forallb (fun l => path_exists (layer_path l)) layers = true
  <-> missing (map layer_path layers) = [].
Proof.
  induction layers as [|l layers IH]; simpl; [tauto|].
  unfold missing in *. simpl.
  destruct (path_exists (layer_path l)); simpl; [exact IH | split; discriminate].
Qed.

Lemma with_shape_layers_twice (d : Dataset) x y :
  with_shape_layers (with_shape_layers d x) y = with_shape_layers d y.
Proof. reflexivity. Qed.

Lemma with_shape_layers_same (d : Dataset) :
  with_shape_layers d (shape_layers d) = d.
Proof. by destruct d. Qed.

(** One turn, for a layer whose file loads if it is there. *)
Lemma load_shape_layer_loads dataset_key pre l layers m loaded s :
  layer_loads l ->
  shape_layers (dataset s) = Some (pre ++ l :: layers)%list ->
  load_shape_layer dataset_key (length pre) l m loaded s
  = ({| DATASETS := DATASETS s;
        stdout := (stdout s
                   ++ map (fun fn => warning fn dataset_key)
                          (missing [layer_path l]))%list;
        dataset := with_shape_layers (dataset s)
                     (Some (pre ++ enriched l :: layers)%list) |},
     Ok (registered [l] m, loaded && path_exists (layer_path l))).
Proof.
  intros Hl Hs. unfold load_shape_layer, enriched, registered, missing. simpl.
  fold (layer_path l). unfold layer_loads in Hl.
  destruct (path_exists (layer_path l)) eqn:Hex; simpl.
  - destruct (Hl eq_refl) as (shapes & areas_ & crs_ & init & Hload & Hinit).
    unfold enriched. rewrite Hex.
    unfold bind, lift, store_layer, ret. rewrite Hload, Hinit. simpl.
    rewrite Hs. simpl. rewrite !insert_at_length.
    by rewrite app_nil_r, andb_true_r.
  - unfold bind, print, ret. simpl. rewrite andb_false_r.
    rewrite <- Hs, with_shape_layers_same. reflexivity.
Qed.

Lemma missing_cons fn fns :
  missing (fn :: fns) = (missing [fn] ++ missing fns)%list.
Proof. apply (missing_app [fn] fns). Qed.

(** The turns over the shape layers, when each file that is there loads:
    a line for every missing file, in order; every layer whose file is there
    enriched in the declaration and entered in the local dict; the registry
    as it was. *)
Lemma load_shape_layers_loads dataset_key layers :
  Forall layer_loads layers ->
  forall pre m loaded s,
  shape_layers (dataset s) = Some (pre ++ layers)%list ->
  load_shape_layers dataset_key layers (length pre) m loaded s
  = ({| DATASETS := DATASETS s;
        stdout := (stdout s
                   ++ map (fun fn => warning fn dataset_key)
                          (missing (map layer_path layers)))%list;
        dataset := with_shape_layers (dataset s)
                     (Some (pre ++ map enriched layers)%list) |},
     Ok (registered layers m,
         loaded && forallb (fun l => path_exists (layer_path l)) layers)).
Proof.
  induction 1 as [|l layers Hl Hlayers IH]; intros pre m loaded s Hs.
  - simpl. unfold ret. rewrite andb_true_r, !app_nil_r.
    rewrite <- (app_nil_r pre), <- Hs, with_shape_layers_same.
    by destruct s.
  - cbn [load_shape_layers]. unfold bind at 1.
    rewrite (load_shape_layer_loads _ _ _ _ _ _ _ Hl Hs).
    specialize (IH (pre ++ [enriched l])%list).
    rewrite length_app in IH. cbn [length] in IH.
    replace (length pre + 1)%nat with (S (length pre)) in IH by lia.
    rewrite IH by (cbn [dataset]; simpl; by rewrite <- app_assoc).
    cbn [DATASETS stdout dataset map forallb].
    rewrite with_shape_layers_twice.
    rewrite (missing_cons (layer_path l) (map layer_path layers)), map_app.
    rewrite <- !app_assoc, andb_assoc. reflexivity.
Qed.

Lemma missing_files_split (d : Dataset) :
  missing_files d
  = (missing (map layer_path (layers_of d)) ++ missing (data_path d))%list.
Proof. apply missing_app. Qed.

(** The turn for one declaration, when each shape file that is there loads. *)
Lemma process_dataset_loads dataset_key s :
  files_load (dataset s) ->
  process_dataset dataset_key s
  = let d := dataset s in
    let s1 := {| DATASETS := DATASETS s;
                 stdout := (stdout s ++ map (fun fn => warning fn dataset_key)
                                            (missing_files d))%list;
                 dataset := enriched_dataset d |} in
    match missing_files d with
    | [] =>
        match make_data_loader d (registered (layers_of d) ∅) with
        | Ok data_loader_ =>
            ({| DATASETS :=
                  <[dataset_key :=
                      {| data_loader := data_loader_;
                         entry_shape_layers := registered (layers_of d) ∅;
                         javascript_string :=
                           get_javascript_string_from_dataset (enriched_dataset d) |}]>
                    (DATASETS s);
                stdout := stdout s1; dataset := dataset s1 |}, Ok tt)
        | Raise e => (s1, Raise e)
        end
    | _ :: _ => (s1, Ok tt)
    end.
Proof.
  intros Hload. cbv zeta. rewrite missing_files_split.
  unfold files_load, enriched_dataset, layers_of, data_path in *.
  unfold process_dataset, get_dataset. unfold bind at 1 2.
  destruct s as [reg out d]. cbn [dataset DATASETS stdout] in *.
  assert (Hfirst :
    load_layers dataset_key d {| DATASETS := reg; stdout := out; dataset := d |}
    = ({| DATASETS := reg;
          stdout := (out ++ map (fun fn => warning fn dataset_key)
                       (missing (map layer_path
                          match shape_layers d with Some l => l | None => [] end)))%list;
          dataset := with_shape_layers d (map enriched <$> shape_layers d) |},
       Ok (registered match shape_layers d with Some l => l | None => [] end ∅,
           forallb (fun l => path_exists (layer_path l))
                   match shape_layers d with Some l => l | None => [] end))).
  { unfold load_layers. destruct (shape_layers d) as [layers|] eqn:Hs.
    - rewrite (load_shape_layers_loads dataset_key layers Hload [] ∅ true
                 {| DATASETS := reg; stdout := out; dataset := d |} Hs).
      reflexivity.
    - assert (Hd : with_shape_layers d None = d)
        by (rewrite <- Hs; apply with_shape_layers_same).
      unfold ret. simpl. rewrite app_nil_r, Hd. reflexivity. }
  rewrite Hfirst. clear Hfirst.
  set (layers := match shape_layers d with Some l => l | None => [] end) in *.
  destruct (forallb (fun l => path_exists (layer_path l)) layers) eqn:Hall.
  - apply missing_nil_forallb in Hall as Hnil. rewrite Hnil. simpl.
    unfold check_data_fn. destruct (data_fn d) as [data_fn_|]; simpl.
    + unfold missing. simpl.
      destruct (path_exists (path_join ROOT_DIR data_fn_)); simpl.
      * unfold bind, ret, lift, get_dataset, setitem_DATASETS. simpl.
        destruct (make_data_loader d (registered layers ∅)); reflexivity.
      * unfold bind, ret, print. simpl. rewrite app_nil_r. reflexivity.
    + unfold bind, ret, lift, get_dataset, setitem_DATASETS. simpl.
      destruct (make_data_loader d (registered layers ∅)); reflexivity.
  - destruct (missing (map layer_path layers)) as [|fn fns] eqn:Hm.
    { apply missing_nil_forallb in Hm. congruence. }
    cbn [app]. unfold check_data_fn. destruct (data_fn d) as [data_fn_|]; simpl.
    + unfold missing. simpl.
      destruct (path_exists (path_join ROOT_DIR data_fn_)); simpl.
      * unfold bind, ret. simpl. rewrite app_nil_r. reflexivity.
      * unfold bind, ret, print. simpl. rewrite map_app, <- app_assoc. reflexivity.
    + unfold bind, ret. simpl. rewrite app_nil_r. reflexivity.
Qed.

(** *** What holds of a turn whatever the files hold *)

(** A turn over a shape layer leaves the registry alone, and when it returns
    [loaded] has gone to [False] if the file is missing. *)
Lemma load_shape_layer_registry dataset_key j l m loaded s :
  DATASETS (load_shape_layer dataset_key j l m loaded s).1 = DATASETS s
  /\ forall m' loaded',
       (load_shape_layer dataset_key j l m loaded s).2 = Ok (m', loaded') ->
       loaded' = loaded && path_exists (layer_path l).
Proof.
  unfold load_shape_layer. fold (layer_path l).
  destruct (path_exists (layer_path l)).
  - unfold bind, lift, store_layer, ret.
    destruct (load_geojson_as_list (layer_path l)) as [[[shapes areas_] crs_]|e];
      simpl; [|split; [reflexivity | discriminate]].
    destruct (getitem crs_ "init") as [init|e]; simpl;
      [|split; [reflexivity | discriminate]].
    split; [reflexivity|]. intros m' loaded' H. inversion H. by rewrite andb_true_r.
  - unfold bind, print, ret. simpl. split; [reflexivity|].
    intros m' loaded' H. inversion H. by rewrite andb_false_r.
Qed.

Lemma load_shape_layers_registry dataset_key layers : forall j m loaded s,
  DATASETS (load_shape_layers dataset_key layers j m loaded s).1 = DATASETS s
  /\ forall m' loaded',
       (load_shape_layers dataset_key layers j m loaded s).2 = Ok (m', loaded') ->
       loaded' = loaded && forallb (fun l => path_exists (layer_path l)) layers.
Proof.
  induction layers as [|l layers IH]; intros j m loaded s.
  - simpl. split; [reflexivity|]. intros m' loaded' H. inversion H.
    by rewrite andb_true_r.
  - cbn [load_shape_layers forallb]. unfold bind.
    destruct (load_shape_layer_registry dataset_key j l m loaded s) as [Hreg Hflag].
    destruct (load_shape_layer dataset_key j l m loaded s) as [s1 [[m1 b1]|e]];
      simpl in *; [|split; [assumption | discriminate]].
    destruct (IH (S j) m1 b1 s1) as [Hreg' Hflag'].
    split; [congruence|].
    intros m' loaded' H. rewrite (Hflag' _ _ H), (Hflag _ _ eq_refl).
    by rewrite andb_assoc.
Qed.

Lemma check_data_fn_registry dataset_key d loaded s :
  DATASETS (check_data_fn dataset_key d loaded s).1 = DATASETS s
  /\ exists loaded',
       (check_data_fn dataset_key d loaded s).2 = Ok loaded'
       /\ loaded' = loaded && forallb path_exists (data_path d).
Proof.
  unfold check_data_fn, data_path. destruct (data_fn d) as [data_fn_|]; simpl.
  - destruct (path_exists (path_join ROOT_DIR data_fn_)); simpl.
    + split; [reflexivity|]. exists loaded. by rewrite andb_true_r.
    + split; [reflexivity|]. exists false. by rewrite andb_false_r.
  - split; [reflexivity|]. exists loaded. by rewrite andb_true_r.
Qed.

Lemma missing_nil_forallb_paths (fns : list string) :
  forallb path_exists fns = true <-> missing fns = [].
Proof.
  induction fns as [|fn fns IH]; simpl; [tauto|].
  unfold missing in *. simpl.
  destruct (path_exists fn); simpl; [exact IH | split; discriminate].
Qed.

(** A turn either leaves the registry as it was, or no file is missing and it
    returns having set the entry of its own key. *)
Lemma process_dataset_registry dataset_key s :
  DATASETS (process_dataset dataset_key s).1 = DATASETS s
  \/ (missing_files (dataset s) = []
      /\ (process_dataset dataset_key s).2 = Ok tt
      /\ exists entry,
           DATASETS (process_dataset dataset_key s).1
           = <[dataset_key := entry]> (DATASETS s)).
Proof.
  remember (process_dataset dataset_key s) as x eqn:Hx.
  unfold process_dataset, get_dataset, bind in Hx.
  assert (Hfirst :
    let y := load_layers dataset_key (dataset s) s in
    DATASETS y.1 = DATASETS s
    /\ forall m' loaded', y.2 = Ok (m', loaded') ->
         loaded' = forallb (fun l => path_exists (layer_path l)) (layers_of (dataset s))).
  { unfold layers_of, load_layers. destruct (shape_layers (dataset s)) as [layers|].
    - apply (load_shape_layers_registry dataset_key layers 0 ∅ true s).
    - simpl. split; [reflexivity|]. intros m' loaded' H. by inversion H. }
  cbv zeta in Hfirst. revert Hx Hfirst.
  destruct (load_layers dataset_key (dataset s) s) as [s1 [[m1 b1]|e]];
    simpl; intros Hx [Hreg Hflag];
    [|left; by subst x].
  specialize (Hflag _ _ eq_refl).
  destruct (check_data_fn_registry dataset_key (dataset s) b1 s1)
    as [Hreg2 (b2 & Hres & Hb2)].
  revert Hx Hreg2 Hres.
  destruct (check_data_fn dataset_key (dataset s) b1 s1) as [s2 r2]; simpl.
  intros Hx Hreg2 ->. destruct b2.
  - symmetry in Hb2. apply andb_true_iff in Hb2 as [Hb1 Hdata].
    rewrite Hflag in Hb1.
    apply missing_nil_forallb in Hb1. apply missing_nil_forallb_paths in Hdata.
    unfold lift, setitem_DATASETS in Hx.
    destruct (make_data_loader (dataset s) m1) as [dl|e]; subst x; simpl.
    + right. rewrite missing_files_split, Hb1, Hdata.
      repeat split. eexists. rewrite Hreg2, Hreg. reflexivity.
    + left. congruence.
  - left. subst x. simpl. congruence.
Qed.

Lemma process_dataset_no_insert dataset_key s :
  missing_files (dataset s) <> [] ->
  DATASETS (process_dataset dataset_key s).1 = DATASETS s.
Proof.
  intros Hmiss.
  destruct (process_dataset_registry dataset_key s) as [H|[H _]];
    [assumption | contradiction].
Qed.

Lemma process_dataset_frame dataset_key s k :
  k <> dataset_key ->
  DATASETS (process_dataset dataset_key s).1 !! k = DATASETS s !! k.
Proof.
  intros Hk.
  destruct (process_dataset_registry dataset_key s) as [H|(_ & _ & entry & H)];
    rewrite H; [reflexivity | by rewrite lookup_insert_ne].
Qed.

(** *** The loop over the declarations *)

(** The loop picks up after a prefix that went through. *)
Lemma load_datasets_app pre : forall rest registry out items1 registry1 out1,
  load_datasets pre registry out = (items1, registry1, out1, Ok tt) ->
  load_datasets (pre ++ rest)%list registry out
  = (let x := load_datasets rest registry1 out1 in
     ((items1 ++ definitions_of x)%list, registry_of x, output_of x, outcome_of x)).
Proof.
  induction pre as [|[k d] pre IH]; intros rest registry out items1 registry1 out1 H.
  - simpl in H. inversion H; subst. simpl.
    by destruct (load_datasets rest registry1 out1) as [[[? ?] ?] ?].
  - simpl in *.
    destruct (process_dataset k {| DATASETS := registry; stdout := out; dataset := d |})
      as [s1 [[]|e]]; [|discriminate].
    destruct (load_datasets pre (DATASETS s1) (stdout s1)) as [[[i r] o] res] eqn:Hpre.
    inversion H; subst.
    rewrite (IH rest _ _ _ _ _ Hpre). reflexivity.
Qed.

(** A key that no declaration has keeps what the registry had under it. *)
Lemma load_datasets_other items k : forall registry out,
  ~ In k (map fst items) ->
  registry_of (load_datasets items registry out) !! k = registry !! k.
Proof.
  induction items as [|[k' d] items IH]; intros registry out Hk; [reflexivity|].
  simpl in Hk. simpl.
  pose proof (process_dataset_frame k'
                {| DATASETS := registry; stdout := out; dataset := d |} k) as Hf.
  destruct (process_dataset k' {| DATASETS := registry; stdout := out; dataset := d |})
    as [s1 [[]|e]]; simpl in Hf.
  - specialize (IH (DATASETS s1) (stdout s1)).
    destruct (load_datasets items (DATASETS s1) (stdout s1)) as [[[i r] o] res].
    unfold registry_of in *. simpl in *. rewrite IH by tauto. apply Hf. intros ->. tauto.
  - unfold registry_of. simpl. apply Hf. intros ->. tauto.
Qed.

(** With one declaration per key, the key of a declaration that lacks a file
    has no entry in the registry the import builds, however the import ends. *)
Lemma import_module_excludes items dataset_key d :
  NoDup (map fst items) ->
  In (dataset_key, d) items ->
  missing_files d <> [] ->
  registry_of (import_module items) !! dataset_key = None.
Proof.
  unfold import_module. intros Hnd Hin Hmiss.
  enough (H : forall registry out,
             registry_of (load_datasets items registry out) !! dataset_key
             = registry !! dataset_key) by (rewrite H; apply lookup_empty).
  induction items as [|[k' d'] items IH]; [destruct Hin|].
  intros registry out. simpl in Hnd. apply NoDup_cons in Hnd as [Hfresh Hnd].
  cbn [load_datasets].
  set (s0 := {| DATASETS := registry; stdout := out; dataset := d' |}).
  destruct Hin as [Heq|Hin].
  - inversion Heq; subst k' d'.
    pose proof (process_dataset_no_insert dataset_key s0 Hmiss) as Hno.
    destruct (process_dataset dataset_key s0) as [s1 [[]|e]]; simpl in Hno.
    + pose proof (load_datasets_other items dataset_key (DATASETS s1) (stdout s1)) as Ho.
      destruct (load_datasets items (DATASETS s1) (stdout s1)) as [[[i r] o] res].
      unfold registry_of in *. simpl in *. rewrite Ho, Hno; [reflexivity|].
      by rewrite <- list_elem_of_In.
    + unfold registry_of. simpl. by rewrite Hno.
  - assert (Hne : dataset_key <> k').
    { intros ->. apply Hfresh. apply list_elem_of_In.
      apply (in_map fst) in Hin. exact Hin. }
    pose proof (process_dataset_frame k' s0 dataset_key Hne) as Hf.
    destruct (process_dataset k' s0) as [s1 [[]|e]]; simpl in Hf.
    + specialize (IH Hnd Hin (DATASETS s1) (stdout s1)).
      destruct (load_datasets items (DATASETS s1) (stdout s1)) as [[[i r] o] res].
      unfold registry_of in *. simpl in *. by rewrite IH.
    + unfold registry_of. simpl. exact Hf.
Qed.

Lemma In_missing fn fns :
  In fn fns -> path_exists fn = false -> In fn (missing fns).
Proof.
  intros Hin Hex. unfold missing. apply List.filter_In. by rewrite Hex.
Qed.

Lemma present_plus_missing (layers : list ShapeLayer) :
  (length (List.filter (fun l => path_exists (layer_path l)) layers)
   + length (missing (map layer_path layers)))%nat = length layers.
Proof.
  unfold missing. induction layers as [|l layers IH]; simpl; [reflexivity|].
  destruct (path_exists (layer_path l)); simpl; lia.
Qed.

(** *** How far a turn gets *)

(** The turns over a first part of the shape layers whose files load, if
    they are there, leave the loop at the next layer, with those turns'
    warnings printed and those layers enriched. *)
Lemma load_shape_layers_prefix dataset_key pre :
  Forall layer_loads pre ->
  forall rest pre0 m loaded s,
  shape_layers (dataset s) = Some (pre0 ++ pre ++ rest)%list ->
  load_shape_layers dataset_key (pre ++ rest)%list (length pre0) m loaded s
  = load_shape_layers dataset_key rest (length pre0 + length pre)
      (registered pre m)
      (loaded && forallb (fun l => path_exists (layer_path l)) pre)
      {| DATASETS := DATASETS s;
         stdout := (stdout s
                    ++ map (fun fn => warning fn dataset_key)
                           (missing (map layer_path pre)))%list;
         dataset := with_shape_layers (dataset s)
                      (Some (pre0 ++ map enriched pre ++ rest)%list) |}.
Proof.
  induction 1 as [|l pre Hl Hpre IH]; intros rest pre0 m loaded s Hs.
  - simpl. rewrite andb_true_r, app_nil_r, Nat.add_0_r.
    simpl in Hs. rewrite <- Hs, with_shape_layers_same. by destruct s.
  - cbn [app load_shape_layers]. unfold bind at 1.
    rewrite (load_shape_layer_loads _ _ _ _ _ _ _ Hl Hs).
    specialize (IH rest (pre0 ++ [enriched l])%list).
    rewrite length_app in IH. cbn [length] in IH.
    replace (length pre0 + 1)%nat with (S (length pre0)) in IH by lia.
    rewrite IH by (cbn [dataset]; simpl; by rewrite <- app_assoc).
    cbn [DATASETS stdout dataset map forallb length].
    rewrite with_shape_layers_twice.
    rewrite (missing_cons (layer_path l) (map layer_path pre)), map_app.
    rewrite <- !app_assoc, andb_assoc.
    replace (S (length pre0) + length pre)%nat
      with (length pre0 + S (length pre))%nat by lia.
    reflexivity.
Qed.

Lemma layers_of_with_shape_layers (d : Dataset) (layers : list ShapeLayer) :
  layers_of (with_shape_layers d (Some layers)) = layers.
Proof. reflexivity. Qed.

(** One turn over a shape layer only adds to the output, and leaves the
    other layers of the declaration as they were, however it ends. *)
Lemma load_shape_layer_keeps dataset_key j l m loaded s :
  (exists more,
     stdout (load_shape_layer dataset_key j l m loaded s).1 = (stdout s ++ more)%list)
  /\ forall i, i <> j ->
       layer_at (dataset (load_shape_layer dataset_key j l m loaded s).1) i
       = layer_at (dataset s) i.
Proof.
  assert (Hstores : forall i, i <> j -> forall d, layers_of d !! i = layer_at (dataset s) i ->
            forall x, layers_of (with_shape_layers d
                        ((fun layers => <[j := x]> layers) <$> shape_layers d)) !! i
                      = layer_at (dataset s) i).
  { intros i Hi d Hd x. unfold layers_of in *.
    destruct (shape_layers d) as [layers|]; simpl in *; [|assumption].
    by rewrite list_lookup_insert_ne. }
  unfold load_shape_layer. destruct (path_exists (path_join ROOT_DIR (shapes_fn l))).
  - unfold bind, lift, ret, store_layer.
    destruct (load_geojson_as_list _) as [[[shapes areas_] crs_]|e]; simpl.
    + destruct (getitem crs_ "init") as [init|e]; simpl.
      * split; [exists []; by rewrite app_nil_r|].
        intros i Hi. unfold layer_at at 1.
        repeat (apply Hstores; [assumption|]). reflexivity.
      * split; [exists []; by rewrite app_nil_r|].
        intros i Hi. unfold layer_at at 1.
        repeat (apply Hstores; [assumption|]). reflexivity.
    + split; [exists []; by rewrite app_nil_r|]. reflexivity.
  - unfold bind, print, ret. simpl. split; [eauto|]. reflexivity.
Qed.

Lemma load_shape_layers_keeps dataset_key layers : forall j m loaded s,
  (exists more,
     stdout (load_shape_layers dataset_key layers j m loaded s).1
     = (stdout s ++ more)%list)
  /\ forall i, (i < j)%nat ->
       layer_at (dataset (load_shape_layers dataset_key layers j m loaded s).1) i
       = layer_at (dataset s) i.
Proof.
  induction layers as [|l layers IH]; intros j m loaded s.
  - simpl. split; [exists []; by rewrite app_nil_r|]. reflexivity.
  - cbn [load_shape_layers]. unfold bind.
    destruct (load_shape_layer_keeps dataset_key j l m loaded s) as [[more Hout] Hkeep].
    destruct (load_shape_layer dataset_key j l m loaded s) as [s1 [[m1 b1]|e]];
      simpl in *.
    + destruct (IH (S j) m1 b1 s1) as [[more' Hout'] Hkeep'].
      split.
      * exists (more ++ more')%list. by rewrite Hout', Hout, app_assoc.
      * intros i Hi. rewrite Hkeep' by lia. apply Hkeep. lia.
    + split; [eauto|]. intros i Hi. apply Hkeep. lia.
Qed.

(** After the shape layers, the turn only adds to the output and leaves the
    declaration as the shape layers' turns left it. *)
Lemma process_dataset_tail dataset_key s :
  dataset (process_dataset dataset_key s).1
  = dataset (load_layers dataset_key (dataset s) s).1
  /\ exists more,
       stdout (process_dataset dataset_key s).1
       = (stdout (load_layers dataset_key (dataset s) s).1 ++ more)%list.
Proof.
  unfold process_dataset, get_dataset, bind.
  destruct (load_layers dataset_key (dataset s) s) as [s1 [[m1 b1]|e]]; simpl;
    [|split; [reflexivity | exists []; by rewrite app_nil_r]].
  unfold check_data_fn.
  destruct (data_fn (dataset s)) as [data_fn_|]; simpl.
  - destruct (path_exists (path_join ROOT_DIR data_fn_)); simpl.
    + destruct b1; simpl.
      * unfold lift, setitem_DATASETS.
        destruct (make_data_loader (dataset s) m1); simpl;
          (split; [reflexivity | exists []; by rewrite app_nil_r]).
      * split; [reflexivity | exists []; by rewrite app_nil_r].
    + unfold bind, print, ret. simpl. split; [reflexivity | eauto].
  - destruct b1; simpl.
    + unfold lift, setitem_DATASETS.
      destruct (make_data_loader (dataset s) m1); simpl;
        (split; [reflexivity | exists []; by rewrite app_nil_r]).
    + split; [reflexivity | exists []; by rewrite app_nil_r].
Qed.

(** The file the turn tests after [n] others is the [n]-th shape layer's,
    or, after all the shape layers, the raster. *)
Lemma referenced_files_lookup (d : Dataset) before fn after :
  referenced_files d = (before ++ fn :: after)%list ->
  (exists l, layers_of d !! length before = Some l /\ layer_path l = fn)
  \/ (length (layers_of d) <= length before)%nat.
Proof.
  intros Href. destruct (layers_of d !! length before) as [l|] eqn:Hl.
  - left. exists l. split; [reflexivity|].
    assert (H : referenced_files d !! length before = Some fn).
    { rewrite Href. by rewrite list_lookup_middle. }
    unfold referenced_files in H.
    rewrite lookup_app_l in H
      by (rewrite length_map; eapply lookup_lt_Some; eassumption).
    rewrite list_lookup_fmap, Hl in H. simpl in H. congruence.
  - right. by apply lookup_ge_None.
Qed.

(** *** The claims about the loop *)

Lemma path_join_absolute (a b : string) :
  String.prefix "/" a = true -> String.prefix "/" (path_join a b) = true.
Proof.
  intros Ha. unfold path_join.
  destruct (String.prefix "/" b) eqn:Hb; [exact Hb|].
  destruct a as [|c a]; [discriminate|].
  assert (Hc : c = "/"%char).
  { cbn [String.prefix] in Ha. by destruct (ascii_dec "/" c). }
  subst c.
  assert (Hany : forall x, String.prefix "/" (String "/" x) = true).
  { intros x. cbn [String.prefix].
    destruct (ascii_dec "/" "/"); [by destruct x | contradiction]. }
  destruct (String.eqb (String "/" a) EmptyString || ends_with_slash (String "/" a))%bool;
    apply Hany.
Qed.

(** Every file the turn tests is [ROOT_DIR] joined with a declared path. *)
Lemma referenced_files_joined (d : Dataset) fn :
  In fn (referenced_files d) -> exists p, fn = path_join ROOT_DIR p.
Proof.
  unfold referenced_files, data_path, layer_path. intros H.
  apply in_app_or in H as [H|H].
  - apply in_map_iff in H as (l & <- & _). eauto.
  - destruct (data_fn d) as [p|]; [|destruct H].
    destruct H as [<-|[]]. eauto.
Qed.

(** The warning of a missing shape layer is printed once the loop reaches the
    layer. *)
Lemma missing_layer_warned dataset_key s pre l post :
  shape_layers (dataset s) = Some (pre ++ l :: post)%list ->
  Forall layer_loads pre ->
  path_exists (layer_path l) = false ->
  In (warning (layer_path l) dataset_key) (stdout (process_dataset dataset_key s).1).
Proof.
  intros Hs Hpre Hex.
  destruct (process_dataset_tail dataset_key s) as [_ [more ->]].
  apply in_or_app. left.
  unfold load_layers. rewrite Hs.
  rewrite (load_shape_layers_prefix dataset_key pre Hpre (l :: post) [] ∅ true s Hs).
  cbn [load_shape_layers]. unfold bind at 1.
  unfold load_shape_layer at 1. fold (layer_path l). rewrite Hex.
  unfold bind at 1, print at 1, ret at 1. cbn [fst snd DATASETS stdout dataset].
  match goal with
  | |- In _ (stdout (load_shape_layers ?k ?ls ?j ?m ?b ?s0).1) =>
      destruct (load_shape_layers_keeps k ls j m b s0) as [[more' ->] _]
  end.
  cbn [stdout]. apply in_or_app. left. apply in_or_app. right. by left.
Qed.

(** The text of a string is at the head of what is appended to it. *)
Lemma prefix_append (s t : string) : String.prefix s (s +:+ t) = true.
Proof.
  induction s as [|c s IH]; [by destruct t|].
  change (String c s +:+ t) with (String c (s +:+ t)). cbn [String.prefix].
  by destruct (ascii_dec c c).
Qed.

Lemma contains_here (sub s : string) :
  String.prefix sub s = true -> contains sub s = true.
Proof. intros H. destruct s; cbn [contains]; by rewrite H. Qed.

Lemma contains_later (sub a s : string) :
  contains sub s = true -> contains sub (a +:+ s) = true.
Proof.
  intros H. induction a as [|c a IH]; [exact H|].
  change (String c a +:+ s) with (String c (a +:+ s)). cbn [contains].
  by destruct (String.prefix sub (String c (a +:+ s))).
Qed.

(** The line of lines 338 and 346 has the path and the key in it. *)
Lemma warning_names (fn dataset_key : string) :
  contains fn (warning fn dataset_key) = true
  /\ contains dataset_key (warning fn dataset_key) = true.
Proof.
  unfold warning. split.
  - apply contains_later, contains_here, prefix_append.
  - do 3 apply contains_later. apply contains_here, prefix_append.
Qed.

(** C1, amended. If a file the declaration refers to is missing, the turn
    inserts nothing in [DATASETS], however it ends. The warning of the
    missing file is printed provided the shape layers tested before that
    file load with an ["init"] in their crs, if their files are there: the
    layers before it, or all of them when it is the raster. The warning is
    the line [WARNING: <path> doesn't exist, this server will not be able to
    serve the '<key>' dataset], which names the joined path of the file and
    the dataset's key. The path is [ROOT_DIR] joined with the declared one,
    absolute when [ROOT_DIR] is. And in a table with one declaration per
    key, the key of this declaration has no entry in the registry the import
    builds. *)
Theorem missing_file_excludes_dataset dataset_key s before fn after :
  referenced_files (dataset s) = (before ++ fn :: after)%list ->
  path_exists fn = false ->
  DATASETS (process_dataset dataset_key s).1 = DATASETS s
  /\ (Forall layer_loads (take (length before) (layers_of (dataset s))) ->
      In (warning fn dataset_key) (stdout (process_dataset dataset_key s).1))
  /\ warning fn dataset_key
     = "WARNING: " +:+ fn
       +:+ " doesn't exist, this server will not be able to serve the '"
       +:+ dataset_key +:+ "' dataset"
  /\ contains fn (warning fn dataset_key) = true
  /\ contains dataset_key (warning fn dataset_key) = true
  /\ (String.prefix "/" ROOT_DIR = true -> String.prefix "/" fn = true)
  /\ (forall items,
        NoDup (map fst items) -> In (dataset_key, dataset s) items ->
        registry_of (import_module items) !! dataset_key = None).
Proof.
  intros Href Hex.
  assert (Hin : In fn (referenced_files (dataset s)))
    by (rewrite Href; apply in_or_app; right; by left).
  pose proof (In_missing _ _ Hin Hex) as Hmiss.
  fold (missing_files (dataset s)) in Hmiss.
  assert (Hsome : missing_files (dataset s) <> [])
    by (intros Hnil; by rewrite Hnil in Hmiss).
  destruct (warning_names fn dataset_key) as [Hfn Hkey].
  split; [by apply process_dataset_no_insert|].
  split; [|split; [reflexivity|]; split; [exact Hfn|]; split; [exact Hkey|]; split];
    cycle 1.
  - intros Hroot. destruct (referenced_files_joined _ _ Hin) as [p ->].
    by apply path_join_absolute.
  - intros items Hnd Hitem.
    exact (import_module_excludes items dataset_key (dataset s) Hnd Hitem Hsome).
  - intros Hload.
    destruct (referenced_files_lookup _ _ _ _ Href) as [(l & Hl & <-)|Hlen].
    + assert (Hs : shape_layers (dataset s)
                   = Some (take (length before) (layers_of (dataset s))
                           ++ l :: drop (S (length before)) (layers_of (dataset s)))%list).
      { rewrite (take_drop_middle _ _ _ Hl). unfold layers_of in *.
        destruct (shape_layers (dataset s)); [reflexivity | discriminate]. }
      exact (missing_layer_warned dataset_key s _ l _ Hs Hload Hex).
    + rewrite firstn_all2 in Hload by assumption.
      rewrite (process_dataset_loads dataset_key s Hload). cbv zeta.
      assert (Hw : In (warning fn dataset_key)
                      (map (fun fn => warning fn dataset_key) (missing_files (dataset s))))
        by (apply (in_map (fun fn => warning fn dataset_key)); exact Hmiss).
      destruct (missing_files (dataset s)) as [|fn0 fns]; [destruct Hmiss|].
      cbn [fst stdout]. apply in_or_app. by right.
Qed.

(** C6, amended. A declaration whose source kind is no member of the enum,
    whose files are all there and whose shape files load with an ["init"] in
    their crs, stops the import: once the declarations before it went
    through, the loop raises the error of line 358, with the registry and
    the output as they were before that declaration, and the declarations
    after it untouched. *)
Theorem unknown_source_kind_raises pre dataset_key d rest v
    registry out items1 registry1 out1 :
  load_datasets pre registry out = (items1, registry1, out1, Ok tt) ->
  data_layer_type d = NotMember v ->
  missing_files d = [] ->
  files_load d ->
  load_datasets (pre ++ (dataset_key, d) :: rest)%list registry out
  = ((items1 ++ (dataset_key, enriched_dataset d) :: rest)%list, registry1, out1,
     Raise (ValueError "DatasetType not recognized")).
Proof.
  intros Hpre Hkind Hmiss Hload.
  rewrite (load_datasets_app pre _ _ _ _ _ _ Hpre). cbv zeta.
  cbn [load_datasets].
  rewrite (process_dataset_loads dataset_key
             {| DATASETS := registry1; stdout := out1; dataset := d |} Hload).
  cbn [dataset DATASETS stdout]. cbv zeta. rewrite Hmiss.
  unfold make_data_loader. rewrite Hkind. simpl.
  unfold definitions_of, registry_of, output_of, outcome_of. simpl.
  by rewrite app_nil_r.
Qed.

(** C8, amended. When the shape files that are there load with an ["init"]
    in their crs, the turn tests every file the declaration refers to and
    prints one warning for each missing one, in order, whatever was missing
    before it. With four shape layers, one of them the only missing file,
    the turn returns, prints that one warning, leaves the registry alone and
    has enriched the three other layers. *)
Theorem validation_reports_every_missing_file dataset_key s :
  files_load (dataset s) ->
  stdout (process_dataset dataset_key s).1
  = (stdout s ++ map (fun fn => warning fn dataset_key)
                     (missing_files (dataset s)))%list
  /\ forall layers fn,
       shape_layers (dataset s) = Some layers ->
       length layers = 4%nat ->
       In fn (map layer_path layers) ->
       missing_files (dataset s) = [fn] ->
       (process_dataset dataset_key s).2 = Ok tt
       /\ DATASETS (process_dataset dataset_key s).1 = DATASETS s
       /\ stdout (process_dataset dataset_key s).1
          = (stdout s ++ [warning fn dataset_key])%list
       /\ length (List.filter (fun l => path_exists (layer_path l)) layers) = 3%nat
       /\ shape_layers (dataset (process_dataset dataset_key s).1)
          = Some (map enriched layers)
       /\ forall l, In l layers -> path_exists (layer_path l) = true ->
            exists shapes areas_ crs_ init,
              load_geojson_as_list (layer_path l) = Ok (shapes, areas_, crs_)
              /\ getitem crs_ "init" = Ok init
              /\ enriched l = set_crs init (set_areas areas_ (set_geoms shapes l)).
Proof.
  intros Hload. rewrite (process_dataset_loads dataset_key s Hload). cbv zeta.
  split.
  - destruct (missing_files (dataset s)); [|reflexivity].
    by destruct (make_data_loader _ _).
  - intros layers fn Hs Hlen Hin Hmiss. rewrite Hmiss.
    cbn [fst snd DATASETS stdout dataset map]. repeat split.
    + rewrite missing_files_split in Hmiss. unfold layers_of in Hmiss.
      rewrite Hs in Hmiss.
      assert (Hone : length (missing (map layer_path layers)) = 1%nat).
      { assert (Hfn : In fn (missing (map layer_path layers))).
        { apply In_missing; [assumption|].
          assert (Hm : In fn (missing (referenced_files (dataset s)))).
          { fold (missing_files (dataset s)).
            rewrite missing_files_split. unfold layers_of. rewrite Hs, Hmiss.
            by left. }
          apply List.filter_In in Hm as [_ Hm]. by destruct (path_exists fn). }
        apply (f_equal (@length _)) in Hmiss. rewrite length_app in Hmiss.
        simpl in Hmiss. destruct (missing (map layer_path layers)); [destruct Hfn|].
        simpl in *. lia. }
      pose proof (present_plus_missing layers) as Hsum. lia.
    + unfold enriched_dataset. by rewrite Hs.
    + intros l Hl Hex.
      unfold files_load, layers_of in Hload. rewrite Hs in Hload.
      rewrite List.Forall_forall in Hload.
      destruct (Hload l Hl Hex) as (shapes & areas_ & crs_ & init & H1 & H2).
      exists shapes, areas_, crs_, init. repeat split; try assumption.
      unfold enriched. by rewrite Hex, H1, H2.
Qed.

(** C9, amended. A shape layer whose file is there and loads with an
    ["init"] in its crs is, after the turn, the declaration's layer with
    ["geoms"], ["areas"] and ["crs"] set from what the loader returned,
    provided the layers before it load in the same way, if their files are
    there. This is so whether or not another file is missing, in which case
    the turn inserts nothing in [DATASETS], and whatever the layers after it
    do. *)
Theorem existing_layers_enriched_regardless dataset_key s layers j l :
  shape_layers (dataset s) = Some layers ->
  layers !! j = Some l ->
  path_exists (layer_path l) = true ->
  Forall layer_loads (take (S j) layers) ->
  (exists shapes areas_ crs_ init,
     load_geojson_as_list (layer_path l) = Ok (shapes, areas_, crs_)
     /\ getitem crs_ "init" = Ok init
     /\ layer_at (dataset (process_dataset dataset_key s).1) j
        = Some {| layer_name := layer_name l; shapes_fn := shapes_fn l;
                  zone_name_key := zone_name_key l;
                  geoms := Some shapes; areas := Some areas_; crs := Some init |})
  /\ (missing_files (dataset s) <> [] ->
      DATASETS (process_dataset dataset_key s).1 = DATASETS s).
Proof.
  intros Hs Hj Hex Hupto. split; [|apply process_dataset_no_insert].
  rewrite (take_S_r _ _ _ Hj) in Hupto. apply Forall_app in Hupto as [Hpre Hl].
  apply Forall_cons in Hl as [Hl _].
  destruct (Hl Hex) as (shapes & areas_ & crs_ & init & Hload & Hinit).
  exists shapes, areas_, crs_, init. split; [assumption|]. split; [assumption|].
  destruct (process_dataset_tail dataset_key s) as [-> _].
  unfold load_layers. rewrite Hs.
  rewrite <- (take_drop_middle _ _ _ Hj) in Hs |- * at 1.
  rewrite (load_shape_layers_prefix dataset_key _ Hpre _ [] ∅ true s Hs).
  assert (Hlen : length (take j layers) = j)
    by (apply length_take_le; apply Nat.lt_le_incl; eapply lookup_lt_Some; eassumption).
  cbn [load_shape_layers app length]. rewrite Nat.add_0_l, Hlen. unfold bind at 1.
  match goal with
  | |- context [load_shape_layer ?k _ l ?m ?b ?s0] =>
      pose proof (load_shape_layer_loads k (map enriched (take j layers)) l
                    (drop (S j) layers) m b s0 Hl eq_refl) as Hstep
  end.
  rewrite length_map, Hlen in Hstep. rewrite Hstep. clear Hstep.
  match goal with
  | |- layer_at (dataset (load_shape_layers ?k ?ls ?i ?m ?b ?s0).1) _ = _ =>
      destruct (load_shape_layers_keeps k ls i m b s0) as [_ Hkeep]
  end.
  rewrite Hkeep by lia.
  unfold layer_at. cbn [dataset]. rewrite layers_of_with_shape_layers.
  rewrite list_lookup_middle by (by rewrite length_map, Hlen).
  unfold enriched. by rewrite Hex, Hload, Hinit.
Qed.

(** C10, amended. For a declaration whose source kind is no member of the
    enum and which refers to a missing file, the turn inserts nothing in
    [DATASETS], however it ends; and when the shape files that are there
    load with an ["init"] in their crs, it returns without raising, having
    printed the warnings of the missing files and nothing else. *)
Theorem unknown_kind_with_missing_file_is_skipped dataset_key s v fn :
  data_layer_type (dataset s) = NotMember v ->
  In fn (referenced_files (dataset s)) ->
  path_exists fn = false ->
  DATASETS (process_dataset dataset_key s).1 = DATASETS s
  /\ (files_load (dataset s) ->
      (process_dataset dataset_key s).2 = Ok tt
      /\ stdout (process_dataset dataset_key s).1
         = (stdout s ++ map (fun fn' => warning fn' dataset_key)
                            (missing_files (dataset s)))%list).
Proof.
  intros _ Hin Hex. pose proof (In_missing _ _ Hin Hex) as Hmiss.
  fold (missing_files (dataset s)) in Hmiss. split.
  - apply process_dataset_no_insert. intros Hnil. by rewrite Hnil in Hmiss.
  - intros Hload. rewrite (process_dataset_loads dataset_key s Hload). cbv zeta.
    destruct (missing_files (dataset s)); [destruct Hmiss|]. by split.
Qed.

End RegistryProperties.

(** ** More on the shape loader and the serializer *)

Section LoaderOutcome.
Context `{W : World}.

Lemma load_rows_Forall2 src_crs rows results : forall shapes areas_,
  Forall2 (fun row r => load_row src_crs row = Ok r) rows results ->
  load_rows src_crs rows shapes areas_
  = Ok ((shapes ++ map fst results)%list, (areas_ ++ map snd results)%list).
Proof.
  intros shapes areas_ H. revert shapes areas_.
  induction H as [|row [sh a] rows results Hrow _ IH]; intros shapes areas_.
  - simpl. by rewrite !app_nil_r.
  - simpl. rewrite Hrow. simpl. rewrite IH, <- !app_assoc. reflexivity.
Qed.

(** X1. What [load_geojson_as_list] does with a file, in full. It returns
    exactly when the file opens and every row goes through, and then it
    returns the rows' shapes and areas in the order of the file, with the
    file's crs; a file without rows gives two empty lists. If the file does
    not open it raises what [fiona.open] raised, and otherwise it raises
    what the first row that fails raised. *)
Theorem load_geojson_as_list_outcome fn :
  (forall shapes areas_ crs_,
     load_geojson_as_list fn = Ok (shapes, areas_, crs_)
     <-> exists rows results,
           fiona_open fn = Ok (crs_, rows)
           /\ Forall2 (fun row r => load_row crs_ row = Ok r) rows results
           /\ shapes = map fst results /\ areas_ = map snd results)
  /\ (forall crs_, fiona_open fn = Ok (crs_, []) ->
        load_geojson_as_list fn = Ok ([], [], crs_))
  /\ (forall e, fiona_open fn = Raise e -> load_geojson_as_list fn = Raise e)
  /\ (forall crs_ pre row post e,
        fiona_open fn = Ok (crs_, (pre ++ row :: post)%list) ->
        Forall (fun r => exists res, load_row crs_ r = Ok res) pre ->
        load_row crs_ row = Raise e ->
        load_geojson_as_list fn = Raise e).
Proof.
  split; [|split; [|split]].
  - intros shapes areas_ crs_. split; [apply load_geojson_as_list_Ok|].
    intros (rows & results & Hopen & HF & -> & ->).
    unfold load_geojson_as_list. rewrite Hopen. simpl.
    by rewrite (load_rows_Forall2 crs_ rows results [] [] HF).
  - intros crs_ Hopen. unfold load_geojson_as_list. by rewrite Hopen.
  - intros e Hopen. unfold load_geojson_as_list. by rewrite Hopen.
  - intros crs_ pre row post e Hopen Hpre Hrow.
    unfold load_geojson_as_list. rewrite Hopen. simpl.
    by rewrite (load_rows_Raise crs_ pre row post e [] [] Hpre Hrow).
Qed.

(** X2. Features the loader cannot take, besides those of another geometry
    type. A feature without a geometry raises [TypeError] (line 278); a
    Polygon or MultiPolygon with no ring, or whose first ring is empty,
    raises [IndexError] (lines 279, 281); one whose first vertex has a third
    coordinate raises the [ValueError] of unpacking too many values. *)
Theorem degenerate_features_raise src_crs (row : Row) :
  (geometry row = None -> load_row src_crs row = Raise TypeError)
  /\ (forall g, geometry row = Some g ->
        (type g = "Polygon" /\ (coordinates g = PyList []
                                \/ exists rings, coordinates g = PyList (PyList [] :: rings)))
        \/ (type g = "MultiPolygon"
            /\ (coordinates g = PyList []
                \/ (exists polygons, coordinates g = PyList (PyList [] :: polygons))
                \/ exists rings polygons,
                     coordinates g = PyList (PyList (PyList [] :: rings) :: polygons))) ->
        load_row src_crs row = Raise IndexError)
  /\ (forall g x y z more,
        geometry row = Some g ->
        (type g = "Polygon"
         /\ exists ring rings,
              coordinates g = PyList (PyList (PyList (x :: y :: z :: more) :: ring) :: rings))
        \/ (type g = "MultiPolygon"
            /\ exists ring rings polygons,
                 coordinates g
                 = PyList (PyList (PyList (PyList (x :: y :: z :: more) :: ring) :: rings)
                           :: polygons)) ->
        load_row src_crs row
        = Raise (ValueError "too many values to unpack (expected 2)")).
Proof.
  unfold load_row, first_vertex. split; [|split].
  - by intros ->.
  - intros g Hg H. rewrite Hg. cbn [rbind].
    destruct H as [[Ht Hc]|[Ht Hc]]; rewrite Ht; simpl.
    + by destruct Hc as [->|[rings ->]].
    + by destruct Hc as [->|[[polygons ->]|(rings & polygons & ->)]].
  - intros g x y z more Hg H. rewrite Hg. cbn [rbind].
    destruct H as [[Ht (ring & rings & Hc)]|[Ht (ring & rings & polygons & Hc)]];
      rewrite Ht, Hc; reflexivity.
Qed.

End LoaderOutcome.

Section Literals.
Context `{W : World}.

Lemma prefix_nil (s : string) : String.prefix EmptyString s = true.
Proof. by destruct s. Qed.

Lemma prefix_cons_inv a old c s :
  String.prefix (String a old) (String c s) = true -> c = a /\ String.prefix old s = true.
Proof.
  cbn [String.prefix]. destruct (ascii_dec a c) as [->|]; [by split | discriminate].
Qed.

Lemma prefix_head_neq a old c s :
  a <> c -> String.prefix (String a old) (String c s) = false.
Proof.
  intros Hne. cbn [String.prefix]. by destruct (ascii_dec a c).
Qed.

Lemma prefix_4_inv a b c d s :
  String.prefix (String a (String b (String c (String d EmptyString)))) s = true ->
  exists rest, s = String a (String b (String c (String d rest))).
Proof.
  destruct s as [|a1 [|a2 [|a3 [|a4 rest]]]]; intros H;
    try (apply prefix_cons_inv in H as [-> H]); try discriminate.
  - apply prefix_cons_inv in H as [-> H]; discriminate.
  - apply prefix_cons_inv in H as [-> H]. apply prefix_cons_inv in H as [-> H].
    discriminate.
  - apply prefix_cons_inv in H as [-> H]. apply prefix_cons_inv in H as [-> H].
    apply prefix_cons_inv in H as [-> H]. by exists rest.
Qed.

Lemma prefix_4 a b c d rest :
  String.prefix (String a (String b (String c (String d EmptyString))))
                (String a (String b (String c (String d rest)))) = true.
Proof.
  cbn [String.prefix].
  destruct (ascii_dec a a), (ascii_dec b b), (ascii_dec c c), (ascii_dec d d);
    try contradiction. apply prefix_nil.
Qed.

(** [replace] at an occurrence of a four-letter [old], and elsewhere. *)
Lemma replace_at_occurrence a b c d new rest :
  let old := String a (String b (String c (String d EmptyString))) in
  replace old new (String a (String b (String c (String d rest))))
  = new +:+ replace old new rest.
Proof.
  cbv zeta. unfold replace. cbn [replace_go]. rewrite prefix_4. reflexivity.
Qed.

Lemma replace_elsewhere old new c s :
  String.prefix old (String c s) = false ->
  replace old new (String c s) = String c (replace old new s).
Proof. unfold replace. cbn [replace_go]. by intros ->. Qed.

(** Where the first letter of what [replace] returns comes from. *)
Lemma replace_head a b c d h new c0 X s :
  let old := String a (String b (String c (String d EmptyString))) in
  replace old (String h new) s = String c0 X ->
  (c0 = h /\ exists rest, s = String a (String b (String c (String d rest)))
                          /\ X = new +:+ replace old (String h new) rest)
  \/ (exists s', s = String c0 s' /\ X = replace old (String h new) s'
                 /\ String.prefix old s = false).
Proof.
  cbv zeta. intros H. destruct s as [|c1 s]; [discriminate|].
  destruct (String.prefix (String a (String b (String c (String d EmptyString))))
                          (String c1 s)) eqn:Hp.
  - left. destruct (prefix_4_inv _ _ _ _ _ Hp) as [rest Hs]. rewrite Hs in H |- *.
    rewrite replace_at_occurrence in H. cbn [String.append] in H.
    injection H as -> <-. split; [reflexivity|]. by exists rest.
  - right. rewrite (replace_elsewhere _ _ _ _ Hp) in H. injection H as -> <-.
    by exists s.
Qed.

Lemma replaced_True_head (s : string) :
  String.prefix "True" (replace "True" "true" s) = false.
Proof.
  destruct (String.prefix "True" (replace "True" "true" s)) eqn:Hp; [|reflexivity].
  exfalso. destruct (prefix_4_inv _ _ _ _ _ Hp) as [Z HZ].
  apply (replace_head "T" "r" "u" "e" "t" "rue") in HZ
    as [[? _]|(s1 & -> & HZ & Hno)]; [discriminate|].
  symmetry in HZ. apply (replace_head "T" "r" "u" "e" "t" "rue") in HZ
    as [[? _]|(s2 & -> & HZ & _)]; [discriminate|].
  symmetry in HZ. apply (replace_head "T" "r" "u" "e" "t" "rue") in HZ
    as [[? _]|(s3 & -> & HZ & _)]; [discriminate|].
  symmetry in HZ. apply (replace_head "T" "r" "u" "e" "t" "rue") in HZ
    as [[? _]|(s4 & -> & _ & _)]; [discriminate|].
  by rewrite prefix_4 in Hno.
Qed.

Lemma replaced_None_head (s : string) :
  String.prefix "None" (replace "None" "null" s) = false.
Proof.
  destruct (String.prefix "None" (replace "None" "null" s)) eqn:Hp; [|reflexivity].
  exfalso. destruct (prefix_4_inv _ _ _ _ _ Hp) as [Z HZ].
  apply (replace_head "N" "o" "n" "e" "n" "ull") in HZ
    as [[? _]|(s1 & -> & HZ & Hno)]; [discriminate|].
  symmetry in HZ. apply (replace_head "N" "o" "n" "e" "n" "ull") in HZ
    as [[? _]|(s2 & -> & HZ & _)]; [discriminate|].
  symmetry in HZ. apply (replace_head "N" "o" "n" "e" "n" "ull") in HZ
    as [[_ (rest & _ & HZ)]|(s3 & -> & HZ & _)]; [discriminate|].
  symmetry in HZ. apply (replace_head "N" "o" "n" "e" "n" "ull") in HZ
    as [[? _]|(s4 & -> & _ & _)]; [discriminate|].
  by rewrite prefix_4 in Hno.
Qed.

Lemma contains_cons sub c s :
  contains sub (String c s) = if String.prefix sub (String c s) then true else contains sub s.
Proof. reflexivity. Qed.

Lemma replaced_True_nowhere (s : string) :
  contains "True" (replace "True" "true" s) = false.
Proof.
  remember (String.length s) as n eqn:Hn.
  revert s Hn. induction n as [n IH] using lt_wf_ind. intros s Hn.
  destruct s as [|c s]; [reflexivity|].
  destruct (String.prefix "True" (String c s)) eqn:Hp.
  - destruct (prefix_4_inv _ _ _ _ _ Hp) as [rest Hs]. rewrite Hs in *.
    rewrite (replace_at_occurrence "T" "r" "u" "e" "true" rest).
    change ("true" +:+ replace "True" "true" rest)
      with (String "t" (String "r" (String "u" (String "e"
              (replace "True" "true" rest))))).
    do 4 (rewrite contains_cons, prefix_head_neq by discriminate).
    cbn [String.length] in Hn. eapply IH; [|reflexivity]. lia.
  - rewrite (replace_elsewhere _ _ _ _ Hp), contains_cons.
    rewrite <- (replace_elsewhere _ _ _ _ Hp), replaced_True_head.
    eapply IH; [|reflexivity]. cbn [String.length] in Hn. lia.
Qed.

Lemma replaced_None_nowhere (s : string) :
  contains "None" (replace "None" "null" s) = false.
Proof.
  remember (String.length s) as n eqn:Hn.
  revert s Hn. induction n as [n IH] using lt_wf_ind. intros s Hn.
  destruct s as [|c s]; [reflexivity|].
  destruct (String.prefix "None" (String c s)) eqn:Hp.
  - destruct (prefix_4_inv _ _ _ _ _ Hp) as [rest Hs]. rewrite Hs in *.
    rewrite (replace_at_occurrence "N" "o" "n" "e" "null" rest).
    change ("null" +:+ replace "None" "null" rest)
      with (String "n" (String "u" (String "l" (String "l"
              (replace "None" "null" rest))))).
    do 4 (rewrite contains_cons, prefix_head_neq by discriminate).
    cbn [String.length] in Hn. eapply IH; [|reflexivity]. lia.
  - rewrite (replace_elsewhere _ _ _ _ Hp), contains_cons.
    rewrite <- (replace_elsewhere _ _ _ _ Hp), replaced_None_head.
    eapply IH; [|reflexivity]. cbn [String.length] in Hn. lia.
Qed.

(** X3. In the client config, the tile-layer options never have the text
    [True] and the shapes never have the text [None], whatever the
    declaration holds: the two replacements leave no occurrence behind, in a
    value or inside a string. *)
Theorem config_has_no_True_option_and_no_None_shape (d : Dataset) :
  contains "True" (outputs_kwargs d) = false
  /\ contains "None" (outputs_shapes d) = false.
Proof.
  unfold outputs_kwargs, outputs_shapes. split; [apply replaced_True_nowhere|].
  destruct (shape_layers d); [apply replaced_None_nowhere | reflexivity].
Qed.

Lemma replace_no_occurrence old new (s : string) :
  contains old s = false -> replace old new s = s.
Proof.
  induction s as [|c s IH]; intros H.
  - reflexivity.
  - rewrite contains_cons in H.
    destruct (String.prefix old (String c s)) eqn:Hp; [discriminate|].
    rewrite (replace_elsewhere _ _ _ _ Hp), (IH H). reflexivity.
Qed.

(** X4. The two replacements are all the serializer does to what Python
    prints: tile-layer options in which the text [True] does not occur are
    passed as [str] gives them, and so are shape layers in which the text
    [None] does not occur. *)
Theorem config_without_True_or_None_is_as_printed (d : Dataset) :
  (contains "True" (str (args (leafletTileLayer d))) = false ->
   outputs_kwargs d = str (args (leafletTileLayer d)))
  /\ (forall layers, shape_layers d = Some layers ->
        contains "None" (str (PyList (map shape_triple layers))) = false ->
        outputs_shapes d = str (PyList (map shape_triple layers))).
Proof.
  unfold outputs_kwargs, outputs_shapes. split.
  - apply replace_no_occurrence.
  - intros layers ->. apply replace_no_occurrence.
Qed.

End Literals.

(** ** More on a turn of the loop *)

Section TurnProperties.
Context `{W : World}.

Lemma shape_triple_setters (l : ShapeLayer) shapes areas_ init :
  shape_triple (set_geoms shapes l) = shape_triple l
  /\ shape_triple (set_areas areas_ l) = shape_triple l
  /\ shape_triple (set_crs init l) = shape_triple l.
Proof. repeat split. Qed.

Lemma shape_triple_enriched (l : ShapeLayer) :
  shape_triple (enriched l) = shape_triple l.
Proof.
  unfold enriched. destruct (path_exists (layer_path l)); [|reflexivity].
  destruct (load_geojson_as_list (layer_path l)) as [[[shapes areas_] crs_]|e];
    [|reflexivity].
  destruct (getitem crs_ "init"); reflexivity.
Qed.

Lemma shape_triple_declared_fields (l1 l2 : ShapeLayer) :
  declared_fields l1 = declared_fields l2 -> shape_triple l1 = shape_triple l2.
Proof.
  unfold declared_fields, shape_triple. intros H. inversion H as [[H1 H2 H3]].
  by rewrite H1, H2, H3.
Qed.

Lemma javascript_string_enriched (d : Dataset) :
  get_javascript_string_from_dataset (enriched_dataset d)
  = get_javascript_string_from_dataset d.
Proof.
  unfold get_javascript_string_from_dataset, javascript_head, outputs_kwargs,
    outputs_shapes, enriched_dataset. cbn [with_shape_layers name imagery_metadata
    leafletTileLayer location shape_layers].
  destruct (shape_layers d) as [layers|]; [|reflexivity]. cbn [fmap option_fmap option_map].
  rewrite map_map. 
  rewrite (map_ext _ shape_triple shape_triple_enriched). reflexivity.
Qed.

(** X5. The client config is a function of the declared display fields and
    of the name, file and zone key of each shape layer, and of nothing else;
    so it is the same for the declaration as enriched by its turn, which is
    what line 363 passes, as for the declaration as written. *)
Theorem client_config_reads_declared_fields_only (d1 d2 : Dataset) :
  (name d1 = name d2 ->
   imagery_metadata d1 = imagery_metadata d2 ->
   leafletTileLayer d1 = leafletTileLayer d2 ->
   location d1 = location d2 ->
   (map declared_fields <$> shape_layers d1) = (map declared_fields <$> shape_layers d2) ->
   get_javascript_string_from_dataset d1 = get_javascript_string_from_dataset d2)
  /\ get_javascript_string_from_dataset (enriched_dataset d1)
     = get_javascript_string_from_dataset d1.
Proof.
  split; [|apply javascript_string_enriched].
  intros Hn Hm Ht Hl Hs.
  unfold get_javascript_string_from_dataset, javascript_head, outputs_kwargs,
    outputs_shapes. rewrite Hn, Hm, Ht, Hl.
  destruct (shape_layers d1) as [ls1|], (shape_layers d2) as [ls2|];
    try discriminate; [|reflexivity].
  simpl in Hs. inversion Hs as [Hf].
  assert (Hmap : map shape_triple ls1 = map shape_triple ls2).
  { clear -Hf. revert ls2 Hf. induction ls1 as [|l1 ls1 IH]; intros [|l2 ls2] Hf;
      try discriminate; [reflexivity|].
    cbn [map] in *.
    assert (Hl : declared_fields l1 = declared_fields l2) by congruence.
    assert (Hrest : map declared_fields ls1 = map declared_fields ls2) by congruence.
    rewrite (shape_triple_declared_fields l1 l2 Hl), (IH ls2 Hrest). reflexivity. }
  by rewrite Hmap.
Qed.

(** A turn over a shape layer that returns has loaded the layer, if its file
    is there. *)
Lemma load_shape_layer_Ok_loads dataset_key j l m loaded s r :
  (load_shape_layer dataset_key j l m loaded s).2 = Ok r -> layer_loads l.
Proof.
  unfold load_shape_layer, layer_loads. fold (layer_path l).
  destruct (path_exists (layer_path l)); [|discriminate].
  unfold bind, lift, store_layer, ret.
  destruct (load_geojson_as_list (layer_path l)) as [[[shapes areas_] crs_]|e];
    simpl; [|discriminate].
  destruct (getitem crs_ "init") as [init|e] eqn:Hinit; simpl; [|discriminate].
  intros _ _. by exists shapes, areas_, crs_, init.
Qed.

Lemma load_shape_layers_Ok_loads dataset_key layers : forall j m loaded s r,
  (load_shape_layers dataset_key layers j m loaded s).2 = Ok r ->
  Forall layer_loads layers.
Proof.
  induction layers as [|l layers IH]; intros j m loaded s r H; [constructor|].
  cbn [load_shape_layers] in H. unfold bind in H.
  pose proof (load_shape_layer_Ok_loads dataset_key j l m loaded s) as Hl.
  destruct (load_shape_layer dataset_key j l m loaded s) as [s1 [[m1 b1]|e]];
    simpl in *; [|discriminate].
  constructor; [by eapply Hl | by eapply IH].
Qed.

Lemma process_dataset_Ok_loads dataset_key s :
  (process_dataset dataset_key s).2 = Ok tt -> files_load (dataset s).
Proof.
  unfold process_dataset, get_dataset, bind, files_load, layers_of, load_layers.
  destruct (shape_layers (dataset s)) as [layers|]; [|intros _; constructor].
  pose proof (load_shape_layers_Ok_loads dataset_key layers 0 ∅ true s) as Hl.
  destruct (load_shape_layers dataset_key layers 0 ∅ true s) as [s1 [r|e]];
    simpl in *; [|discriminate].
  intros _. by eapply Hl.
Qed.

(** A raise among the shape layers is the raise of the turn, which stops
    there. *)
Lemma process_dataset_layers_Raise dataset_key s e :
  (load_layers dataset_key (dataset s) s).2 = Raise e ->
  process_dataset dataset_key s = ((load_layers dataset_key (dataset s) s).1, Raise e).
Proof.
  unfold process_dataset, get_dataset, bind.
  destruct (load_layers dataset_key (dataset s) s) as [s1 [r|e']]; simpl;
    [discriminate|]. by intros [= ->].
Qed.

(** The turn of a declaration returns exactly when each of its shape files
    that is there loads with an ["init"] in its crs and, in case no file is
    missing, the factory of lines 351-358 returns; otherwise it raises. *)
Lemma turn_returns_iff dataset_key s :
  (process_dataset dataset_key s).2 = Ok tt <-> turn_returns (dataset s).
Proof.
  unfold turn_returns, factory_returns. split.
  - intros Hok. pose proof (process_dataset_Ok_loads dataset_key s Hok) as Hload.
    split; [assumption|]. intros Hmiss.
    rewrite (process_dataset_loads dataset_key s Hload) in Hok. cbv zeta in Hok.
    rewrite Hmiss in Hok.
    destruct (make_data_loader _ _) as [dl|e]; [eauto | discriminate].
  - intros [Hload Hfactory].
    rewrite (process_dataset_loads dataset_key s Hload). cbv zeta.
    destruct (missing_files (dataset s)) as [|fn fns]; [|reflexivity].
    destruct (Hfactory eq_refl) as [dl ->]. reflexivity.
Qed.

(** X6. A declaration with no file missing, whose shape files load with an
    ["init"] in their crs and for which the factory returns, is registered
    by its turn: the turn returns, prints nothing, leaves the other keys of
    [DATASETS] as they were, and under its own key a lookup finds the data
    loader, the dict of its enriched layers and the client config of the
    declaration as written. *)
Theorem loadable_dataset_is_registered dataset_key s data_loader_ :
  files_load (dataset s) ->
  missing_files (dataset s) = [] ->
  make_data_loader (dataset s) (registered (layers_of (dataset s)) ∅) = Ok data_loader_ ->
  (process_dataset dataset_key s).2 = Ok tt
  /\ stdout (process_dataset dataset_key s).1 = stdout s
  /\ DATASETS (process_dataset dataset_key s).1 !! dataset_key
     = Some {| data_loader := data_loader_;
               entry_shape_layers := registered (layers_of (dataset s)) ∅;
               javascript_string := get_javascript_string_from_dataset (dataset s) |}
  /\ (forall k, k <> dataset_key ->
        DATASETS (process_dataset dataset_key s).1 !! k = DATASETS s !! k)
  /\ dataset (process_dataset dataset_key s).1 = enriched_dataset (dataset s).
Proof.
  intros Hload Hmiss Hfactory.
  rewrite (process_dataset_loads dataset_key s Hload). cbv zeta.
  rewrite Hmiss, Hfactory. cbn [fst snd DATASETS stdout dataset map].
  rewrite app_nil_r, javascript_string_enriched, lookup_insert_eq.
  repeat split. intros k Hk. by rewrite lookup_insert_ne.
Qed.

(** X7. With every file in place and every shape file loading with an
    ["init"] in its crs, a declaration that lacks a key its kind's
    constructor reads stops the turn with a [KeyError] naming the first such
    key; nothing is printed and nothing inserted. A custom declaration
    without ["data_fn"] is one: line 343 skips the file test for it, and
    line 352 raises. *)
Theorem absent_key_raises_KeyError dataset_key s :
  files_load (dataset s) ->
  missing_files (dataset s) = [] ->
  let absent key :=
    (process_dataset dataset_key s).2 = Raise (KeyError key)
    /\ DATASETS (process_dataset dataset_key s).1 = DATASETS s
    /\ stdout (process_dataset dataset_key s).1 = stdout s in
  (data_layer_type (dataset s) = Member CUSTOM ->
   data_fn (dataset s) = None -> absent "data_fn")
  /\ (data_layer_type (dataset s) = Member BASEMAP ->
      data_url (dataset s) = None -> absent "data_url")
  /\ (forall t, data_layer_type (dataset s) = Member t ->
      (t = CUSTOM -> data_fn (dataset s) <> None) ->
      (t = BASEMAP -> data_url (dataset s) <> None) ->
      data_padding (dataset s) = None -> absent "data_padding").
Proof.
  intros Hload Hmiss. cbv zeta.
  assert (Hraise : forall e,
            make_data_loader (dataset s) (registered (layers_of (dataset s)) ∅) = Raise e ->
            (process_dataset dataset_key s).2 = Raise e
            /\ DATASETS (process_dataset dataset_key s).1 = DATASETS s
            /\ stdout (process_dataset dataset_key s).1 = stdout s).
  { intros e He. rewrite (process_dataset_loads dataset_key s Hload). cbv zeta.
    rewrite Hmiss, He. cbn [fst snd DATASETS stdout map]. by rewrite app_nil_r. }
  split; [|split].
  - intros Hkind Hfn. apply Hraise. unfold make_data_loader. by rewrite Hkind, Hfn.
  - intros Hkind Hurl. apply Hraise. unfold make_data_loader. by rewrite Hkind, Hurl.
  - intros t Hkind Hfn Hurl Hpad. apply Hraise. unfold make_data_loader.
    rewrite Hkind, Hpad. destruct t.
    + destruct (data_fn (dataset s)); [reflexivity | by destruct Hfn].
    + reflexivity.
    + destruct (data_url (dataset s)); [reflexivity | by destruct Hurl].
Qed.

Lemma getitem_absent (d : list (string * PyVal)) key :
  (forall v, ~ In (key, v) d) -> getitem d key = Raise (KeyError key).
Proof.
  induction d as [|[k v] d IH]; intros Habs; [reflexivity|]. simpl.
  destruct (String.eqb_spec k key) as [->|Hne].
  - destruct (Habs v). by left.
  - apply IH. intros v' Hin. apply (Habs v'). by right.
Qed.

(** The turn over a shape layer whose file loads with a crs that has no
    ["init"]: lines 333-334 have run, line 335 raises. *)
Lemma load_shape_layer_no_init dataset_key pre l rest m loaded s shapes areas_ crs_ :
  shape_layers (dataset s) = Some (pre ++ l :: rest)%list ->
  path_exists (layer_path l) = true ->
  load_geojson_as_list (layer_path l) = Ok (shapes, areas_, crs_) ->
  (forall v, ~ In ("init", v) crs_) ->
  load_shape_layer dataset_key (length pre) l m loaded s
  = ({| DATASETS := DATASETS s; stdout := stdout s;
        dataset := with_shape_layers (dataset s)
                     (Some (pre ++ set_areas areas_ (set_geoms shapes l) :: rest)%list) |},
     Raise (KeyError "init")).
Proof.
  intros Hs Hex Hload Hinit. unfold load_shape_layer. fold (layer_path l).
  rewrite Hex. unfold bind, lift, store_layer, ret.
  rewrite Hload, (getitem_absent _ _ Hinit). simpl.
  rewrite Hs. simpl. by rewrite !insert_at_length.
Qed.

(** X8. A shape file that loads but whose crs has no ["init"] stops the turn
    at line 335 with [KeyError('init')]: by then the layer has its ["geoms"]
    and ["areas"] but not its ["crs"], the layers after it are as declared,
    nothing is inserted in [DATASETS] and the layer is in no registry
    entry. The layers before it are taken to load. *)
Theorem crs_without_init_stops_turn dataset_key s pre l post shapes areas_ crs_ :
  shape_layers (dataset s) = Some (pre ++ l :: post)%list ->
  Forall layer_loads pre ->
  path_exists (layer_path l) = true ->
  load_geojson_as_list (layer_path l) = Ok (shapes, areas_, crs_) ->
  (forall v, ~ In ("init", v) crs_) ->
  (process_dataset dataset_key s).2 = Raise (KeyError "init")
  /\ layer_at (dataset (process_dataset dataset_key s).1) (length pre)
     = Some {| layer_name := layer_name l; shapes_fn := shapes_fn l;
               zone_name_key := zone_name_key l;
               geoms := Some shapes; areas := Some areas_; crs := crs l |}
  /\ (forall i, layer_at (dataset (process_dataset dataset_key s).1) (length pre + S i)
                = post !! i)
  /\ DATASETS (process_dataset dataset_key s).1 = DATASETS s.
Proof.
  intros Hs Hpre Hex Hload Hinit.
  assert (Hlayers :
    load_layers dataset_key (dataset s) s
    = ({| DATASETS := DATASETS s;
          stdout := (stdout s ++ map (fun fn => warning fn dataset_key)
                                     (missing (map layer_path pre)))%list;
          dataset := with_shape_layers (dataset s)
                       (Some (map enriched pre
                              ++ set_areas areas_ (set_geoms shapes l) :: post)%list) |},
       Raise (KeyError "init"))).
  { unfold load_layers. rewrite Hs.
    rewrite (load_shape_layers_prefix dataset_key pre Hpre (l :: post) [] ∅ true s Hs).
    cbn [load_shape_layers app length]. rewrite Nat.add_0_l. unfold bind at 1.
    pose proof (load_shape_layer_no_init dataset_key (map enriched pre) l post
                  (registered pre ∅)
                  (true && forallb (fun l => path_exists (layer_path l)) pre)
                  {| DATASETS := DATASETS s;
                     stdout := (stdout s ++ map (fun fn => warning fn dataset_key)
                                                (missing (map layer_path pre)))%list;
                     dataset := with_shape_layers (dataset s)
                                  (Some (map enriched pre ++ l :: post)%list) |}
                  shapes areas_ crs_ eq_refl Hex Hload Hinit) as Hstep.
    rewrite length_map in Hstep. rewrite Hstep. reflexivity. }
  rewrite (process_dataset_layers_Raise dataset_key s (KeyError "init"))
    by (by rewrite Hlayers).
  rewrite Hlayers. cbn [fst snd DATASETS dataset]. unfold layer_at.
  rewrite layers_of_with_shape_layers. repeat split.
  - by rewrite list_lookup_middle by (by rewrite length_map).
  - intros i. rewrite lookup_app_r by (rewrite length_map; lia).
    rewrite length_map. replace (length pre + S i - length pre)%nat with (S i) by lia.
    reflexivity.
Qed.

Lemma registered_app (l1 l2 : list ShapeLayer) m :
  registered (l1 ++ l2) m = registered l2 (registered l1 m).
Proof. apply fold_left_app. Qed.

(** Layers of other names, or whose file is missing, leave a name's entry in
    the local dict alone. *)
Lemma registered_lookup_other (layers : list ShapeLayer) n : forall m,
  Forall (fun l' => layer_name l' = n -> path_exists (layer_path l') = false) layers ->
  registered layers m !! n = m !! n.
Proof.
  induction layers as [|l' layers IH]; intros m Hall; [reflexivity|].
  apply Forall_cons in Hall as [Hl' Hall].
  change (registered (l' :: layers) m) with (registered layers (registered [l'] m)).
  rewrite (IH _ Hall). unfold registered. simpl.
  destruct (path_exists (layer_path l')) eqn:Hex; [|reflexivity].
  apply lookup_insert_ne. intros Hn. specialize (Hl' Hn). congruence.
Qed.

Lemma registered_lookup_last pre l post m :
  path_exists (layer_path l) = true ->
  Forall (fun l' => layer_name l' = layer_name l -> path_exists (layer_path l') = false)
         post ->
  registered (pre ++ l :: post) m !! layer_name l = Some (enriched l).
Proof.
  intros Hex Hpost. rewrite registered_app.
  change (registered (l :: post) (registered pre m))
    with (registered post (registered [l] (registered pre m))).
  rewrite (registered_lookup_other post _ _ Hpost). unfold registered at 1. simpl.
  rewrite Hex. apply lookup_insert_eq.
Qed.

(** X9. The dict of shape layers in a registry entry is keyed by the layers'
    names (line 336), so of the shape layers of a declaration that share a
    name the entry holds the last one, enriched: whatever layers come before
    it, a layer with no namesake after it is what a lookup of its name in the
    registered entry finds. *)
Theorem last_layer_of_a_name_is_registered dataset_key s data_loader_ pre l post :
  files_load (dataset s) ->
  missing_files (dataset s) = [] ->
  make_data_loader (dataset s) (registered (layers_of (dataset s)) ∅) = Ok data_loader_ ->
  shape_layers (dataset s) = Some (pre ++ l :: post)%list ->
  Forall (fun l' => layer_name l' <> layer_name l) post ->
  exists entry,
    DATASETS (process_dataset dataset_key s).1 !! dataset_key = Some entry
    /\ entry_shape_layers entry !! layer_name l = Some (enriched l)
    /\ geoms (enriched l) <> None.
Proof.
  intros Hload Hmiss Hfactory Hs Hpost.
  assert (Hlayers : layers_of (dataset s) = (pre ++ l :: post)%list)
    by (unfold layers_of; by rewrite Hs).
  assert (Hex : path_exists (layer_path l) = true).
  { rewrite missing_files_split in Hmiss. apply app_eq_nil in Hmiss as [Hmiss _].
    apply missing_nil_forallb in Hmiss. rewrite Hlayers in Hmiss.
    rewrite forallb_app in Hmiss. apply andb_true_iff in Hmiss as [_ Hmiss].
    simpl in Hmiss. by apply andb_true_iff in Hmiss as [Hmiss _]. }
  rewrite (process_dataset_loads dataset_key s Hload). cbv zeta.
  rewrite Hmiss, Hfactory. cbn [fst DATASETS]. rewrite lookup_insert_eq.
  eexists. split; [reflexivity|]. cbn [entry_shape_layers]. split.
  - rewrite Hlayers. apply registered_lookup_last; [assumption|].
    eapply Forall_impl; [exact Hpost|]. intros l' Hne Heq. contradiction.
  - unfold files_load in Hload. rewrite Hlayers in Hload.
    apply Forall_app in Hload as [_ Hload]. apply Forall_cons in Hload as [Hl _].
    destruct (Hl Hex) as (shapes & areas_ & crs_ & init & H1 & H2).
    unfold enriched. by rewrite Hex, H1, H2.
Qed.

End TurnProperties.

(** ** More on the import *)

Section ImportProperties.
Context `{W : World}.

(** A turn that returns, in full. *)
Lemma process_dataset_returns dataset_key s :
  turn_returns (dataset s) ->
  process_dataset dataset_key s
  = ({| DATASETS := register_item (DATASETS s) (dataset_key, dataset s);
        stdout := (stdout s ++ warnings_of dataset_key (dataset s))%list;
        dataset := enriched_dataset (dataset s) |}, Ok tt).
Proof.
  intros [Hload Hfactory].
  rewrite (process_dataset_loads dataset_key s Hload). cbv zeta.
  unfold register_item, warnings_of, entry_of. cbn [fst snd].
  destruct (missing_files (dataset s)) as [|fn fns] eqn:Hmiss; [|reflexivity].
  destruct (Hfactory eq_refl) as [dl Hdl]. rewrite Hdl. reflexivity.
Qed.

(** A turn that raises has inserted nothing. *)
Lemma process_dataset_Raise_registry dataset_key s e :
  (process_dataset dataset_key s).2 = Raise e ->
  DATASETS (process_dataset dataset_key s).1 = DATASETS s.
Proof.
  intros He.
  destruct (process_dataset_registry dataset_key s) as [H|(_ & Hok & _)];
    [assumption | congruence].
Qed.

(** The loop over items whose turns all return. *)
Lemma load_datasets_returns items :
  Forall (fun item => turn_returns item.2) items ->
  forall registry out,
  load_datasets items registry out
  = (map enriched_item items,
     fold_left register_item items registry,
     (out ++ concat (map (fun item => warnings_of item.1 item.2) items))%list,
     Ok tt).
Proof.
  induction 1 as [|[k d] items Hd Hitems IH]; intros registry out.
  - simpl. by rewrite app_nil_r.
  - cbn [load_datasets].
    rewrite (process_dataset_returns k
               {| DATASETS := registry; stdout := out; dataset := d |} Hd).
    cbn [DATASETS stdout dataset]. rewrite IH. simpl. by rewrite <- app_assoc.
Qed.

Lemma load_datasets_Ok_returns items : forall registry out,
  outcome_of (load_datasets items registry out) = Ok tt ->
  Forall (fun item => turn_returns item.2) items.
Proof.
  induction items as [|[k d] items IH]; intros registry out H; [constructor|].
  cbn [load_datasets] in H.
  pose proof (turn_returns_iff k {| DATASETS := registry; stdout := out; dataset := d |})
    as Hiff.
  destruct (process_dataset k {| DATASETS := registry; stdout := out; dataset := d |})
    as [s1 [[]|e]]; simpl in Hiff.
  - constructor; [by apply Hiff|].
    apply (IH (DATASETS s1) (stdout s1)).
    destruct (load_datasets items (DATASETS s1) (stdout s1)) as [[[? ?] ?] ?].
    exact H.
  - discriminate.
Qed.

(** X10. The import returns exactly when the turn of every declaration has
    nothing to raise: each shape file that is there loads with an ["init"]
    in its crs and, for a declaration with no file missing, the keys its
    kind needs are there and the kind is one of the three. It then leaves
    every declaration with the layers whose file is there enriched, and has
    printed the warnings of the missing files, declaration by declaration
    in the order of the table and file by file in the order they are tested,
    and nothing else. *)
Theorem import_returns_iff items :
  (outcome_of (import_module items) = Ok tt
   <-> Forall (fun item => turn_returns item.2) items)
  /\ (outcome_of (import_module items) = Ok tt ->
      definitions_of (import_module items) = map enriched_item items
      /\ output_of (import_module items)
         = concat (map (fun item => warnings_of item.1 item.2) items)).
Proof.
  unfold import_module. split; [split|].
  - apply load_datasets_Ok_returns.
  - intros H. by rewrite (load_datasets_returns items H).
  - intros H. apply load_datasets_Ok_returns in H.
    by rewrite (load_datasets_returns items H).
Qed.

Lemma entry_of_eq (d : Dataset) data_loader_ :
  entry_of d data_loader_
  = {| data_loader := data_loader_;
       entry_shape_layers := registered (layers_of d) ∅;
       javascript_string := get_javascript_string_from_dataset d |}.
Proof. unfold entry_of. by rewrite javascript_string_enriched. Qed.

(** What a turn can put under a key. *)
Lemma process_dataset_lookup dataset_key s k e :
  DATASETS (process_dataset dataset_key s).1 !! k = Some e ->
  DATASETS s !! k = Some e
  \/ (k = dataset_key /\ missing_files (dataset s) = []
      /\ exists data_loader_,
           make_data_loader (dataset s) (registered (layers_of (dataset s)) ∅)
           = Ok data_loader_
           /\ e = entry_of (dataset s) data_loader_).
Proof.
  intros Hk.
  destruct ((process_dataset dataset_key s).2) as [[]|err] eqn:Hres.
  - apply turn_returns_iff in Hres.
    rewrite (process_dataset_returns dataset_key s Hres) in Hk.
    cbn [fst DATASETS] in Hk. unfold register_item in Hk. cbn [fst snd] in Hk.
    destruct (missing_files (dataset s)); [|by left].
    destruct (make_data_loader _ _) as [dl|err] eqn:Hdl; [|by left].
    destruct (decide (k = dataset_key)) as [->|Hne].
    + rewrite lookup_insert_eq in Hk. right. repeat split. exists dl.
      split; [reflexivity | congruence].
    + rewrite lookup_insert_ne in Hk by congruence. by left.
  - rewrite (process_dataset_Raise_registry dataset_key s err Hres) in Hk. by left.
Qed.

Lemma load_datasets_lookup items k e : forall registry out,
  registry_of (load_datasets items registry out) !! k = Some e ->
  registry !! k = Some e
  \/ exists d data_loader_,
       In (k, d) items /\ missing_files d = []
       /\ make_data_loader d (registered (layers_of d) ∅) = Ok data_loader_
       /\ e = entry_of d data_loader_.
Proof.
  induction items as [|[k' d] items IH]; intros registry out Hk; [by left|].
  cbn [load_datasets] in Hk.
  pose proof (process_dataset_lookup k'
                {| DATASETS := registry; stdout := out; dataset := d |} k e) as Hturn.
  cbn [dataset DATASETS] in Hturn.
  assert (Hhere : DATASETS (process_dataset k'
                    {| DATASETS := registry; stdout := out; dataset := d |}).1 !! k = Some e ->
                  registry !! k = Some e
                  \/ exists d0 data_loader_,
                       In (k, d0) ((k', d) :: items) /\ missing_files d0 = []
                       /\ make_data_loader d0 (registered (layers_of d0) ∅) = Ok data_loader_
                       /\ e = entry_of d0 data_loader_).
  { intros H. destruct (Hturn H) as [?|(-> & Hm & dl & Hdl & ->)]; [by left|].
    right. exists d, dl. repeat split; try assumption. by left. }
  destruct (process_dataset k' {| DATASETS := registry; stdout := out; dataset := d |})
    as [s1 [[]|err]]; cbn [fst] in *.
  - specialize (IH (DATASETS s1) (stdout s1)).
    destruct (load_datasets items (DATASETS s1) (stdout s1)) as [[[i r] o] res].
    unfold registry_of in *. cbn [fst snd] in *.
    destruct (IH Hk) as [H|(d0 & dl & Hin & Hm & Hdl & ->)]; [by apply Hhere|].
    right. exists d0, dl. repeat split; try assumption. by right.
  - unfold registry_of in Hk. cbn [fst snd] in Hk. by apply Hhere.
Qed.

Lemma fold_register_item_lookup items :
  NoDup (map fst items) ->
  forall k e,
  fold_left register_item items ∅ !! k = Some e
  <-> exists d data_loader_,
        In (k, d) items /\ missing_files d = []
        /\ make_data_loader d (registered (layers_of d) ∅) = Ok data_loader_
        /\ e = entry_of d data_loader_.
Proof.
  induction items as [|[kx dx] items IH] using rev_ind; intros Hnd k e.
  - simpl. rewrite lookup_empty. split; [discriminate|]. by intros (? & ? & [] & _).
  - rewrite map_app in Hnd. apply NoDup_app in Hnd as (Hnd & Hfresh & _).
    assert (Hkx : forall d, ~ In (kx, d) items).
    { intros d Hin. apply (Hfresh kx); [|simpl; by left].
      apply list_elem_of_In. apply (in_map fst) in Hin. exact Hin. }
    rewrite fold_left_app. cbn [fold_left].
    assert (Hsplit : forall d, In (k, d) (items ++ [(kx, dx)])
                               <-> In (k, d) items \/ (k = kx /\ d = dx)).
    { intros d. rewrite in_app_iff. simpl. split.
      - intros [?|[[= -> ->]|[]]]; [by left | by right].
      - intros [?|[-> ->]]; [by left | right; by left]. }
    unfold register_item at 1. cbn [fst snd].
    destruct (missing_files dx) as [|fn fns] eqn:Hmiss;
      [destruct (make_data_loader dx (registered (layers_of dx) ∅)) as [dlx|err] eqn:Hdlx|].
    + destruct (decide (k = kx)) as [->|Hne].
      * rewrite lookup_insert_eq. split.
        -- intros [= <-]. exists dx, dlx. repeat split; try assumption.
           apply Hsplit. by right.
        -- intros (d & dl & Hin & _ & Hdl & ->). apply Hsplit in Hin as [Hin|[_ ->]].
           ++ by destruct (Hkx d).
           ++ congruence.
      * rewrite lookup_insert_ne by congruence. rewrite (IH Hnd). split.
        -- intros (d & dl & Hin & ?). exists d, dl. split; [|assumption].
           apply Hsplit. by left.
        -- intros (d & dl & Hin & ?). apply Hsplit in Hin as [Hin|[-> _]];
             [|contradiction]. by exists d, dl.
    + rewrite (IH Hnd). split.
      * intros (d & dl & Hin & ?). exists d, dl. split; [|assumption].
        apply Hsplit. by left.
      * intros (d & dl & Hin & Hm & Hdl & He). apply Hsplit in Hin as [Hin|[-> ->]].
        -- by exists d, dl.
        -- congruence.
    + rewrite (IH Hnd). split.
      * intros (d & dl & Hin & ?). exists d, dl. split; [|assumption].
        apply Hsplit. by left.
      * intros (d & dl & Hin & Hm & Hdl & He). apply Hsplit in Hin as [Hin|[-> ->]].
        -- by exists d, dl.
        -- congruence.
Qed.

(** X11. Whatever the import does, an entry of the registry it builds is the
    entry of a declaration of that key with no file missing: its data
    loader is what the factory returns for the declaration, its shape layers
    the declaration's enriched layers by name, its client config that of the
    declaration as written. When the import returns, with one declaration
    per key, the registry holds exactly these entries. *)
Theorem registry_is_the_loadable_declarations items :
  (forall k e,
     registry_of (import_module items) !! k = Some e ->
     exists d data_loader_,
       In (k, d) items /\ missing_files d = []
       /\ make_data_loader d (registered (layers_of d) ∅) = Ok data_loader_
       /\ e = {| data_loader := data_loader_;
                 entry_shape_layers := registered (layers_of d) ∅;
                 javascript_string := get_javascript_string_from_dataset d |})
  /\ (NoDup (map fst items) ->
      outcome_of (import_module items) = Ok tt ->
      forall k d, In (k, d) items -> missing_files d = [] ->
        exists data_loader_,
          make_data_loader d (registered (layers_of d) ∅) = Ok data_loader_
          /\ registry_of (import_module items) !! k
             = Some {| data_loader := data_loader_;
                       entry_shape_layers := registered (layers_of d) ∅;
                       javascript_string := get_javascript_string_from_dataset d |}).
Proof.
  unfold import_module. split.
  - intros k e Hk.
    destruct (load_datasets_lookup items k e ∅ [] Hk)
      as [Hempty|(d & dl & Hin & Hm & Hdl & ->)].
    + by rewrite lookup_empty in Hempty.
    + exists d, dl. rewrite <- entry_of_eq. by repeat split.
  - intros Hnd Hok k d Hin Hmiss.
    pose proof (load_datasets_Ok_returns items ∅ [] Hok) as Hall.
    rewrite (load_datasets_returns items Hall). unfold registry_of. cbn [fst snd].
    rewrite List.Forall_forall in Hall. destruct (Hall (k, d) Hin) as [_ Hfactory].
    destruct (Hfactory Hmiss) as [dl Hdl]. exists dl. split; [assumption|].
    rewrite <- entry_of_eq. apply (fold_register_item_lookup items Hnd).
    by exists d, dl.
Qed.

(** *** A turn does not read the registry or the output *)

Lemma independent_bind {A B} (m : M A) (k : A -> M B) :
  independent m -> (forall a, independent (k a)) -> independent (bind m k).
Proof.
  intros Hm Hk s s' Hs. unfold bind.
  destruct (Hm s s' Hs) as (Hr & Hd & more & Ho & Ho').
  destruct (m s) as [s1 r1], (m s') as [s1' r1']. cbn [fst snd] in *. subst r1'.
  destruct r1 as [a|e].
  - destruct (Hk a s1 s1' Hd) as (Hr2 & Hd2 & more2 & Ho2 & Ho2').
    split; [assumption|]. split; [assumption|].
    exists (more ++ more2)%list. rewrite Ho2, Ho2', Ho, Ho'. by rewrite !app_assoc.
  - cbn [fst snd]. split; [reflexivity|]. split; [assumption|]. by exists more.
Qed.

Lemma independent_ret {A} (a : A) : independent (ret a).
Proof.
  intros s s' Hs. unfold ret. cbn [fst snd]. split; [reflexivity|].
  split; [assumption|]. exists []. by rewrite !app_nil_r.
Qed.

Lemma independent_lift {A} (r : result A) : independent (lift r).
Proof.
  intros s s' Hs. unfold lift. cbn [fst snd]. split; [reflexivity|].
  split; [assumption|]. exists []. by rewrite !app_nil_r.
Qed.

Lemma independent_print (line : string) : independent (print line).
Proof.
  intros s s' Hs. unfold print. cbn [fst snd stdout dataset].
  split; [reflexivity|]. split; [assumption|]. by exists [line].
Qed.

Lemma independent_get_dataset : independent get_dataset.
Proof.
  intros s s' Hs. unfold get_dataset. cbn [fst snd]. split; [by rewrite Hs|].
  split; [assumption|]. exists []. by rewrite !app_nil_r.
Qed.

Lemma independent_store_layer j (l : ShapeLayer) : independent (store_layer j l).
Proof.
  intros s s' Hs. unfold store_layer. cbn [fst snd stdout dataset].
  split; [reflexivity|]. split; [by rewrite Hs|]. exists []. by rewrite !app_nil_r.
Qed.

Lemma independent_setitem_DATASETS dataset_key (entry : Entry) :
  independent (setitem_DATASETS dataset_key entry).
Proof.
  intros s s' Hs. unfold setitem_DATASETS. cbn [fst snd stdout dataset].
  split; [reflexivity|]. split; [assumption|]. exists []. by rewrite !app_nil_r.
Qed.

Lemma independent_load_shape_layer dataset_key j l m loaded :
  independent (load_shape_layer dataset_key j l m loaded).
Proof.
  unfold load_shape_layer. destruct (path_exists _).
  - apply independent_bind; [apply independent_lift|]. intros [[shapes areas_] crs_].
    apply independent_bind; [apply independent_store_layer|]. intros _.
    apply independent_bind; [apply independent_store_layer|]. intros _.
    apply independent_bind; [apply independent_lift|]. intros init.
    apply independent_bind; [apply independent_store_layer|]. intros _.
    apply independent_ret.
  - apply independent_bind; [apply independent_print|]. intros _.
    apply independent_ret.
Qed.

Lemma independent_load_shape_layers dataset_key layers : forall j m loaded,
  independent (load_shape_layers dataset_key layers j m loaded).
Proof.
  induction layers as [|l layers IH]; intros j m loaded; cbn [load_shape_layers].
  - apply independent_ret.
  - apply independent_bind; [apply independent_load_shape_layer|].
    intros [m1 b1]. apply IH.
Qed.

Lemma independent_process_dataset dataset_key : independent (process_dataset dataset_key).
Proof.
  unfold process_dataset.
  apply independent_bind; [apply independent_get_dataset|]. intros d.
  apply independent_bind.
  { unfold load_layers. destruct (shape_layers d);
      [apply independent_load_shape_layers | apply independent_ret]. }
  intros [m b]. apply independent_bind.
  { unfold check_data_fn. destruct (data_fn d); [|apply independent_ret].
    destruct (path_exists _); [apply independent_ret|].
    apply independent_bind; [apply independent_print|]. intros _.
    apply independent_ret. }
  intros [|]; [|apply independent_ret].
  apply independent_bind; [apply independent_lift|]. intros dl.
  apply independent_bind; [apply independent_get_dataset|]. intros d'.
  apply independent_setitem_DATASETS.
Qed.

(** *** What a turn has printed, however it ends *)

Lemma load_shape_layer_prints dataset_key j l m loaded s :
  stdout (load_shape_layer dataset_key j l m loaded s).1
  = (stdout s ++ map (fun fn => warning fn dataset_key) (missing [layer_path l]))%list.
Proof.
  unfold load_shape_layer, missing. fold (layer_path l). cbn [List.filter].
  destruct (path_exists (layer_path l)); cbn [negb map].
  - rewrite app_nil_r. unfold bind, lift, store_layer, ret.
    destruct (load_geojson_as_list (layer_path l)) as [[[shapes areas_] crs_]|e];
      [|reflexivity].
    cbn [fst snd stdout]. by destruct (getitem crs_ "init").
  - reflexivity.
Qed.

(** The lines printed over the shape layers are the warnings of the missing
    files among the layers reached: a first part of the warnings of all. *)
Lemma load_shape_layers_prints dataset_key layers : forall j m loaded s,
  exists more later,
    stdout (load_shape_layers dataset_key layers j m loaded s).1
    = (stdout s ++ more)%list
    /\ map (fun fn => warning fn dataset_key) (missing (map layer_path layers))
       = (more ++ later)%list.
Proof.
  induction layers as [|l layers IH]; intros j m loaded s.
  - exists [], []. cbn. by rewrite app_nil_r.
  - cbn [load_shape_layers map]. unfold bind.
    pose proof (load_shape_layer_prints dataset_key j l m loaded s) as Hout.
    rewrite (missing_cons (layer_path l) (map layer_path layers)), map_app.
    destruct (load_shape_layer dataset_key j l m loaded s) as [s1 [[m1 b1]|e]];
      cbn [fst snd] in *.
    + destruct (IH (S j) m1 b1 s1) as (more & later & Ho & Hw).
      exists (map (fun fn => warning fn dataset_key) (missing [layer_path l]) ++ more)%list,
             later.
      by rewrite Ho, Hout, Hw, !app_assoc.
    + eexists _, _. split; [exact Hout | reflexivity].
Qed.

Lemma process_dataset_prints dataset_key s :
  exists more later,
    stdout (process_dataset dataset_key s).1 = (stdout s ++ more)%list
    /\ warnings_of dataset_key (dataset s) = (more ++ later)%list.
Proof.
  destruct ((process_dataset dataset_key s).2) as [[]|e] eqn:Hres.
  - apply turn_returns_iff in Hres.
    rewrite (process_dataset_returns dataset_key s Hres). cbn [fst stdout].
    exists (warnings_of dataset_key (dataset s)), []. by rewrite app_nil_r.
  - destruct ((load_layers dataset_key (dataset s) s).2) as [r|e'] eqn:Hl.
    + assert (Hload : files_load (dataset s)).
      { unfold files_load, layers_of. unfold load_layers in Hl.
        destruct (shape_layers (dataset s)) as [layers|]; [|constructor].
        by eapply load_shape_layers_Ok_loads. }
      rewrite (process_dataset_loads dataset_key s Hload). cbv zeta.
      exists (warnings_of dataset_key (dataset s)), []. rewrite app_nil_r.
      split; [|reflexivity]. unfold warnings_of.
      destruct (missing_files (dataset s)); [|reflexivity].
      by destruct (make_data_loader _ _).
    + rewrite (process_dataset_layers_Raise dataset_key s e' Hl). cbn [fst].
      unfold warnings_of. rewrite missing_files_split, map_app.
      unfold load_layers, layers_of in *.
      destruct (shape_layers (dataset s)) as [layers|]; [|discriminate Hl].
      destruct (load_shape_layers_prints dataset_key layers 0 ∅ true s)
        as (more & later & Ho & Hw).
      exists more. eexists. split; [exact Ho|]. rewrite Hw, <- app_assoc. reflexivity.
Qed.

(** *** The turn that raises *)

Lemma getitem_Raise (d : list (string * PyVal)) key e :
  getitem d key = Raise e -> e = KeyError key.
Proof.
  induction d as [|[k v] d IH]; simpl; [by intros [= <-]|].
  destruct (String.eqb k key); [discriminate | exact IH].
Qed.

(** The turn over a shape layer whose file is there and does not load with
    an ["init"] in its crs raises, the loader's error or the [KeyError] of
    line 335, and prints nothing. *)
Lemma load_shape_layer_fails dataset_key j l m loaded s :
  ~ layer_loads l ->
  exists e,
    (load_shape_layer dataset_key j l m loaded s).2 = Raise e
    /\ stdout (load_shape_layer dataset_key j l m loaded s).1 = stdout s
    /\ (load_geojson_as_list (layer_path l) = Raise e
        \/ (e = KeyError "init"
            /\ exists shapes areas_ crs_,
                 load_geojson_as_list (layer_path l) = Ok (shapes, areas_, crs_)
                 /\ getitem crs_ "init" = Raise (KeyError "init"))).
Proof.
  intros Hbad. unfold load_shape_layer. fold (layer_path l).
  destruct (path_exists (layer_path l)) eqn:Hex;
    [|destruct Hbad; intros H; unfold layer_path in *; congruence].
  unfold bind, lift, store_layer, ret.
  destruct (load_geojson_as_list (layer_path l)) as [[[shapes areas_] crs_]|e] eqn:Hload.
  - cbn [fst snd stdout].
    destruct (getitem crs_ "init") as [init|e] eqn:Hinit.
    + destruct Hbad. intros _. by exists shapes, areas_, crs_, init.
    + pose proof (getitem_Raise _ _ _ Hinit) as ->.
      exists (KeyError "init"). cbn [fst snd stdout]. split; [reflexivity|].
      split; [reflexivity|]. right. split; [reflexivity|].
      by exists shapes, areas_, crs_.
  - exists e. cbn [fst snd]. split; [reflexivity|]. split; [reflexivity|]. by left.
Qed.

(** The turn of a declaration whose first shape layer that does not load is
    [l]: it raises what the turn over [l] raises, having printed the
    warnings of the layers before [l]. *)
Lemma process_dataset_first_bad_layer dataset_key s lpre l lpost :
  shape_layers (dataset s) = Some (lpre ++ l :: lpost)%list ->
  Forall layer_loads lpre ->
  ~ layer_loads l ->
  exists e,
    (process_dataset dataset_key s).2 = Raise e
    /\ stdout (process_dataset dataset_key s).1
       = (stdout s ++ map (fun fn => warning fn dataset_key)
                         (missing (map layer_path lpre)))%list
    /\ (load_geojson_as_list (layer_path l) = Raise e
        \/ (e = KeyError "init"
            /\ exists shapes areas_ crs_,
                 load_geojson_as_list (layer_path l) = Ok (shapes, areas_, crs_)
                 /\ getitem crs_ "init" = Raise (KeyError "init"))).
Proof.
  intros Hs Hpre Hbad.
  assert (Hl : exists e,
             (load_layers dataset_key (dataset s) s).2 = Raise e
             /\ stdout (load_layers dataset_key (dataset s) s).1
                = (stdout s ++ map (fun fn => warning fn dataset_key)
                                  (missing (map layer_path lpre)))%list
             /\ (load_geojson_as_list (layer_path l) = Raise e
                 \/ (e = KeyError "init"
                     /\ exists shapes areas_ crs_,
                          load_geojson_as_list (layer_path l) = Ok (shapes, areas_, crs_)
                          /\ getitem crs_ "init" = Raise (KeyError "init")))).
  { unfold load_layers. rewrite Hs.
    rewrite (load_shape_layers_prefix dataset_key lpre Hpre (l :: lpost) [] ∅ true s Hs).
    cbn [load_shape_layers].
    match goal with
    | |- context [bind (load_shape_layer ?k ?j l ?m ?b) ?f ?s0] =>
        destruct (load_shape_layer_fails k j l m b s0 Hbad) as (e & Hr & Ho & Hwhy);
        assert (Hb : bind (load_shape_layer k j l m b) f s0
                     = ((load_shape_layer k j l m b s0).1, Raise e))
          by (unfold bind; destruct (load_shape_layer k j l m b s0) as [s1 r1];
              cbn [fst snd] in Hr |- *; by subst r1);
        exists e; rewrite Hb
    end.
    cbn [fst snd]. split; [reflexivity|]. split; [exact Ho | exact Hwhy]. }
  destruct Hl as (e & Hr & Ho & Hwhy). exists e.
  rewrite (process_dataset_layers_Raise dataset_key s e Hr). cbn [fst snd].
  split; [reflexivity|]. split; [exact Ho | exact Hwhy].
Qed.

(** X12. The import stops at the first declaration whose turn has something
    to raise, and raises what that turn raises. What the turn raises, prints
    and leaves of the declaration is what it does from an empty registry and
    output. The registry is what the declarations before it registered, the
    declarations after it are as written, and the output is the warnings of
    the declarations before it followed by what the failing turn printed: a
    first part of the warnings of its missing files. The error is the
    factory's when the shape files load, with nothing printed and the
    layers enriched; otherwise it is the error of the first shape file that
    is there and does not load with an ["init"] in its crs, the loader's or
    [KeyError('init')], after the warnings of the layers before it. *)
Theorem import_stops_at_first_raise pre dataset_key d rest :
  Forall (fun item => turn_returns item.2) pre ->
  ~ turn_returns d ->
  exists e d' more,
    process_dataset dataset_key {| DATASETS := ∅; stdout := []; dataset := d |}
    = ({| DATASETS := ∅; stdout := more; dataset := d' |}, Raise e)
    /\ import_module (pre ++ (dataset_key, d) :: rest)%list
       = ((map enriched_item pre ++ (dataset_key, d') :: rest)%list,
          fold_left register_item pre ∅,
          (concat (map (fun item => warnings_of item.1 item.2) pre) ++ more)%list,
          Raise e)
    /\ (exists later, warnings_of dataset_key d = (more ++ later)%list)
    /\ (files_load d ->
        make_data_loader d (registered (layers_of d) ∅) = Raise e
        /\ more = [] /\ d' = enriched_dataset d)
    /\ (forall lpre l lpost,
          shape_layers d = Some (lpre ++ l :: lpost)%list ->
          Forall layer_loads lpre ->
          ~ layer_loads l ->
          more = map (fun fn => warning fn dataset_key) (missing (map layer_path lpre))
          /\ (load_geojson_as_list (layer_path l) = Raise e
              \/ (e = KeyError "init"
                  /\ exists shapes areas_ crs_,
                       load_geojson_as_list (layer_path l) = Ok (shapes, areas_, crs_)
                       /\ getitem crs_ "init" = Raise (KeyError "init")))).
Proof.
  intros Hpre Hd. unfold import_module.
  rewrite (load_datasets_app pre _ ∅ [] _ _ _ (load_datasets_returns pre Hpre ∅ [])).
  cbv zeta. cbn [load_datasets app].
  set (s0 := {| DATASETS := fold_left register_item pre ∅;
                stdout := concat (map (fun item => warnings_of item.1 item.2) pre);
                dataset := d |}).
  set (s1 := {| DATASETS := ∅; stdout := []; dataset := d |}).
  pose proof (turn_returns_iff dataset_key s1) as Hiff.
  pose proof (process_dataset_Raise_registry dataset_key s0) as Hreg0.
  pose proof (process_dataset_Raise_registry dataset_key s1) as Hreg1.
  destruct (independent_process_dataset dataset_key s0 s1 eq_refl)
    as (Hres & Hdata & more & Hout0 & Hout1).
  destruct (process_dataset_prints dataset_key s1) as (more' & later & Hout1' & Hlater).
  pose proof (process_dataset_loads dataset_key s1) as Hloads.
  pose proof (process_dataset_first_bad_layer dataset_key s1) as Hbad.
  destruct (process_dataset dataset_key s1) as [t1 [[]|e]] eqn:Hturn; cbn [fst snd] in *.
  { destruct Hd. by apply Hiff. }
  destruct (process_dataset dataset_key s0) as [t0 r0]; cbn [fst snd] in *. subst r0.
  assert (Hmore : more' = more)
    by (rewrite Hout1 in Hout1'; by apply app_inv_head in Hout1'). subst more'.
  exists e, (dataset t1), more. split; [|split; [|split; [|split]]].
  - destruct t1 as [reg1 out1 d1]. cbn [DATASETS stdout dataset] in *.
    by rewrite (Hreg1 e eq_refl), Hout1.
  - unfold definitions_of, registry_of, output_of, outcome_of. cbn [fst snd].
    by rewrite (Hreg0 e eq_refl), Hout0, Hdata.
  - by exists later.
  - intros Hload. specialize (Hloads Hload). cbv zeta in Hloads.
    unfold s1 in Hloads, Hout1. cbn [dataset DATASETS stdout] in Hloads, Hout1.
    destruct (missing_files d) as [|fn fns] eqn:Hmiss; [|discriminate Hloads].
    destruct (make_data_loader d (registered (layers_of d) ∅)) as [dl|e'];
      [discriminate Hloads|].
    injection Hloads as Ht1 He. subst t1 e'. cbn [stdout dataset app map] in *.
    split; [reflexivity|]. split; [by symmetry | reflexivity].
  - intros lpre l lpost Hs Hlpre Hl.
    destruct (Hbad lpre l lpost Hs Hlpre Hl) as (e' & He' & Ho & Hwhy).
    injection He' as <-. split; [|exact Hwhy].
    unfold s1 in Ho, Hout1. cbn [stdout app] in Ho, Hout1. congruence.
Qed.

(** X13. When the import returns, with one declaration per key, the
    registry does not depend on the order of the table: the import of the
    same declarations in another order returns too and builds the same
    registry. *)
Theorem registry_does_not_depend_on_order items items' :
  Permutation items items' ->
  NoDup (map fst items) ->
  outcome_of (import_module items) = Ok tt ->
  outcome_of (import_module items') = Ok tt
  /\ registry_of (import_module items') = registry_of (import_module items).
Proof.
  unfold import_module. intros Hperm Hnd Hok.
  pose proof (load_datasets_Ok_returns items ∅ [] Hok) as Hall.
  assert (Hall' : Forall (fun item => turn_returns item.2) items')
    by (by rewrite <- Hperm).
  assert (Hnd' : NoDup (map fst items')) by (by rewrite <- Hperm).
  rewrite (load_datasets_returns items Hall), (load_datasets_returns items' Hall').
  unfold outcome_of, registry_of. cbn [fst snd]. split; [reflexivity|].
  apply map_eq. intros k. apply option_eq. intros e.
  rewrite (fold_register_item_lookup items Hnd), (fold_register_item_lookup items' Hnd').
  split; intros (d & dl & Hin & H); exists d, dl; (split; [|exact H]).
  - eapply Permutation_in; [symmetry; exact Hperm | exact Hin].
  - eapply Permutation_in; [exact Hperm | exact Hin].
Qed.

End ImportProperties.

(** ** The module's own table *)

Section TableProperties.
Context `{W : World} `{FLit : !FloatLiteral}.

Lemma table_keys :
  map fst DATASET_DEFINITIONS
  = ["esri_world_imagery"; "esri_world_imagery_naip"; "user_study_5";
     "yangon_sentinel"; "hcmc_sentinel"; "yangon_lidar"; "hcmc_dg"; "airbus";
     "chesapeake"].
Proof. reflexivity. Qed.

Lemma table_keys_NoDup : NoDup (map fst DATASET_DEFINITIONS).
Proof.
  rewrite table_keys.
  repeat (apply NoDup_cons_2;
          [rewrite list_elem_of_In; simpl; intuition discriminate|]).
  apply NoDup_nil_2.
Qed.

Lemma table_factory_returns item m :
  In item DATASET_DEFINITIONS -> exists data_loader_, make_data_loader item.2 m = Ok data_loader_.
Proof.
  unfold DATASET_DEFINITIONS. simpl.
  intros [<-|[<-|[<-|[<-|[<-|[<-|[<-|[<-|[<-|[]]]]]]]]]]; eexists; reflexivity.
Qed.

(** X14. The table is well formed for the loop: its nine keys are distinct,
    every declaration's kind is one of the three, and every declaration has
    the keys the constructor of its kind reads, so that no turn over the
    table raises at lines 351-358, whatever is on disk. Every shape layer is
    declared without ["geoms"], ["areas"] and ["crs"]. *)
Theorem table_is_well_formed :
  NoDup (map fst DATASET_DEFINITIONS)
  /\ length DATASET_DEFINITIONS = 9%nat
  /\ (forall item m, In item DATASET_DEFINITIONS ->
        exists data_loader_, make_data_loader item.2 m = Ok data_loader_)
  /\ (forall item l, In item DATASET_DEFINITIONS -> In l (layers_of item.2) ->
        geoms l = None /\ areas l = None /\ crs l = None).
Proof.
  split; [apply table_keys_NoDup|]. split; [reflexivity|].
  split; [intros item m; apply table_factory_returns|].
  intros item l. unfold DATASET_DEFINITIONS. simpl.
  intros [<-|[<-|[<-|[<-|[<-|[<-|[<-|[<-|[<-|[]]]]]]]]]]; simpl;
    intuition (subst; auto).
Qed.

Lemma basemaps_return :
  Forall (fun item => turn_returns item.2)
         [("esri_world_imagery", esri_world_imagery);
          ("esri_world_imagery_naip", esri_world_imagery_naip)].
Proof.
  repeat constructor; try discriminate; intros _; eexists; reflexivity.
Qed.

(** X15. Importing the module's own table, whatever is on disk. The import
    returns exactly when every shape file of the table that is there loads
    with an ["init"] in its crs. The two ESRI datasets, which refer to no
    file and come first, are registered in every case, even when the import
    raises later. When the import returns, a dataset of the table is
    registered exactly when none of its files is missing. *)
Theorem import_of_the_table :
  (outcome_of (import_module DATASET_DEFINITIONS) = Ok tt
   <-> forall item, In item DATASET_DEFINITIONS -> files_load item.2)
  /\ registry_of (import_module DATASET_DEFINITIONS) !! "esri_world_imagery"
     = Some {| data_loader :=
                 DataLoaderBasemap esri_url (PyFloat (float_literal "0.0005"));
               entry_shape_layers := ∅;
               javascript_string :=
                 get_javascript_string_from_dataset esri_world_imagery |}
  /\ registry_of (import_module DATASET_DEFINITIONS) !! "esri_world_imagery_naip"
     = Some {| data_loader := DataLoaderUSALayer ∅ (PyInt 20);
               entry_shape_layers := ∅;
               javascript_string :=
                 get_javascript_string_from_dataset esri_world_imagery_naip |}
  /\ (outcome_of (import_module DATASET_DEFINITIONS) = Ok tt ->
      forall k d, In (k, d) DATASET_DEFINITIONS ->
        (is_Some (registry_of (import_module DATASET_DEFINITIONS) !! k)
         <-> missing_files d = [])).
Proof.
  split; [|split; [|split]].
  - unfold import_module. split.
    + intros Hok item Hin. apply load_datasets_Ok_returns in Hok.
      rewrite List.Forall_forall in Hok. by destruct (Hok item Hin).
    + intros Hall.
      rewrite (load_datasets_returns DATASET_DEFINITIONS); [reflexivity|].
      apply List.Forall_forall. intros item Hin. split; [by apply Hall|].
      intros _. by apply table_factory_returns.
  - unfold import_module.
    change DATASET_DEFINITIONS
      with ([("esri_world_imagery", esri_world_imagery);
             ("esri_world_imagery_naip", esri_world_imagery_naip)]
            ++ skipn 2 DATASET_DEFINITIONS)%list.
    rewrite (load_datasets_app _ _ ∅ [] _ _ _
               (load_datasets_returns _ basemaps_return ∅ [])).
    cbv zeta. unfold registry_of at 1. cbn [fst snd].
    rewrite load_datasets_other by (simpl; intuition discriminate).
    reflexivity.
  - unfold import_module.
    change DATASET_DEFINITIONS
      with ([("esri_world_imagery", esri_world_imagery);
             ("esri_world_imagery_naip", esri_world_imagery_naip)]
            ++ skipn 2 DATASET_DEFINITIONS)%list.
    rewrite (load_datasets_app _ _ ∅ [] _ _ _
               (load_datasets_returns _ basemaps_return ∅ [])).
    cbv zeta. unfold registry_of at 1. cbn [fst snd].
    rewrite load_datasets_other by (simpl; intuition discriminate).
    reflexivity.
  - unfold import_module. intros Hok k d Hin.
    pose proof (load_datasets_Ok_returns _ ∅ [] Hok) as Hall.
    rewrite (load_datasets_returns _ Hall). unfold registry_of. cbn [fst snd].
    split.
    + intros [e He].
      apply (fold_register_item_lookup _ table_keys_NoDup) in He
        as (d' & dl & Hin' & Hm & _).
      assert (d' = d) as ->; [|assumption].
      pose proof table_keys_NoDup as Hnd.
      clear -Hin Hin' Hnd.
      induction DATASET_DEFINITIONS as [|[k0 d0] items IH]; [destruct Hin|].
      simpl in Hnd. apply NoDup_cons in Hnd as [Hfresh Hnd].
      destruct Hin as [[= -> ->]|Hin], Hin' as [[= <-]|Hin'].
      * reflexivity.
      * destruct Hfresh. apply list_elem_of_In. by apply (in_map fst) in Hin'.
      * subst. destruct Hfresh. apply list_elem_of_In. by apply (in_map fst) in Hin.
      * by apply IH.
    + intros Hm. destruct (table_factory_returns (k, d) (registered (layers_of d) ∅) Hin)
        as [dl Hdl].
      exists (entry_of d dl). apply (fold_register_item_lookup _ table_keys_NoDup).
      by exists d, dl.
Qed.

End TableProperties.

(** ** The claims in the sample world *)

Import Sample.

Ltac sample_layer_loads :=
  let Hex := fresh "Hex" in
  intros Hex;
  first [ discriminate Hex
        | do 4 eexists; split; reflexivity ].

Ltac sample_files_load :=
  unfold files_load; simpl; repeat (constructor; [sample_layer_loads|]);
  try constructor.

(** C2: with [False] and [None] among the tile-layer options, the serialized
    string has Python's [False] and [None], not [false] and [null]. *)
Theorem kwargs_False_and_None_stay_python :
  let d := declaration (Member BASEMAP) None (tile_args false) None in
  @outputs_kwargs float_Q world d
  = "{'tms': False, 'minZoom': 13, 'bounds': None, 'attribution': 'Georeferenced Image'}"
  /\ contains "False" (@get_javascript_string_from_dataset float_Q world d) = true
  /\ contains "false" (@get_javascript_string_from_dataset float_Q world d) = false
  /\ contains "'bounds': None" (@get_javascript_string_from_dataset float_Q world d) = true.
Proof. repeat split; vm_compute; reflexivity. Qed.

Lemma shapes_null_when_shape_layers_is_None_witness :
  @outputs_shapes float_Q world (custom None) = "null".
Proof.
  exact (proj1 (@shapes_null_when_shape_layers_is_None float_Q world
                  (custom None) eq_refl)).
Defined.

(** A declaration with an empty list of shape layers has no shape layer, and
    its ["shapes"] is the empty list literal, not [null]. *)
Lemma shapes_of_empty_list_is_not_null :
  layers_of (custom (Some [])) = []
  /\ @outputs_shapes float_Q world (custom (Some [])) = "[]"
  /\ @outputs_shapes float_Q world (custom (Some [])) <> "null".
Proof. repeat split. discriminate. Qed.

Lemma load_geojson_as_list_parallel_witness :
  load grid_path = Ok ([square; islands], [Qmake 5 2; Qmake 5 2], epsg4326)
  /\ length [square; islands] = length [Qmake 5 2; Qmake 5 2].
Proof.
  split; [reflexivity|].
  exact (proj1 (@load_geojson_as_list_parallel float_Q world grid_path
                  [square; islands] [Qmake 5 2; Qmake 5 2] epsg4326 eq_refl)).
Defined.

Lemma load_geojson_as_list_original_geometry_witness :
  (exists projected_geom projected_shape,
     [square; islands] !! 0%nat = Some square
     /\ @transform_geom float_Q world epsg4326
          "+proj=utm +zone=18 +north +datum=WGS84 +units=m +no_defs" square
        = Ok projected_geom
     /\ @shape float_Q world projected_geom = Ok projected_shape
     /\ [Qmake 5 2; Qmake 5 2] !! 0%nat
        = Some (@float_truediv float_Q (@area float_Q world projected_shape)
                  (@float_of_int float_Q 1000000)))
  /\ (exists projected_geom projected_shape,
        [square; islands] !! 1%nat = Some islands
        /\ @transform_geom float_Q world epsg4326
             "+proj=utm +zone=47 +south +datum=WGS84 +units=m +no_defs" islands
           = Ok projected_geom
        /\ @shape float_Q world projected_geom = Ok projected_shape
        /\ [Qmake 5 2; Qmake 5 2] !! 1%nat
           = Some (@float_truediv float_Q (@area float_Q world projected_shape)
                     (@float_of_int float_Q 1000000))).
Proof.
  destruct (@load_geojson_as_list_original_geometry float_Q world grid_path
              [square; islands] [Qmake 5 2; Qmake 5 2] epsg4326 eq_refl)
    as (rows & Hopen & Hrows).
  assert (Hrow0 : rows !! 0%nat = Some (row_of square)) by (by inversion Hopen).
  assert (Hrow1 : rows !! 1%nat = Some (row_of islands)) by (by inversion Hopen).
  split.
  - destruct (Hrows 0%nat (row_of square) Hrow0)
      as (geom & lon & lat & zone & north & pg & ps & sh
          & Hg & Hv & Hz & Hn & Ht & Hps & Hsh & Hi & Ha).
    assert (Hgeom : geom = square) by (by inversion Hg). subst geom.
    assert (Hvertex : lon = @PyFloat float_Q (Qmake (-75) 1)
                      /\ lat = @PyFloat float_Q (Qmake 42 1)).
    { destruct Hv as [[_ (more & rings & Hc)]|[Ht' _]]; [|discriminate Ht'].
      by inversion Hc. }
    destruct Hvertex as [-> ->].
    assert (Hzone : zone = 18%Z) by (by inversion Hz).
    assert (Hnorth : north = true) by (rewrite Hn; reflexivity).
    subst zone north.
    exists pg, ps. split; [reflexivity|]. split; [exact Ht|]. split; [exact Hps|].
    exact Ha.
  - destruct (Hrows 1%nat (row_of islands) Hrow1)
      as (geom & lon & lat & zone & north & pg & ps & sh
          & Hg & Hv & Hz & Hn & Ht & Hps & Hsh & Hi & Ha).
    assert (Hgeom : geom = islands) by (by inversion Hg). subst geom.
    assert (Hvertex : lon = @PyFloat float_Q (Qmake 96 1)
                      /\ lat = @PyFloat float_Q (Qmake (-16) 1)).
    { destruct Hv as [[Ht' _]|[_ (more & rings & polygons & Hc)]]; [discriminate Ht'|].
      by inversion Hc. }
    destruct Hvertex as [-> ->].
    assert (Hzone : zone = 47%Z) by (by inversion Hz).
    assert (Hnorth : north = false) by (rewrite Hn; reflexivity).
    subst zone north.
    exists pg, ps. split; [reflexivity|]. split; [exact Ht|]. split; [exact Hps|].
    exact Ha.
Defined.

Lemma load_geojson_as_list_unsupported_witness :
  load "/srv/landcover/shapes/parcels.geojson"
  = Raise (ValueError "Polygons and MultiPolygons only").
Proof.
  apply (@load_geojson_as_list_unsupported float_Q world
           "/srv/landcover/shapes/parcels.geojson" epsg4326
           [row_of square] (row_of a_point) [row_of islands] a_point
           eq_refl eq_refl); try discriminate.
  constructor; [|constructor]. eexists. reflexivity.
Defined.

(** A file with a Point after a feature that has no geometry: the load
    raises the [TypeError] of line 278, not the error of line 283. *)
Lemma unsupported_after_bare_feature_raises_TypeError :
  @fiona_open float_Q world "/srv/landcover/shapes/mixed.geojson"
  = Ok (epsg4326, [bare_row; row_of a_point])
  /\ type a_point = "Point"
  /\ load "/srv/landcover/shapes/mixed.geojson"
     = @Raise (list (@Shape float_Q world) * list Q * @CRS float_Q) TypeError
  /\ load "/srv/landcover/shapes/mixed.geojson"
     <> Raise (ValueError "Polygons and MultiPolygons only").
Proof. repeat split. discriminate. Qed.

Lemma missing_file_excludes_dataset_witness :
  DATASETS (run (custom (Some [grid; roads; wells]))).1 = ∅
  /\ In "WARNING: /srv/landcover/shapes/roads.geojson doesn't exist, this server will not be able to serve the 'sample' dataset"
        (stdout (run (custom (Some [grid; roads; wells]))).1)
  /\ (run (custom (Some [grid; roads; wells]))).2
     = Raise (ValueError "Polygons and MultiPolygons only")
  /\ String.prefix "/" roads_path = true
  /\ registry_of (@import_module float_Q world
                    [("area", custom (Some [grid]));
                     ("sample", custom (Some [grid; roads; wells]))]) !! "sample"
     = None.
Proof.
  destruct (@missing_file_excludes_dataset float_Q world "sample"
              (start (custom (Some [grid; roads; wells])))
              [grid_path] roads_path
              ["/srv/landcover/shapes/wells.geojson"; "/srv/landcover/tiles/area.tif"])
    as (Hreg & Hwarn & Htext & _ & _ & Habs & Himport).
  - reflexivity.
  - reflexivity.
  - split; [exact Hreg|]. split; [|split; [reflexivity|split]].
    + rewrite Htext in Hwarn.
      apply Hwarn. simpl. constructor; [sample_layer_loads | constructor].
    + apply Habs. reflexivity.
    + apply Himport.
      * simpl.
        apply NoDup_cons_2;
          [apply not_elem_of_cons; split; [discriminate | apply not_elem_of_nil]|].
        apply NoDup_cons_2; [apply not_elem_of_nil | apply NoDup_nil_2].
      * simpl. right. left. reflexivity.
Defined.

(** The first shape file holds a Point and the second is missing: the turn
    raises on the first and prints no warning for the second. *)
Lemma missing_file_after_bad_file_has_no_warning :
  In roads_path (@referenced_files float_Q world (custom (Some [wells; roads])))
  /\ @path_exists float_Q world roads_path = false
  /\ (run (custom (Some [wells; roads]))).2
     = Raise (ValueError "Polygons and MultiPolygons only")
  /\ ~ In (warning roads_path "sample") (stdout (run (custom (Some [wells; roads]))).1).
Proof.
  split; [simpl; right; left; reflexivity|].
  split; [reflexivity|]. split; [reflexivity|].
  vm_compute. intros [].
Qed.

Lemma unknown_source_kind_raises_witness :
  let before := @load_datasets float_Q world [("area", custom (Some [grid]))] ∅ [] in
  let all := @load_datasets float_Q world
               [("area", custom (Some [grid]));
                ("sample", tiled (Some "tiles/area.tif") (Some [outline]));
                ("later", custom None)] ∅ [] in
  outcome_of all = Raise (ValueError "DatasetType not recognized")
  /\ registry_of all = registry_of before
  /\ output_of all = []
  /\ registry_of all !! "sample" = None
  /\ registry_of all !! "later" = None.
Proof.
  cbv zeta.
  rewrite (@unknown_source_kind_raises float_Q world
             [("area", custom (Some [grid]))]
             "sample" (tiled (Some "tiles/area.tif") (Some [outline]))
             [("later", custom None)] (PyStr "TILED") ∅ []
             (definitions_of (@load_datasets float_Q world
                                [("area", custom (Some [grid]))] ∅ []))
             (registry_of (@load_datasets float_Q world
                             [("area", custom (Some [grid]))] ∅ []))
             []).
  - repeat split.
  - reflexivity.
  - reflexivity.
  - reflexivity.
  - sample_files_load.
Defined.

(** A declaration of an unknown kind whose raster is missing: the import
    returns, with a warning and an empty registry; nothing is raised. *)
Lemma unknown_kind_with_missing_raster_is_not_raised :
  data_layer_type (tiled (Some "tiles/gone.tif") None) = NotMember (PyStr "TILED")
  /\ outcome_of (@import_module float_Q world
                   [("sample", tiled (Some "tiles/gone.tif") None)]) = Ok tt
  /\ output_of (@import_module float_Q world
                  [("sample", tiled (Some "tiles/gone.tif") None)])
     = [warning "/srv/landcover/tiles/gone.tif" "sample"]
  /\ registry_of (@import_module float_Q world
                    [("sample", tiled (Some "tiles/gone.tif") None)]) !! "sample"
     = None.
Proof. repeat split. Qed.

Lemma validation_reports_every_missing_file_witness :
  (run (custom (Some [grid; outline; roads; blocks]))).2 = Ok tt
  /\ DATASETS (run (custom (Some [grid; outline; roads; blocks]))).1 = ∅
  /\ stdout (run (custom (Some [grid; outline; roads; blocks]))).1
     = [warning roads_path "sample"]
  /\ shape_layers (dataset (run (custom (Some [grid; outline; roads; blocks]))).1)
     = Some (map (@enriched float_Q world) [grid; outline; roads; blocks]).
Proof.
  destruct (@validation_reports_every_missing_file float_Q world "sample"
              (start (custom (Some [grid; outline; roads; blocks]))))
    as [_ Hfour]; [sample_files_load|].
  destruct (Hfour [grid; outline; roads; blocks] roads_path)
    as (Hok & Hreg & Hout & _ & Hlayers & _).
  - reflexivity.
  - reflexivity.
  - simpl. right. right. left. reflexivity.
  - reflexivity.
  - repeat split; assumption.
Defined.

(** Four shape layers, the last one the only missing file, the first one a
    file of Points: the turn raises on the first, loads no layer and prints
    no warning. *)
Lemma bad_file_stops_validation :
  @missing_files float_Q world (custom (Some [wells; grid; outline; roads]))
  = [roads_path]
  /\ (run (custom (Some [wells; grid; outline; roads]))).2
     = Raise (ValueError "Polygons and MultiPolygons only")
  /\ stdout (run (custom (Some [wells; grid; outline; roads]))).1 = []
  /\ shape_layers (dataset (run (custom (Some [wells; grid; outline; roads]))).1)
     = Some [wells; grid; outline; roads].
Proof. repeat split. Qed.

Lemma existing_layers_enriched_regardless_witness :
  @layer_at float_Q world (dataset (run (custom (Some [grid; roads; wells]))).1) 0
  = Some (@Build_ShapeLayer float_Q world
            "Grid" "shapes/grid.geojson" None
            (Some [square; islands]) (Some [Qmake 5 2; Qmake 5 2])
            (Some (PyStr "epsg:4326")))
  /\ DATASETS (run (custom (Some [grid; roads; wells]))).1 = ∅.
Proof.
  destruct (@existing_layers_enriched_regardless float_Q world "sample"
              (start (custom (Some [grid; roads; wells])))
              [grid; roads; wells] 0%nat grid)
    as [(shapes & areas_ & crs_ & init & Hload & Hinit & Hj) Hmiss].
  - reflexivity.
  - reflexivity.
  - reflexivity.
  - simpl. constructor; [sample_layer_loads | constructor].
  - split.
    + unfold run. rewrite Hj. inversion Hload; subst. inversion Hinit; subst.
      reflexivity.
    + apply Hmiss. discriminate.
Defined.

(** The raster is missing, the first shape file holds a Point, and the
    second is there and would load: the turn raises on the first and the
    second layer is left as declared. *)
Lemma layer_after_bad_file_is_not_enriched :
  let d := declaration (Member CUSTOM) (Some "tiles/gone.tif") (tile_args true)
             (Some [wells; grid]) in
  @path_exists float_Q world (@layer_path float_Q world grid) = true
  /\ load grid_path = Ok ([square; islands], [Qmake 5 2; Qmake 5 2], epsg4326)
  /\ @layer_at float_Q world (dataset (run d).1) 1 = Some grid
  /\ geoms grid = None /\ areas grid = None /\ crs grid = None.
Proof. repeat split. Qed.

Lemma unknown_kind_with_missing_file_is_skipped_witness :
  DATASETS (run (tiled None (Some [grid; roads]))).1 = ∅
  /\ (run (tiled None (Some [grid; roads]))).2 = Ok tt
  /\ stdout (run (tiled None (Some [grid; roads]))).1 = [warning roads_path "sample"].
Proof.
  destruct (@unknown_kind_with_missing_file_is_skipped float_Q world "sample"
              (start (tiled None (Some [grid; roads]))) (PyStr "TILED") roads_path)
    as [Hreg Hrest].
  - reflexivity.
  - simpl. right. left. reflexivity.
  - reflexivity.
  - destruct Hrest as [Hok Hout]; [sample_files_load|].
    split; [exact Hreg|]. split; [exact Hok|]. exact Hout.
Defined.

(** A declaration of an unknown kind, one shape file of Points and one
    missing: the turn raises. *)
Lemma unknown_kind_with_missing_and_bad_file_raises :
  data_layer_type (tiled None (Some [wells; roads])) = NotMember (PyStr "TILED")
  /\ In roads_path (@referenced_files float_Q world (tiled None (Some [wells; roads])))
  /\ @path_exists float_Q world roads_path = false
  /\ (run (tiled None (Some [wells; roads]))).2
     = Raise (ValueError "Polygons and MultiPolygons only").
Proof. repeat split. simpl. right. left. reflexivity. Qed.

(** ** The further properties in the sample world *)

Import Sample2.

Lemma load_geojson_as_list_outcome_witness :
  load "/srv/landcover/shapes/outline.geojson" = Ok ([square], [Qmake 5 2], epsg4326)
  /\ load "/srv/landcover/shapes/parcels.geojson"
     = Raise (ValueError "Polygons and MultiPolygons only")
  /\ load "/srv/landcover/shapes/roads.geojson"
     = Raise (LibraryError "No such file or directory").
Proof.
  destruct (@load_geojson_as_list_outcome float_Q world
              "/srv/landcover/shapes/outline.geojson") as (Hiff & _ & _ & _).
  destruct (@load_geojson_as_list_outcome float_Q world
              "/srv/landcover/shapes/parcels.geojson") as (_ & _ & _ & Hfirst).
  destruct (@load_geojson_as_list_outcome float_Q world
              "/srv/landcover/shapes/roads.geojson") as (_ & _ & Hopen & _).
  split; [|split].
  - apply Hiff. exists [row_of square], [(square, Qmake 5 2)].
    split; [reflexivity|]. split; [|split; reflexivity].
    constructor; [reflexivity | constructor].
  - apply (Hfirst epsg4326 [row_of square] (row_of a_point) [row_of islands]).
    + reflexivity.
    + constructor; [|constructor]. eexists. reflexivity.
    + reflexivity.
  - apply Hopen. reflexivity.
Defined.

Lemma degenerate_features_raise_witness :
  @load_row float_Q world epsg4326 bare_row = Raise TypeError
  /\ @load_row float_Q world epsg4326 (row_of nothing) = Raise IndexError
  /\ @load_row float_Q world epsg4326 (row_of spire)
     = Raise (ValueError "too many values to unpack (expected 2)").
Proof.
  split; [|split].
  - apply (@degenerate_features_raise float_Q world epsg4326 bare_row). reflexivity.
  - apply (proj1 (proj2 (@degenerate_features_raise float_Q world epsg4326
                           (row_of nothing))) nothing eq_refl).
    right. split; [reflexivity|]. by left.
  - apply (proj2 (proj2 (@degenerate_features_raise float_Q world epsg4326
                           (row_of spire)))
             spire (@PyFloat float_Q (Qmake (-75) 1)) (@PyFloat float_Q (Qmake 42 1))
             (@PyFloat float_Q (Qmake 310 1)) [] eq_refl).
    left. split; [reflexivity|]. by exists [], [].
Defined.

Lemma client_config_reads_declared_fields_only_witness :
  @get_javascript_string_from_dataset float_Q world (custom (Some [grid]))
  = @get_javascript_string_from_dataset float_Q world
      (tiled None (Some [@enriched float_Q world grid])).
Proof.
  apply (proj1 (@client_config_reads_declared_fields_only float_Q world
                  (custom (Some [grid]))
                  (tiled None (Some [@enriched float_Q world grid]))));
    reflexivity.
Defined.

Lemma loadable_dataset_is_registered_witness :
  (run (custom (Some [grid; outline]))).2 = Ok tt
  /\ stdout (run (custom (Some [grid; outline]))).1 = []
  /\ data_loader <$> (DATASETS (run (custom (Some [grid; outline]))).1 !! "sample")
     = Some (DataLoaderCustom "tiles/area.tif"
               (@registered float_Q world [grid; outline] ∅) (PyInt 20)).
Proof.
  destruct (@loadable_dataset_is_registered float_Q world "sample"
              (start (custom (Some [grid; outline])))
              (DataLoaderCustom "tiles/area.tif"
                 (@registered float_Q world [grid; outline] ∅) (PyInt 20)))
    as (Hok & Hout & Hentry & _ & _).
  - sample_files_load.
  - reflexivity.
  - reflexivity.
  - split; [exact Hok|]. split; [exact Hout|]. unfold run. by rewrite Hentry.
Defined.

Lemma absent_key_raises_KeyError_witness :
  (run (declaration (Member CUSTOM) None (tile_args true) (Some [grid]))).2
  = Raise (KeyError "data_fn")
  /\ (run (declaration (Member BASEMAP) None (tile_args true) None)).2
     = Raise (KeyError "data_url")
  /\ (run unpadded).2 = Raise (KeyError "data_padding")
  /\ stdout (run unpadded).1 = [] /\ DATASETS (run unpadded).1 = ∅.
Proof.
  destruct (@absent_key_raises_KeyError float_Q world "sample"
              (start (declaration (Member CUSTOM) None (tile_args true) (Some [grid]))))
    as (Hfn & _ & _); [sample_files_load | reflexivity |].
  destruct (@absent_key_raises_KeyError float_Q world "sample"
              (start (declaration (Member BASEMAP) None (tile_args true) None)))
    as (_ & Hurl & _); [sample_files_load | reflexivity |].
  destruct (@absent_key_raises_KeyError float_Q world "sample" (start unpadded))
    as (_ & _ & Hpad); [sample_files_load | reflexivity |].
  split; [exact (proj1 (Hfn eq_refl eq_refl))|].
  split; [exact (proj1 (Hurl eq_refl eq_refl))|].
  destruct (Hpad USA_LAYER eq_refl) as (H1 & H2 & H3); try discriminate; try reflexivity.
  split; [exact H1|]. split; [exact H3 | exact H2].
Defined.

Lemma crs_without_init_stops_turn_witness :
  let s := {| DATASETS := ∅; stdout := [];
              dataset := plain_custom [plain_layer "Roads" "shapes/roads.geojson";
                                       plain_layer "Grid" "shapes/grid.geojson";
                                       plain_layer "Outline" "shapes/outline.geojson"] |} in
  (@process_dataset float_Q plain_world "sample" s).2 = Raise (KeyError "init")
  /\ @layer_at float_Q plain_world
       (dataset (@process_dataset float_Q plain_world "sample" s).1) 1
     = Some (@Build_ShapeLayer float_Q plain_world "Grid" "shapes/grid.geojson" None
               (Some [square; islands]) (Some [Qmake 5 2; Qmake 5 2]) None)
  /\ @layer_at float_Q plain_world
       (dataset (@process_dataset float_Q plain_world "sample" s).1) 2
     = Some (plain_layer "Outline" "shapes/outline.geojson")
  /\ stdout (@process_dataset float_Q plain_world "sample" s).1
     = [warning roads_path "sample"].
Proof.
  cbv zeta.
  destruct (@crs_without_init_stops_turn float_Q plain_world "sample"
              {| DATASETS := ∅; stdout := [];
                 dataset := plain_custom [plain_layer "Roads" "shapes/roads.geojson";
                                          plain_layer "Grid" "shapes/grid.geojson";
                                          plain_layer "Outline" "shapes/outline.geojson"] |}
              [plain_layer "Roads" "shapes/roads.geojson"]
              (plain_layer "Grid" "shapes/grid.geojson")
              [plain_layer "Outline" "shapes/outline.geojson"]
              [square; islands] [Qmake 5 2; Qmake 5 2] longlat)
    as (Hraise & Hlayer & Hpost & _).
  - reflexivity.
  - constructor; [sample_layer_loads | constructor].
  - reflexivity.
  - reflexivity.
  - intros v [H|[H|[]]]; discriminate.
  - split; [exact Hraise|]. split; [exact Hlayer|]. split; [exact (Hpost 0%nat)|].
    reflexivity.
Defined.

Lemma last_layer_of_a_name_is_registered_witness :
  exists entry,
    DATASETS (run (custom (Some [grid; grid_again]))).1 !! "sample" = Some entry
    /\ entry_shape_layers entry !! "Grid" = Some (@enriched float_Q world grid_again)
    /\ shapes_fn (@enriched float_Q world grid_again) = "shapes/outline.geojson".
Proof.
  destruct (@last_layer_of_a_name_is_registered float_Q world "sample"
              (start (custom (Some [grid; grid_again])))
              (DataLoaderCustom "tiles/area.tif"
                 (@registered float_Q world [grid; grid_again] ∅) (PyInt 20))
              [grid] grid_again [])
    as (entry & Hentry & Hlast & _).
  - sample_files_load.
  - reflexivity.
  - reflexivity.
  - reflexivity.
  - constructor.
  - exists entry. split; [exact Hentry|]. split; [exact Hlast|]. reflexivity.
Defined.

Lemma import_returns_iff_witness :
  let items := [("area", custom (Some [grid])); ("sample", custom (Some [grid; roads]));
                ("later", tiled (Some "tiles/gone.tif") (Some [roads; outline]))] in
  outcome_of (@import_module float_Q world items) = Ok tt
  /\ output_of (@import_module float_Q world items)
     = [warning roads_path "sample"; warning roads_path "later";
        warning "/srv/landcover/tiles/gone.tif" "later"]
  /\ definitions_of (@import_module float_Q world items)
     = map (@enriched_item float_Q world) items.
Proof.
  cbv zeta.
  destruct (@import_returns_iff float_Q world
              [("area", custom (Some [grid])); ("sample", custom (Some [grid; roads]));
               ("later", tiled (Some "tiles/gone.tif") (Some [roads; outline]))])
    as [Hiff Hthen].
  assert (Hok : outcome_of (@import_module float_Q world
                  [("area", custom (Some [grid])); ("sample", custom (Some [grid; roads]));
                   ("later", tiled (Some "tiles/gone.tif") (Some [roads; outline]))])
                = Ok tt).
  { apply Hiff. repeat constructor; try sample_layer_loads; try discriminate;
      try (intros _; eexists; reflexivity). }
  destruct (Hthen Hok) as [Hdefs Hout].
  split; [exact Hok|]. split; [rewrite Hout; reflexivity | exact Hdefs].
Defined.

Lemma registry_is_the_loadable_declarations_witness :
  let items := [("area", custom (Some [grid])); ("sample", custom (Some [grid; roads]))] in
  (exists data_loader_,
     registry_of (@import_module float_Q world items) !! "area"
     = Some {| data_loader := data_loader_;
               entry_shape_layers := @registered float_Q world [grid] ∅;
               javascript_string :=
                 @get_javascript_string_from_dataset float_Q world (custom (Some [grid])) |})
  /\ forall e, registry_of (@import_module float_Q world items) !! "sample" = Some e ->
               False.
Proof.
  cbv zeta.
  destruct (@registry_is_the_loadable_declarations float_Q world
              [("area", custom (Some [grid])); ("sample", custom (Some [grid; roads]))])
    as [Hsound Hfull].
  split.
  - destruct (Hfull) with (k := "area") (d := custom (Some [grid]))
      as (dl & _ & Hentry).
    + simpl.
      apply NoDup_cons_2;
        [apply not_elem_of_cons; split; [discriminate | apply not_elem_of_nil]|].
      apply NoDup_cons_2; [apply not_elem_of_nil | apply NoDup_nil_2].
    + reflexivity.
    + by left.
    + reflexivity.
    + by exists dl.
  - intros e He. destruct (Hsound "sample" e He) as (d & dl & Hin & Hmiss & _).
    destruct Hin as [[=]|[[= <-]|[]]]. discriminate Hmiss.
Defined.

Lemma import_stops_at_first_raise_witness :
  let items := [("area", custom (Some [grid])); ("sample", custom (Some [roads; wells]));
                ("later", custom None)] in
  @import_module float_Q world items
  = ([("area", @enriched_dataset float_Q world (custom (Some [grid])));
      ("sample", custom (Some [roads; wells])); ("later", custom None)],
     @register_item float_Q world ∅ ("area", custom (Some [grid])),
     [warning roads_path "sample"],
     Raise (ValueError "Polygons and MultiPolygons only"))
  /\ load "/srv/landcover/shapes/wells.geojson"
     = Raise (ValueError "Polygons and MultiPolygons only")
  /\ registry_of (@import_module float_Q world items) !! "later" = None.
Proof.
  cbv zeta.
  destruct (@import_stops_at_first_raise float_Q world
              [("area", custom (Some [grid]))] "sample" (custom (Some [roads; wells]))
              [("later", custom None)])
    as (e & d' & more & Hturn & Himport & _ & _ & Hfirst).
  - repeat constructor; try sample_layer_loads; try discriminate;
      try (intros _; eexists; reflexivity).
  - intros [Hload _]. unfold files_load in Hload. simpl in Hload.
    apply Forall_cons in Hload as [_ Hload]. apply Forall_cons in Hload as [Hwells _].
    destruct (Hwells eq_refl) as (shapes & areas_ & crs_ & init & Hl & _).
    discriminate Hl.
  - assert (Hrun : @process_dataset float_Q world "sample"
                     {| DATASETS := ∅; stdout := [];
                        dataset := custom (Some [roads; wells]) |}
                   = ({| DATASETS := ∅; stdout := [warning roads_path "sample"];
                         dataset := custom (Some [roads; wells]) |},
                      Raise (ValueError "Polygons and MultiPolygons only")))
      by reflexivity.
    rewrite Hrun in Hturn. injection Hturn as <- <- <-.
    split; [exact Himport|]. split; [|reflexivity].
    destruct (Hfirst [roads] wells [] eq_refl) as [_ [Hwhy|[Hinit _]]].
    + constructor; [sample_layer_loads | constructor].
    + intros Hwells. destruct (Hwells eq_refl) as (? & ? & ? & ? & Hl & _).
      discriminate Hl.
    + exact Hwhy.
    + discriminate Hinit.
Defined.

Lemma table_is_well_formed_witness :
  exists data_loader_,
    @make_data_loader float_Q world (@airbus float_Q world float_literal_Q) ∅
    = Ok data_loader_.
Proof.
  destruct (@table_is_well_formed float_Q world float_literal_Q) as (_ & _ & Hfactory & _).
  apply (Hfactory ("airbus", @airbus float_Q world float_literal_Q) ∅).
  simpl. do 7 right. by left.
Defined.

Lemma import_of_the_table_witness :
  let registry := registry_of (@import_module float_Q world
                                 (@DATASET_DEFINITIONS float_Q world float_literal_Q)) in
  @data_loader float_Q world <$> (registry !! "esri_world_imagery")
  = Some (@DataLoaderBasemap float_Q world esri_url (@PyFloat float_Q (Qmake 1 2000)))
  /\ is_Some (registry !! "chesapeake")
  /\ ~ is_Some (registry !! "airbus").
Proof.
  cbv zeta.
  destruct (@import_of_the_table float_Q world float_literal_Q)
    as (Hiff & Hesri & _ & Hexact).
  assert (Hok : outcome_of (@import_module float_Q world
                              (@DATASET_DEFINITIONS float_Q world float_literal_Q))
                = Ok tt).
  { apply Hiff. intros item Hin. unfold files_load.
    apply List.Forall_forall. intros l Hl Hex. exfalso.
    simpl in Hin.
    destruct Hin as [<-|[<-|[<-|[<-|[<-|[<-|[<-|[<-|[<-|[]]]]]]]]]]; simpl in Hl;
      repeat (destruct Hl as [<-|Hl]; [discriminate Hex|]); destruct Hl. }
  split; [by rewrite Hesri|]. split.
  - apply (Hexact Hok "chesapeake" (@chesapeake float_Q world float_literal_Q));
      [simpl; do 8 right; by left | reflexivity].
  - intros H.
    apply (Hexact Hok "airbus" (@airbus float_Q world float_literal_Q)) in H;
      [discriminate H | simpl; do 7 right; by left].
Defined.

Lemma config_without_True_or_None_is_as_printed_witness :
  @outputs_kwargs float_Q world
    (declaration (Member BASEMAP) None
       (PyDict [("minZoom", PyInt 4); ("maxZoom", PyInt 20)]) None)
  = "{'minZoom': 4, 'maxZoom': 20}".
Proof.
  apply (proj1 (@config_without_True_or_None_is_as_printed float_Q world
                  (declaration (Member BASEMAP) None
                     (PyDict [("minZoom", PyInt 4); ("maxZoom", PyInt 20)]) None))).
  reflexivity.
Defined.

Lemma registry_does_not_depend_on_order_witness :
  registry_of (@import_module float_Q world
                 [("sample", custom (Some [grid; roads])); ("area", custom (Some [grid]));
                  ("basin", custom None)])
  = registry_of (@import_module float_Q world
                   [("area", custom (Some [grid])); ("basin", custom None);
                    ("sample", custom (Some [grid; roads]))]).
Proof.
  apply (@registry_does_not_depend_on_order float_Q world
           [("area", custom (Some [grid])); ("basin", custom None);
            ("sample", custom (Some [grid; roads]))]
           [("sample", custom (Some [grid; roads])); ("area", custom (Some [grid]));
            ("basin", custom None)]).
  - symmetry. apply Permutation_cons_append.
  - simpl. repeat (apply NoDup_cons_2;
                   [rewrite list_elem_of_In; simpl; intuition discriminate|]).
    apply NoDup_nil_2.
  - reflexivity.
Defined.
